(** * The bank ledger core: models, persistence, ledger engine, identity store

    A shallow embedding of the Python sources under [project/models] and
    [project/utils], followed by the properties of the ledger that the
    specification states.

    Conventions of the embedding.
    - A Python [float] is an IEEE 754 binary64 number: Rocq's primitive
      [float], whose [+], [-], [<=?] and [<?] are the hardware operations
      Python uses.
    - A Python [dict] is an insertion-ordered association list with distinct
      keys ([dict_get], [dict_set]); an object stored in a dict is addressed
      by its key, which plays the role of the object reference.
    - Values drawn from the environment ([uuid.uuid4], [random.randint],
      [datetime.now]) are explicit arguments of the operation that draws them.
    - Code that can raise returns an [outcome]. *)

From Stdlib Require Import Bool ZArith List String Ascii DecimalString Lia Floats.
From Stdlib Require Import Permutation Sorted.
Import ListNotations.

Set Warnings "-inexact-float,-register-all".
Open Scope string_scope.
Open Scope Z_scope.

(** ** Python exceptions and outcomes *)

Inductive exn :=
| JSONDecodeError
| KeyError
| ValueError
| TypeError
| AttributeError
| OverflowError
| RecursionError.

(** [Return a]: the call returns [a].  [Raise e]: the call raises [e].
    [Unmodelled]: the Python program goes on with a value that the annotated
    types of the model cannot hold (a JSON number where a [str] is annotated,
    a timestamp in another ISO 8601 layout than [isoformat] writes); nothing
    is stated about such runs. *)
Inductive outcome (A : Type) :=
| Return (a : A)
| Raise (e : exn)
| Unmodelled.

Arguments Return {A} a.
Arguments Raise {A} e.
Arguments Unmodelled {A}.

Definition bind {A B : Type} (o : outcome A) (k : A -> outcome B) : outcome B :=
  match o with
  | Return a => k a
  | Raise e => Raise e
  | Unmodelled => Unmodelled
  end.

Notation "x <- c1 ;; c2" := (bind c1 (fun x => c2))
  (at level 61, c1 at next level, right associativity).

(** [try: body except handled: return fallback]. *)
Definition try_except {A : Type} (body : outcome A) (handled : exn -> bool)
  (fallback : A) : outcome A :=
  match body with
  | Raise e => if handled e then Return fallback else Raise e
  | other => other
  end.

(** ** Python floats *)

(** The builtin [sum] over floats.  It starts from the integer [0]; the first
    addition turns the accumulator into a float.  From the second item on,
    CPython before 3.12 adds from left to right, and CPython 3.12 and later
    runs Neumaier's compensated summation.  The empty sum is the integer [0],
    held here as the float [0.0], which behaves the same in the subtraction
    the program applies to it. *)
Inductive summation := LeftToRight | Compensated.

Fixpoint neumaier (f_result c : float) (items : list float) : float :=
  match items with
  | [] =>
      if negb (c =? 0)%float && is_finite c then (f_result + c)%float
      else f_result
  | x :: rest =>
      let t := (f_result + x)%float in
      let c' :=
        if (abs x <=? abs f_result)%float
        then (c + ((f_result - t) + x))%float
        else (c + ((x - t) + f_result))%float in
      neumaier t c' rest
  end.

Definition py_sum (alg : summation) (items : list float) : float :=
  match items with
  | [] => 0%float
  | x :: rest =>
      match alg with
      | LeftToRight => fold_left PrimFloat.add rest (0 + x)%float
      | Compensated => neumaier (0 + x)%float 0%float rest
      end
  end.

(** [str(n)] for an integer [n]. *)
Definition str (n : Z) : string := NilZero.string_of_int (Z.to_int n).

(** [l[:stop]]: a negative [stop] counts from the end. *)
Definition slice_to {A : Type} (l : list A) (stop : Z) : list A :=
  if 0 <=? stop then firstn (Z.to_nat stop) l
  else firstn (Z.to_nat (Z.of_nat (List.length l) + stop)) l.

(** ** Python dicts *)

Section Dict.
Context {V : Type}.

Definition dict := list (string * V).

(** [d.get(k)] *)
Fixpoint dict_get (d : dict) (k : string) : option V :=
  match d with
  | [] => None
  | (k', v) :: rest => if String.eqb k' k then Some v else dict_get rest k
  end.

(** [d[k] = v]: an existing key keeps its position, a new key goes last. *)
Fixpoint dict_set (d : dict) (k : string) (v : V) : dict :=
  match d with
  | [] => [(k, v)]
  | (k', v') :: rest =>
      if String.eqb k' k then (k', v) :: rest else (k', v') :: dict_set rest k v
  end.

(** In-place mutation of the object stored under [k]. *)
Fixpoint dict_alter (f : V -> V) (k : string) (d : dict) : dict :=
  match d with
  | [] => []
  | (k', v) :: rest =>
      if String.eqb k' k then (k', f v) :: rest else (k', v) :: dict_alter f k rest
  end.

Definition dict_keys (d : dict) : list string := map fst d.
Definition dict_values (d : dict) : list V := map snd d.

End Dict.

Arguments dict V : clear implicits.

(** ** [datetime] *)

Module datetime.

Record t := {
  year : Z; month : Z; day : Z;
  hour : Z; minute : Z; second : Z; microsecond : Z
}.

Definition is_leap (y : Z) : bool :=
  (y mod 4 =? 0) && (negb (y mod 100 =? 0) || (y mod 400 =? 0)).

Definition days_in_month_table : list Z :=
  [31; 28; 31; 30; 31; 30; 31; 31; 30; 31; 30; 31].

Definition days_before_month_table : list Z :=
  [0; 31; 59; 90; 120; 151; 181; 212; 243; 273; 304; 334].

Definition days_before_year (y : Z) : Z :=
  let y' := y - 1 in y' * 365 + y' / 4 - y' / 100 + y' / 400.

Definition days_in_month (y m : Z) : Z :=
  if (m =? 2) && is_leap y then 29
  else nth (Z.to_nat (m - 1)) days_in_month_table 0.

Definition days_before_month (y m : Z) : Z :=
  nth (Z.to_nat (m - 1)) days_before_month_table 0
  + (if (2 <? m) && is_leap y then 1 else 0).

Definition ymd2ord (y m d : Z) : Z :=
  days_before_year y + days_before_month y m + d.

Definition ord2ymd (ordinal : Z) : Z * Z * Z :=
  let n := ordinal - 1 in
  let n400 := n / 146097 in
  let n := n mod 146097 in
  let n100 := n / 36524 in
  let n := n mod 36524 in
  let n4 := n / 1461 in
  let n := n mod 1461 in
  let n1 := n / 365 in
  let n := n mod 365 in
  let y := n400 * 400 + 1 + n100 * 100 + n4 * 4 + n1 in
  if (n1 =? 4) || (n100 =? 4) then (y - 1, 12, 31)
  else
    let leapyear := (n1 =? 3) && (negb (n4 =? 24) || (n100 =? 3)) in
    let m := Z.shiftr (n + 50) 5 in
    let preceding :=
      nth (Z.to_nat (m - 1)) days_before_month_table 0
      + (if (2 <? m) && leapyear then 1 else 0) in
    if n <? preceding then
      let m' := m - 1 in
      let preceding' :=
        preceding
        - (nth (Z.to_nat (m' - 1)) days_in_month_table 0
           + (if (m' =? 2) && leapyear then 1 else 0)) in
      (y, m', n - preceding' + 1)
    else (y, m, n - preceding + 1).

Definition toordinal (d : t) : Z := ymd2ord (year d) (month d) (day d).

Definition MAXORDINAL : Z := 3652059.

(** The fields are within the ranges the [datetime] constructor enforces. *)
Definition valid (d : t) : bool :=
  (1 <=? year d) && (year d <=? 9999) &&
  (1 <=? month d) && (month d <=? 12) &&
  (1 <=? day d) && (day d <=? days_in_month (year d) (month d)) &&
  (0 <=? hour d) && (hour d <=? 23) &&
  (0 <=? minute d) && (minute d <=? 59) &&
  (0 <=? second d) && (second d <=? 59) &&
  (0 <=? microsecond d) && (microsecond d <=? 999999).

Definition fields (d : t) : list Z :=
  [year d; month d; day d; hour d; minute d; second d; microsecond d].

Fixpoint lex_leb (a b : list Z) : bool :=
  match a, b with
  | x :: a', y :: b' => (x <? y) || ((x =? y) && lex_leb a' b')
  | _, _ => true
  end.

(** [a <= b] on naive datetimes. *)
Definition leb (a b : t) : bool := lex_leb (fields a) (fields b).

(** [d - timedelta(days=n)] *)
Definition sub_days (d : t) (n : Z) : outcome t :=
  if Z.abs n <=? 999999999 then
    let o := toordinal d - n in
    if (0 <? o) && (o <=? MAXORDINAL) then
      let '(y, m, dd) := ord2ymd o in
      Return {| year := y; month := m; day := dd;
                hour := hour d; minute := minute d; second := second d;
                microsecond := microsecond d |}
    else Raise OverflowError
  else Raise OverflowError.

(** *** ISO 8601 text *)

Definition digit (n : Z) : ascii := ascii_of_N (Z.to_N (48 + n)).

Definition digit_val (c : ascii) : option Z :=
  let n := Z.of_N (N_of_ascii c) in
  if (48 <=? n) && (n <=? 57) then Some (n - 48) else None.

Definition pad2 (n : Z) : list ascii := [digit (n / 10); digit (n mod 10)].
Definition pad4 (n : Z) : list ascii := pad2 (n / 100) ++ pad2 (n mod 100).
Definition pad6 (n : Z) : list ascii := pad2 (n / 10000) ++ pad4 (n mod 10000).

Definition sep_dash : ascii := ascii_of_N 45.
Definition sep_T : ascii := ascii_of_N 84.
Definition sep_colon : ascii := ascii_of_N 58.
Definition sep_dot : ascii := ascii_of_N 46.

(** [d.isoformat()]: [YYYY-MM-DDTHH:MM:SS], then [.ffffff] when the
    microsecond is not zero. *)
Definition isoformat (d : t) : string :=
  string_of_list_ascii
    (pad4 (year d) ++ [sep_dash] ++ pad2 (month d) ++ [sep_dash] ++ pad2 (day d)
     ++ [sep_T] ++ pad2 (hour d) ++ [sep_colon] ++ pad2 (minute d)
     ++ [sep_colon] ++ pad2 (second d)
     ++ (if microsecond d =? 0 then [] else sep_dot :: pad6 (microsecond d))).

Fixpoint number (digits : list ascii) (acc : Z) : option Z :=
  match digits with
  | [] => Some acc
  | c :: rest =>
      match digit_val c with
      | Some v => number rest (10 * acc + v)
      | None => None
      end
  end.

Definition checked (d : t) : outcome t :=
  if valid d then Return d else Raise ValueError.

Definition parse_fields (y m d h mi s us : list ascii) : outcome t :=
  match number y 0, number m 0, number d 0, number h 0, number mi 0,
        number s 0, number us 0 with
  | Some y', Some m', Some d', Some h', Some mi', Some s', Some us' =>
      checked {| year := y'; month := m'; day := d'; hour := h';
                 minute := mi'; second := s'; microsecond := us' |}
  | _, _, _, _, _, _, _ => Unmodelled
  end.

(** [datetime.fromisoformat(s)] on the two layouts [isoformat] writes; every
    Python version that has [fromisoformat] reads these layouts this way.
    Other layouts are accepted by some versions and rejected by others. *)
Definition fromisoformat (s : string) : outcome t :=
  match list_ascii_of_string s with
  | [y1; y2; y3; y4; c1; m1; m2; c2; d1; d2; c3; h1; h2; c4; mi1; mi2; c5; s1; s2] =>
      if Ascii.eqb c1 sep_dash && Ascii.eqb c2 sep_dash && Ascii.eqb c3 sep_T
         && Ascii.eqb c4 sep_colon && Ascii.eqb c5 sep_colon
      then parse_fields [y1; y2; y3; y4] [m1; m2] [d1; d2] [h1; h2] [mi1; mi2]
             [s1; s2] []
      else Unmodelled
  | [y1; y2; y3; y4; c1; m1; m2; c2; d1; d2; c3; h1; h2; c4; mi1; mi2; c5; s1; s2;
     c6; u1; u2; u3; u4; u5; u6] =>
      if Ascii.eqb c1 sep_dash && Ascii.eqb c2 sep_dash && Ascii.eqb c3 sep_T
         && Ascii.eqb c4 sep_colon && Ascii.eqb c5 sep_colon && Ascii.eqb c6 sep_dot
      then parse_fields [y1; y2; y3; y4] [m1; m2] [d1; d2] [h1; h2] [mi1; mi2]
             [s1; s2] [u1; u2; u3; u4; u5; u6]
      else Unmodelled
  | _ => Unmodelled
  end.

End datetime.

(** ** JSON documents, as [json.load] returns them *)

Inductive json :=
| JNull
| JBool (b : bool)
| JInt (z : Z)
| JFloat (f : float)
| JStr (s : string)
| JArr (items : list json)
| JObj (members : list (string * json)).

(** [data[key]] *)
Definition subscript (data : json) (key : string) : outcome json :=
  match data with
  | JObj members =>
      match dict_get members key with
      | Some v => Return v
      | None => Raise KeyError
      end
  | _ => Raise TypeError
  end.

(** [data.get(key)]; [None] is [JNull]. *)
Definition get (data : json) (key : string) : outcome json :=
  match data with
  | JObj members =>
      match dict_get members key with
      | Some v => Return v
      | None => Return JNull
      end
  | _ => Raise AttributeError
  end.

(** [data.get(key, default)]: [None] when the key is absent. *)
Definition get_default (data : json) (key : string) : outcome (option json) :=
  match data with
  | JObj members => Return (dict_get members key)
  | _ => Raise AttributeError
  end.

(** [data.items()] *)
Definition items (data : json) : outcome (list (string * json)) :=
  match data with
  | JObj members => Return members
  | _ => Raise AttributeError
  end.

(** Truth value of [v] in a condition. *)
Definition truthy (v : json) : bool :=
  match v with
  | JNull => false
  | JBool b => b
  | JInt z => negb (z =? 0)
  | JFloat f => negb (f =? 0)%float
  | JStr s => negb (String.eqb s "")
  | JArr l => match l with [] => false | _ => true end
  | JObj l => match l with [] => false | _ => true end
  end.

(** [float(v)] *)
Definition to_float (v : json) : outcome float :=
  match v with
  | JFloat f => Return f
  | JBool b => Return (if b then 1%float else 0%float)
  | JInt z =>
      let f := SF2Prim (binary_normalize prec emax z 0 false) in
      if is_infinity f then Raise OverflowError else Return f
  | JStr _ => Unmodelled
  | _ => Raise TypeError
  end.

(** A value of the annotated type, or a run outside the model. *)
Definition as_str (v : json) : outcome string :=
  match v with JStr s => Return s | _ => Unmodelled end.

Definition as_optional_str (v : json) : outcome (option string) :=
  match v with JStr s => Return (Some s) | JNull => Return None | _ => Unmodelled end.

Definition as_bool (v : option json) (default : bool) : outcome bool :=
  match v with
  | None => Return default
  | Some (JBool b) => Return b
  | Some _ => Unmodelled
  end.

Definition as_float (v : option json) (default : float) : outcome float :=
  match v with
  | None => Return default
  | Some (JFloat f) => Return f
  | Some _ => Unmodelled
  end.

(** [datetime.fromisoformat(data[key]) if data.get(key) else None] *)
Definition optional_datetime (data : json) (key : string) : outcome (option datetime.t) :=
  v <- get data key ;;
  if truthy v then
    raw <- subscript data key ;;
    match raw with
    | JStr s => d <- datetime.fromisoformat s ;; Return (Some d)
    | _ => Raise TypeError
    end
  else Return None.

(** [d.isoformat() if d else None]: a [datetime] object is always true. *)
Definition isoformat_or_null (d : option datetime.t) : json :=
  match d with
  | Some d' => JStr (datetime.isoformat d')
  | None => JNull
  end.

(** ** [models/user.py] *)

Module User.

Record t := {
  user_id : string;
  username : string;
  email : string;
  phone : string;
  role : string;
  password_hash : string;
  created_at : datetime.t;
  last_login : option datetime.t;
  is_active : bool
}.

(** [User.__init__]; [now] is what [datetime.now()] returns in this call. *)
Definition init (now : datetime.t) (user_id username email phone role
  password_hash : string) (created_at : option datetime.t) : t :=
  {| user_id := user_id; username := username; email := email; phone := phone;
     role := role; password_hash := password_hash;
     created_at := match created_at with Some d => d | None => now end;
     last_login := None;
     is_active := true |}.

Definition set_last_login (u : t) (d : option datetime.t) : t :=
  {| user_id := user_id u; username := username u; email := email u;
     phone := phone u; role := role u; password_hash := password_hash u;
     created_at := created_at u; last_login := d; is_active := is_active u |}.

Definition set_is_active (u : t) (b : bool) : t :=
  {| user_id := user_id u; username := username u; email := email u;
     phone := phone u; role := role u; password_hash := password_hash u;
     created_at := created_at u; last_login := last_login u; is_active := b |}.

Definition set_password_hash (u : t) (h : string) : t :=
  {| user_id := user_id u; username := username u; email := email u;
     phone := phone u; role := role u; password_hash := h;
     created_at := created_at u; last_login := last_login u;
     is_active := is_active u |}.

(** [update_last_login]; [now] is what [datetime.now()] returns. *)
Definition update_last_login (now : datetime.t) (u : t) : t :=
  set_last_login u (Some now).

Section Hashing.

(** [hashlib.sha256(password.encode()).hexdigest()] *)
Variable sha256_hexdigest : string -> string.

Definition hash_password (password : string) : string := sha256_hexdigest password.

(** [new_id] is the string of the UUID drawn by [uuid.uuid4()]. *)
Definition create_user (new_id : string) (now : datetime.t)
  (username password email phone role : string) : t :=
  init now new_id username email phone role (hash_password password) None.

Definition verify_password (u : t) (password : string) : bool :=
  String.eqb (password_hash u) (hash_password password).

End Hashing.

Definition to_dict (u : t) : json :=
  JObj [("user_id", JStr (user_id u));
        ("username", JStr (username u));
        ("email", JStr (email u));
        ("phone", JStr (phone u));
        ("role", JStr (role u));
        ("password_hash", JStr (password_hash u));
        ("created_at", isoformat_or_null (Some (created_at u)));
        ("last_login", isoformat_or_null (last_login u));
        ("is_active", JBool (is_active u))].

Definition from_dict (now : datetime.t) (data : json) : outcome t :=
  user_id' <- subscript data "user_id" ;;
  username' <- subscript data "username" ;;
  email' <- subscript data "email" ;;
  phone' <- subscript data "phone" ;;
  role' <- subscript data "role" ;;
  password_hash' <- subscript data "password_hash" ;;
  created_at' <- optional_datetime data "created_at" ;;
  last_login' <- optional_datetime data "last_login" ;;
  is_active' <- get_default data "is_active" ;;
  user_id' <- as_str user_id' ;;
  username' <- as_str username' ;;
  email' <- as_str email' ;;
  phone' <- as_str phone' ;;
  role' <- as_str role' ;;
  password_hash' <- as_str password_hash' ;;
  is_active' <- as_bool is_active' true ;;
  let user := init now user_id' username' email' phone' role' password_hash'
                created_at' in
  Return (set_is_active (set_last_login user last_login') is_active').

End User.

(** ** [models/account.py] *)

Module Account.

Record t := {
  account_id : string;
  user_id : string;
  account_number : string;
  account_type : string;
  balance : float;
  created_at : datetime.t;
  is_active : bool;
  daily_transaction_limit : float;
  monthly_transaction_limit : float
}.

(** [Account.__init__]; [float(balance)] is the identity on a float. *)
Definition init (now : datetime.t) (account_id user_id account_number
  account_type : string) (balance : float) (created_at : option datetime.t) : t :=
  {| account_id := account_id; user_id := user_id;
     account_number := account_number; account_type := account_type;
     balance := balance;
     created_at := match created_at with Some d => d | None => now end;
     is_active := true;
     daily_transaction_limit := 50000.0%float;
     monthly_transaction_limit := 500000.0%float |}.

Definition set_balance (a : t) (b : float) : t :=
  {| account_id := account_id a; user_id := user_id a;
     account_number := account_number a; account_type := account_type a;
     balance := b; created_at := created_at a; is_active := is_active a;
     daily_transaction_limit := daily_transaction_limit a;
     monthly_transaction_limit := monthly_transaction_limit a |}.

Definition set_is_active (a : t) (b : bool) : t :=
  {| account_id := account_id a; user_id := user_id a;
     account_number := account_number a; account_type := account_type a;
     balance := balance a; created_at := created_at a; is_active := b;
     daily_transaction_limit := daily_transaction_limit a;
     monthly_transaction_limit := monthly_transaction_limit a |}.

Definition set_transaction_limits (a : t) (daily_limit monthly_limit : float) : t :=
  {| account_id := account_id a; user_id := user_id a;
     account_number := account_number a; account_type := account_type a;
     balance := balance a; created_at := created_at a; is_active := is_active a;
     daily_transaction_limit := daily_limit;
     monthly_transaction_limit := monthly_limit |}.

(** [generate_account_number]; [drawn] is the value of
    [random.randint(1000000000, 9999999999)]. *)
Definition generate_account_number (drawn : Z) : string := str drawn.

(** What one call of [create_account] draws from its environment. *)
Record draw := {
  drawn_uuid : string;
  drawn_number : Z;
  drawn_now : datetime.t
}.

Definition create_account (dr : draw) (user_id account_type : string)
  (initial_balance : float) : t :=
  init (drawn_now dr) (drawn_uuid dr) user_id
    (generate_account_number (drawn_number dr)) account_type initial_balance None.

(** The methods that change [self] return the answer and the new [self]. *)
Definition deposit (self : t) (amount : float) : bool * t :=
  if (amount <=? 0)%float then (false, self)
  else (true, set_balance self (balance self + amount)%float).

Definition withdraw (self : t) (amount : float) : bool * t :=
  if (amount <=? 0)%float || (balance self <? amount)%float then (false, self)
  else (true, set_balance self (balance self - amount)%float).

Definition debit (amount : float) (a : t) : t :=
  set_balance a (balance a - amount)%float.

Definition credit (amount : float) (a : t) : t :=
  set_balance a (balance a + amount)%float.

(** [self.transfer_to(target_account, amount)].  The two objects live in
    [heap] under the references [self_ref] and [target_ref], which may be the
    same reference; [self] is the object under [self_ref] when the call
    starts.  The debit is written before the credit reads the target. *)
Definition transfer_to (self : t) (self_ref target_ref : string) (amount : float)
  (heap : dict t) : bool * dict t :=
  if (amount <=? 0)%float || (balance self <? amount)%float then (false, heap)
  else (true, dict_alter (credit amount) target_ref
                (dict_alter (debit amount) self_ref heap)).

Definition get_balance (self : t) : float := balance self.

Definition to_dict (a : t) : json :=
  JObj [("account_id", JStr (account_id a));
        ("user_id", JStr (user_id a));
        ("account_number", JStr (account_number a));
        ("account_type", JStr (account_type a));
        ("balance", JFloat (balance a));
        ("created_at", isoformat_or_null (Some (created_at a)));
        ("is_active", JBool (is_active a));
        ("daily_transaction_limit", JFloat (daily_transaction_limit a));
        ("monthly_transaction_limit", JFloat (monthly_transaction_limit a))].

Definition from_dict (now : datetime.t) (data : json) : outcome t :=
  account_id' <- subscript data "account_id" ;;
  user_id' <- subscript data "user_id" ;;
  account_number' <- subscript data "account_number" ;;
  account_type' <- subscript data "account_type" ;;
  balance' <- subscript data "balance" ;;
  created_at' <- optional_datetime data "created_at" ;;
  balance' <- to_float balance' ;;
  is_active' <- get_default data "is_active" ;;
  daily' <- get_default data "daily_transaction_limit" ;;
  monthly' <- get_default data "monthly_transaction_limit" ;;
  account_id' <- as_str account_id' ;;
  user_id' <- as_str user_id' ;;
  account_number' <- as_str account_number' ;;
  account_type' <- as_str account_type' ;;
  is_active' <- as_bool is_active' true ;;
  daily' <- as_float daily' 50000.0%float ;;
  monthly' <- as_float monthly' 500000.0%float ;;
  let account := init now account_id' user_id' account_number' account_type'
                   balance' created_at' in
  Return (set_transaction_limits (set_is_active account is_active') daily' monthly').

End Account.

(** ** [models/transaction.py] *)

Module Transaction.

Inductive TransactionType := DEPOSIT | WITHDRAWAL | TRANSFER | FEE.

Inductive TransactionStatus := PENDING | COMPLETED | FAILED | CANCELLED.

(** [member.value] *)
Definition type_value (ty : TransactionType) : string :=
  match ty with
  | DEPOSIT => "deposit"
  | WITHDRAWAL => "withdrawal"
  | TRANSFER => "transfer"
  | FEE => "fee"
  end.

Definition status_value (st : TransactionStatus) : string :=
  match st with
  | PENDING => "pending"
  | COMPLETED => "completed"
  | FAILED => "failed"
  | CANCELLED => "cancelled"
  end.

(** [TransactionType(v)]: the member whose value is [v], else [ValueError]. *)
Definition type_of_value (v : json) : outcome TransactionType :=
  match v with
  | JStr s =>
      match find (fun ty => String.eqb (type_value ty) s)
              [DEPOSIT; WITHDRAWAL; TRANSFER; FEE] with
      | Some ty => Return ty
      | None => Raise ValueError
      end
  | _ => Raise ValueError
  end.

Definition status_of_value (v : json) : outcome TransactionStatus :=
  match v with
  | JStr s =>
      match find (fun st => String.eqb (status_value st) s)
              [PENDING; COMPLETED; FAILED; CANCELLED] with
      | Some st => Return st
      | None => Raise ValueError
      end
  | _ => Raise ValueError
  end.

Definition type_eqb (a b : TransactionType) : bool :=
  match a, b with
  | DEPOSIT, DEPOSIT | WITHDRAWAL, WITHDRAWAL | TRANSFER, TRANSFER | FEE, FEE => true
  | _, _ => false
  end.

Definition status_eqb (a b : TransactionStatus) : bool :=
  match a, b with
  | PENDING, PENDING | COMPLETED, COMPLETED | FAILED, FAILED
  | CANCELLED, CANCELLED => true
  | _, _ => false
  end.

Record t := {
  transaction_id : string;
  account_id : string;
  transaction_type : TransactionType;
  amount : float;
  description : string;
  target_account_id : option string;
  created_at : datetime.t;
  status : TransactionStatus;
  reference_number : string;
  fee : float
}.

(** [generate_reference_number]; [drawn] is the value of
    [random.randint(100000, 999999)]. *)
Definition generate_reference_number (drawn : Z) : string :=
  "TXN" ++ str drawn.

(** What one call of [create_transaction] draws from its environment. *)
Record draw := {
  drawn_uuid : string;
  drawn_reference : Z;
  drawn_now : datetime.t
}.

(** [Transaction.__init__] *)
Definition init (now : datetime.t) (reference : Z) (transaction_id account_id : string)
  (transaction_type : TransactionType) (amount : float) (description : string)
  (target_account_id : option string) (created_at : option datetime.t) : t :=
  {| transaction_id := transaction_id; account_id := account_id;
     transaction_type := transaction_type; amount := amount;
     description := description; target_account_id := target_account_id;
     created_at := match created_at with Some d => d | None => now end;
     status := PENDING;
     reference_number := generate_reference_number reference;
     fee := 0.0%float |}.

Definition create_transaction (dr : draw) (account_id : string)
  (transaction_type : TransactionType) (amount : float) (description : string)
  (target_account_id : option string) : t :=
  init (drawn_now dr) (drawn_reference dr) (drawn_uuid dr) account_id
    transaction_type amount description target_account_id None.

Definition set_status (x : t) (s : TransactionStatus) : t :=
  {| transaction_id := transaction_id x; account_id := account_id x;
     transaction_type := transaction_type x; amount := amount x;
     description := description x; target_account_id := target_account_id x;
     created_at := created_at x; status := s;
     reference_number := reference_number x; fee := fee x |}.

Definition set_reference_number (x : t) (r : string) : t :=
  {| transaction_id := transaction_id x; account_id := account_id x;
     transaction_type := transaction_type x; amount := amount x;
     description := description x; target_account_id := target_account_id x;
     created_at := created_at x; status := status x;
     reference_number := r; fee := fee x |}.

Definition add_fee (x : t) (fee_amount : float) : t :=
  {| transaction_id := transaction_id x; account_id := account_id x;
     transaction_type := transaction_type x; amount := amount x;
     description := description x; target_account_id := target_account_id x;
     created_at := created_at x; status := status x;
     reference_number := reference_number x; fee := fee_amount |}.

Definition complete_transaction (x : t) : t := set_status x COMPLETED.
Definition fail_transaction (x : t) : t := set_status x FAILED.
Definition cancel_transaction (x : t) : t := set_status x CANCELLED.

Definition to_dict (x : t) : json :=
  JObj [("transaction_id", JStr (transaction_id x));
        ("account_id", JStr (account_id x));
        ("transaction_type", JStr (type_value (transaction_type x)));
        ("amount", JFloat (amount x));
        ("description", JStr (description x));
        ("target_account_id",
           match target_account_id x with Some a => JStr a | None => JNull end);
        ("created_at", isoformat_or_null (Some (created_at x)));
        ("status", JStr (status_value (status x)));
        ("reference_number", JStr (reference_number x));
        ("fee", JFloat (fee x))].

(** [reference] and [reference'] are the two numbers drawn while the record
    is rebuilt: one in [__init__], one for the default of
    [data.get('reference_number', ...)], which is evaluated in any case. *)
Definition from_dict (now : datetime.t) (reference reference' : Z) (data : json)
  : outcome t :=
  transaction_id' <- subscript data "transaction_id" ;;
  account_id' <- subscript data "account_id" ;;
  type_raw <- subscript data "transaction_type" ;;
  transaction_type' <- type_of_value type_raw ;;
  amount' <- subscript data "amount" ;;
  description' <- get_default data "description" ;;
  target' <- get data "target_account_id" ;;
  created_at' <- optional_datetime data "created_at" ;;
  amount' <- to_float amount' ;;
  status_raw <- get_default data "status" ;;
  status' <- status_of_value
               (match status_raw with Some v => v | None => JStr "pending" end) ;;
  reference_raw <- get_default data "reference_number" ;;
  fee_raw <- get_default data "fee" ;;
  transaction_id' <- as_str transaction_id' ;;
  account_id' <- as_str account_id' ;;
  description' <- as_str (match description' with Some v => v | None => JStr "" end) ;;
  target' <- as_optional_str target' ;;
  reference_number' <-
    as_str (match reference_raw with
            | Some v => v
            | None => JStr (generate_reference_number reference')
            end) ;;
  fee' <- as_float fee_raw 0.0%float ;;
  let transaction := init now reference transaction_id' account_id'
                       transaction_type' amount' description' target' created_at' in
  Return (add_fee (set_reference_number (set_status transaction status')
                     reference_number') fee').

End Transaction.

(** ** [utils/data_manager.py] *)

Module DataManager.

(** What one file of the data directory holds: no file; text that
    [json.load] rejects with [JSONDecodeError]; text nested more deeply than
    the interpreter recurses, on which [json.load] raises [RecursionError];
    or the document [json.load] returns.  The file, when there is one, is
    taken to be readable. *)
Inductive file :=
| Missing
| Undecodable
| Overnested
| Document (j : json).

(** The data directory. *)
Record t := {
  users_file : file;
  accounts_file : file;
  transactions_file : file
}.

(** [with open(path, 'r') as f: json.load(f)], which the loaders reach only
    for a file that exists. *)
Definition json_load (f : file) : outcome json :=
  match f with
  | Document j => Return j
  | Overnested => Raise RecursionError
  | _ => Raise JSONDecodeError
  end.

(** [except (json.JSONDecodeError, KeyError, ValueError)] *)
Definition handled (e : exn) : bool :=
  match e with
  | JSONDecodeError | KeyError | ValueError => true
  | _ => false
  end.

(** [{key: record.to_dict() for key, record in records.items()}] *)
Definition dump {R : Type} (to_dict : R -> json) (records : dict R) : json :=
  JObj (map (fun '(key, record) => (key, to_dict record)) records).

(** [for key, data in records_data.items(): records[key] = from_dict(data)];
    [i] counts the records read so far. *)
Fixpoint load_records {R : Type} (from_dict : nat -> json -> outcome R) (i : nat)
  (members : list (string * json)) (records : dict R) : outcome (dict R) :=
  match members with
  | [] => Return records
  | (key, data) :: rest =>
      record <- from_dict i data ;;
      load_records from_dict (S i) rest (dict_set records key record)
  end.

Definition load {R : Type} (from_dict : nat -> json -> outcome R) (f : file)
  : outcome (dict R) :=
  match f with
  | Missing => Return []
  | _ =>
      try_except
        (data <- json_load f ;;
         members <- items data ;;
         load_records from_dict 0%nat members [])
        handled []
  end.

Definition save_users (self : t) (users : dict User.t) : t :=
  {| users_file := Document (dump User.to_dict users);
     accounts_file := accounts_file self;
     transactions_file := transactions_file self |}.

Definition save_accounts (self : t) (accounts : dict Account.t) : t :=
  {| users_file := users_file self;
     accounts_file := Document (dump Account.to_dict accounts);
     transactions_file := transactions_file self |}.

Definition save_transactions (self : t) (transactions : dict Transaction.t) : t :=
  {| users_file := users_file self;
     accounts_file := accounts_file self;
     transactions_file := Document (dump Transaction.to_dict transactions) |}.

(** The environment of a load: for the record at position [i], what
    [datetime.now()] returns and the two reference numbers drawn. *)
Record oracle := {
  now_at : nat -> datetime.t;
  reference_at : nat -> Z;
  reference_at' : nat -> Z
}.

Definition load_users (env : oracle) (self : t) : outcome (dict User.t) :=
  load (fun i => User.from_dict (now_at env i)) (users_file self).

Definition load_accounts (env : oracle) (self : t) : outcome (dict Account.t) :=
  load (fun i => Account.from_dict (now_at env i)) (accounts_file self).

Definition load_transactions (env : oracle) (self : t) : outcome (dict Transaction.t) :=
  load (fun i => Transaction.from_dict (now_at env i) (reference_at env i)
                   (reference_at' env i))
    (transactions_file self).

End DataManager.

(** ** [models/bank_system.py] *)

Module BankSystem.

Import Transaction.

Record t := {
  data_manager : DataManager.t;
  users : dict User.t;
  accounts : dict Account.t;
  transactions : dict Transaction.t
}.

(** [BankSystem.__init__] over the data directory [dir]. *)
Definition init (env : DataManager.oracle) (dir : DataManager.t) : outcome t :=
  users' <- DataManager.load_users env dir ;;
  accounts' <- DataManager.load_accounts env dir ;;
  transactions' <- DataManager.load_transactions env dir ;;
  Return {| data_manager := dir; users := users'; accounts := accounts';
            transactions := transactions' |}.

(** [self.transactions[transaction.transaction_id] = transaction] *)
Definition record_transaction (store : dict Transaction.t) (transaction : Transaction.t)
  : dict Transaction.t :=
  dict_set store (transaction_id transaction) transaction.

(** The state after the body of an operation: the two collections as they
    stand, and the data directory after the saves the operation made. *)
Definition commit (self : t) (accounts' : dict Account.t)
  (transactions' : dict Transaction.t) (save_accounts : bool) : t :=
  let dir := if save_accounts
             then DataManager.save_accounts (data_manager self) accounts'
             else data_manager self in
  {| data_manager := DataManager.save_transactions dir transactions';
     users := users self;
     accounts := accounts';
     transactions := transactions' |}.

Definition create_account (adr : Account.draw) (tdr : Transaction.draw) (self : t)
  (user_id account_type : string) (initial_balance : float) : Account.t * t :=
  let account := Account.create_account adr user_id account_type initial_balance in
  let accounts' := dict_set (accounts self) (Account.account_id account) account in
  let transactions' :=
    if (0 <? initial_balance)%float then
      let transaction :=
        create_transaction tdr (Account.account_id account) DEPOSIT initial_balance
          "Initial deposit" None in
      record_transaction (transactions self) (complete_transaction transaction)
    else transactions self in
  (account, commit self accounts' transactions' true).

Definition get_user_accounts (self : t) (user_id : string) : list Account.t :=
  filter (fun account => String.eqb (Account.user_id account) user_id
                         && Account.is_active account)
    (dict_values (accounts self)).

(** The first active account with this number: its reference in
    [self.accounts] and the object. *)
Definition get_account_by_number (self : t) (account_number : string)
  : option (string * Account.t) :=
  find (fun entry => String.eqb (Account.account_number (snd entry)) account_number
                     && Account.is_active (snd entry))
    (accounts self).

Definition get_account_by_id (self : t) (account_id : string) : option Account.t :=
  dict_get (accounts self) account_id.

Definition deposit (tdr : Transaction.draw) (self : t) (account_id : string)
  (amount : float) (description : string) : bool * t :=
  match get_account_by_id self account_id with
  | None => (false, self)
  | Some account =>
      if (amount <=? 0)%float then (false, self)
      else
        let transaction :=
          create_transaction tdr account_id DEPOSIT amount description None in
        let '(ok, account') := Account.deposit account amount in
        if ok then
          (true,
           commit self (dict_set (accounts self) account_id account')
             (record_transaction (transactions self) (complete_transaction transaction))
             true)
        else
          (false,
           commit self (accounts self)
             (record_transaction (transactions self) (fail_transaction transaction))
             false)
  end.

Definition withdraw (tdr : Transaction.draw) (self : t) (account_id : string)
  (amount : float) (description : string) : bool * t :=
  match get_account_by_id self account_id with
  | None => (false, self)
  | Some account =>
      if (amount <=? 0)%float then (false, self)
      else
        let transaction :=
          create_transaction tdr account_id WITHDRAWAL amount description None in
        let '(ok, account') := Account.withdraw account amount in
        if ok then
          (true,
           commit self (dict_set (accounts self) account_id account')
             (record_transaction (transactions self) (complete_transaction transaction))
             true)
        else
          (false,
           commit self (accounts self)
             (record_transaction (transactions self) (fail_transaction transaction))
             false)
  end.

(** [tdr] is drawn for the transfer record, [tdr'] for the deposit record of
    the target account. *)
Definition transfer (tdr tdr' : Transaction.draw) (self : t)
  (from_account_id to_account_number : string) (amount : float)
  (description : string) : bool * t :=
  match get_account_by_id self from_account_id,
        get_account_by_number self to_account_number with
  | Some from_account, Some (to_ref, to_account) =>
      if (amount <=? 0)%float then (false, self)
      else
        let transaction :=
          create_transaction tdr from_account_id TRANSFER amount description
            (Some (Account.account_id to_account)) in
        let '(ok, accounts') :=
          Account.transfer_to from_account from_account_id to_ref amount
            (accounts self) in
        if ok then
          let transactions' :=
            record_transaction (transactions self) (complete_transaction transaction) in
          let deposit_transaction :=
            create_transaction tdr' (Account.account_id to_account) DEPOSIT amount
              ("Transfer from " ++ Account.account_number from_account)
              (Some (Account.account_id from_account)) in
          (true,
           commit self accounts'
             (record_transaction transactions' (complete_transaction deposit_transaction))
             true)
        else
          (false,
           commit self (accounts self)
             (record_transaction (transactions self) (fail_transaction transaction))
             false)
  | _, _ => (false, self)
  end.

(** [records.sort(key=lambda x: x.created_at, reverse=True)]: the sort is
    stable, so records created at the same instant keep their order. *)
Fixpoint insert_newest_first (x : Transaction.t) (sorted : list Transaction.t)
  : list Transaction.t :=
  match sorted with
  | [] => [x]
  | y :: rest =>
      if datetime.leb (created_at y) (created_at x) then x :: y :: rest
      else y :: insert_newest_first x rest
  end.

Definition sort_newest_first (records : list Transaction.t) : list Transaction.t :=
  fold_right insert_newest_first [] records.

Definition get_account_transactions (self : t) (account_id : string) (limit : Z)
  : list Transaction.t :=
  let account_transactions :=
    filter (fun x => String.eqb (Transaction.account_id x) account_id)
      (dict_values (transactions self)) in
  slice_to (sort_newest_first account_transactions) limit.

Definition get_all_transactions (self : t) (limit : Z) : list Transaction.t :=
  slice_to (sort_newest_first (dict_values (transactions self))) limit.

Record summary := {
  period_days : Z;
  total_transactions : nat;
  total_deposits : float;
  total_withdrawals : float;
  total_transfers : float;
  net_flow : float
}.

(** [sum(t.amount for t in recent if t.transaction_type == ty and
    t.status == TransactionStatus.COMPLETED)] *)
Definition total_completed (alg : summation) (ty : TransactionType)
  (recent : list Transaction.t) : float :=
  py_sum alg
    (map amount
       (filter (fun x => type_eqb (transaction_type x) ty
                         && status_eqb (status x) COMPLETED)
          recent)).

(** [now] is what [datetime.now()] returns in this call. *)
Definition get_transaction_summary (alg : summation) (now : datetime.t) (self : t)
  (days : Z) : outcome summary :=
  let end_date := now in
  start_date <- datetime.sub_days end_date days ;;
  let recent_transactions :=
    filter (fun x => datetime.leb start_date (created_at x)
                     && datetime.leb (created_at x) end_date)
      (dict_values (transactions self)) in
  let deposits := total_completed alg DEPOSIT recent_transactions in
  let withdrawals := total_completed alg WITHDRAWAL recent_transactions in
  let transfers := total_completed alg TRANSFER recent_transactions in
  Return {| period_days := days;
            total_transactions := List.length recent_transactions;
            total_deposits := deposits;
            total_withdrawals := withdrawals;
            total_transfers := transfers;
            net_flow := (deposits - withdrawals)%float |}.

Record stats := {
  total_users : nat;
  total_accounts : nat;
  total_balance : float;
  stats_total_transactions : nat
}.

Definition get_system_stats (alg : summation) (self : t) : stats :=
  {| total_users := List.length (filter User.is_active (dict_values (users self)));
     total_accounts := List.length (filter Account.is_active (dict_values (accounts self)));
     total_balance :=
       py_sum alg
         (map Account.balance (filter Account.is_active (dict_values (accounts self))));
     stats_total_transactions := List.length (transactions self) |}.

End BankSystem.

(** ** [utils/auth.py] *)

Module AuthManager.

Record t := {
  data_manager : DataManager.t;
  users : dict User.t
}.

Section Hashing.

Variable sha256_hexdigest : string -> string.

(** [new_id] and [now] are drawn by [User.create_user] when it is reached. *)
Definition register_user (new_id : string) (now : datetime.t) (self : t)
  (username password email phone role : string) : bool * t :=
  if existsb (fun user => String.eqb (User.username user) username)
       (dict_values (users self))
  then (false, self)
  else
    let new_user :=
      User.create_user sha256_hexdigest new_id now username password email phone role in
    let users' := dict_set (users self) (User.user_id new_user) new_user in
    (true, {| data_manager := DataManager.save_users (data_manager self) users';
              users := users' |}).

End Hashing.

Definition get_user (self : t) (user_id : string) : option User.t :=
  dict_get (users self) user_id.

Definition get_user_by_username (self : t) (username : string) : option User.t :=
  find (fun user => String.eqb (User.username user) username) (dict_values (users self)).

Definition get_all_users (self : t) : dict User.t := users self.

(** The state after a method changed the users and saved them. *)
Definition saved (self : t) (users' : dict User.t) : t :=
  {| data_manager := DataManager.save_users (data_manager self) users';
     users := users' |}.

Definition deactivate_user (self : t) (user_id : string) : bool * t :=
  match get_user self user_id with
  | None => (false, self)
  | Some _ =>
      (true, saved self (dict_alter (fun user => User.set_is_active user false)
                           user_id (users self)))
  end.

Section Credentials.

Variable sha256_hexdigest : string -> string.

(** [new_id] and [now] are drawn by [User.create_user]. *)
Definition create_default_admin (new_id : string) (now : datetime.t) (self : t) : t :=
  let admin_user :=
    User.create_user sha256_hexdigest new_id now "admin" "admin123" "admin@bank.com"
      "1234567890" "admin" in
  saved self (dict_set (users self) (User.user_id admin_user) admin_user).

(** [AuthManager.__init__] over the data directory [dir]. *)
Definition init (env : DataManager.oracle) (new_id : string) (now : datetime.t)
  (dir : DataManager.t) : outcome t :=
  users' <- DataManager.load_users env dir ;;
  let self := {| data_manager := dir; users := users' |} in
  Return (match users' with
          | [] => create_default_admin new_id now self
          | _ => self
          end).

(** The loop of [authenticate_user] over [self.users.values()]: the first
    user that matches is stamped with [now] in place and returned. *)
Fixpoint login (now : datetime.t) (username password : string) (entries : dict User.t)
  : option (User.t * dict User.t) :=
  match entries with
  | [] => None
  | (key, user) :: rest =>
      if String.eqb (User.username user) username
         && User.verify_password sha256_hexdigest user password
         && User.is_active user
      then
        let user' := User.update_last_login now user in
        Some (user', (key, user') :: rest)
      else
        match login now username password rest with
        | Some (found, rest') => Some (found, (key, user) :: rest')
        | None => None
        end
  end.

Definition authenticate_user (now : datetime.t) (self : t)
  (username password : string) : option User.t * t :=
  match login now username password (users self) with
  | Some (user, users') => (Some user, saved self users')
  | None => (None, self)
  end.

Definition change_password (self : t) (user_id old_password new_password : string)
  : bool * t :=
  match get_user self user_id with
  | None => (false, self)
  | Some user =>
      if User.verify_password sha256_hexdigest user old_password then
        (true,
         saved self
           (dict_alter
              (fun user' =>
                 User.set_password_hash user'
                   (User.hash_password sha256_hexdigest new_password))
              user_id (users self)))
      else (false, self)
  end.

End Credentials.

End AuthManager.

(** ** Fixtures: small concrete states the lemmas below are exercised on *)

Module Fixture.

Definition at_noon (day_of_january : Z) : datetime.t :=
  {| datetime.year := 2026; datetime.month := 1; datetime.day := day_of_january;
     datetime.hour := 12; datetime.minute := 0; datetime.second := 0;
     datetime.microsecond := 0 |}.

Definition noon : datetime.t := at_noon 15.

Definition empty_directory : DataManager.t :=
  {| DataManager.users_file := DataManager.Missing;
     DataManager.accounts_file := DataManager.Missing;
     DataManager.transactions_file := DataManager.Missing |}.

(** The engine right after its first start on an empty data directory. *)
Definition empty_bank : BankSystem.t :=
  {| BankSystem.data_manager := empty_directory;
     BankSystem.users := [];
     BankSystem.accounts := [];
     BankSystem.transactions := [] |}.

(** An engine holding these collections, with the directory they were saved to. *)
Definition bank_of (accounts : dict Account.t) (transactions : dict Transaction.t)
  : BankSystem.t :=
  {| BankSystem.data_manager :=
       DataManager.save_transactions
         (DataManager.save_accounts empty_directory accounts) transactions;
     BankSystem.users := [];
     BankSystem.accounts := accounts;
     BankSystem.transactions := transactions |}.

Definition account_draw (uuid : string) (number : Z) : Account.draw :=
  {| Account.drawn_uuid := uuid; Account.drawn_number := number;
     Account.drawn_now := noon |}.

Definition transaction_draw (uuid : string) (reference : Z) : Transaction.draw :=
  {| Transaction.drawn_uuid := uuid; Transaction.drawn_reference := reference;
     Transaction.drawn_now := noon |}.

Definition account (id number : string) (balance : float) (active : bool) : Account.t :=
  Account.set_is_active (Account.init noon id "user-1" number "savings" balance None)
    active.

Definition alice : Account.t := account "acc-A" "1000000001" 100 true.
Definition bob : Account.t := account "acc-B" "1000000002" 0 true.
Definition dormant : Account.t := account "acc-D" "1000000003" 100 false.

(** A completed deposit of [amount] on [alice], made on the given day. *)
Definition completed_deposit (id : string) (day_of_january : Z) (amount : float)
  : Transaction.t :=
  Transaction.complete_transaction
    (Transaction.init (at_noon day_of_january) 100000 id "acc-A" Transaction.DEPOSIT
       amount "" None None).

Definition store_of (transactions : list Transaction.t) : dict Transaction.t :=
  map (fun x => (Transaction.transaction_id x, x)) transactions.

(** A stand-in for the SHA-256 digest, which no lemma depends on. *)
Definition digest (password : string) : string := "digest of " ++ password.

(** A user who has logged in once. *)
Definition carol : User.t :=
  User.set_last_login
    (User.create_user digest "user-1" (at_noon 2) "carol" "secret" "carol@bank.com"
       "1234567890" "customer")
    (Some noon).

Definition oracle : DataManager.oracle :=
  {| DataManager.now_at := fun _ => noon;
     DataManager.reference_at := fun _ => 100000;
     DataManager.reference_at' := fun _ => 100001 |}.

End Fixture.

(** ** Predicates of the specification *)

(** Every account of the engine has a balance [>= 0]. *)
Definition balances_nonnegative (bank : BankSystem.t) : Prop :=
  forall ref account,
    dict_get (BankSystem.accounts bank) ref = Some account ->
    (0 <=? Account.balance account)%float = true.

(** [x] was created between [start_date] and [end_date], both included. *)
Definition in_window (start_date end_date : datetime.t) (x : Transaction.t) : bool :=
  datetime.leb start_date (Transaction.created_at x)
  && datetime.leb (Transaction.created_at x) end_date.

(** The amounts of the in-window transactions of type [ty] with status
    [completed], in store order. *)
Definition completed_amounts (ty : Transaction.TransactionType)
  (start_date end_date : datetime.t) (store : dict Transaction.t) : list float :=
  map Transaction.amount
    (filter (fun x => in_window start_date end_date x
                      && Transaction.type_eqb (Transaction.transaction_type x) ty
                      && Transaction.status_eqb (Transaction.status x)
                           Transaction.COMPLETED)
       (dict_values store)).

(** A call of one of the four mutating operations of the engine, with what
    the call draws. *)
Inductive operation :=
| CreateAccount (adr : Account.draw) (tdr : Transaction.draw)
    (user_id account_type : string) (initial_balance : float)
| Deposit (tdr : Transaction.draw) (account_id : string) (amount : float)
    (description : string)
| Withdraw (tdr : Transaction.draw) (account_id : string) (amount : float)
    (description : string)
| Transfer (tdr tdr' : Transaction.draw) (from_account_id to_account_number : string)
    (amount : float) (description : string).

(** The engine after the call. *)
Definition perform (bank : BankSystem.t) (op : operation) : BankSystem.t :=
  match op with
  | CreateAccount adr tdr user_id account_type initial_balance =>
      snd (BankSystem.create_account adr tdr bank user_id account_type initial_balance)
  | Deposit tdr account_id amount description =>
      snd (BankSystem.deposit tdr bank account_id amount description)
  | Withdraw tdr account_id amount description =>
      snd (BankSystem.withdraw tdr bank account_id amount description)
  | Transfer tdr tdr' from_account_id to_account_number amount description =>
      snd (BankSystem.transfer tdr tdr' bank from_account_id to_account_number
             amount description)
  end.

(** The engine after a sequence of calls. *)
Definition perform_all (bank : BankSystem.t) (ops : list operation) : BankSystem.t :=
  fold_left perform ops bank.

(** The record ids a call draws. *)
Definition drawn_ids (op : operation) : list string :=
  match op with
  | CreateAccount _ tdr _ _ _ => [Transaction.drawn_uuid tdr]
  | Deposit tdr _ _ _ => [Transaction.drawn_uuid tdr]
  | Withdraw tdr _ _ _ => [Transaction.drawn_uuid tdr]
  | Transfer tdr tdr' _ _ _ _ =>
      [Transaction.drawn_uuid tdr; Transaction.drawn_uuid tdr']
  end.

(** The clock readings a call draws are dates [datetime] can hold. *)
Definition draws_valid (op : operation) : bool :=
  match op with
  | CreateAccount adr tdr _ _ _ =>
      datetime.valid (Account.drawn_now adr)
      && datetime.valid (Transaction.drawn_now tdr)
  | Deposit tdr _ _ _ => datetime.valid (Transaction.drawn_now tdr)
  | Withdraw tdr _ _ _ => datetime.valid (Transaction.drawn_now tdr)
  | Transfer tdr tdr' _ _ _ _ =>
      datetime.valid (Transaction.drawn_now tdr)
      && datetime.valid (Transaction.drawn_now tdr')
  end.

Definition is_money_operation (op : operation) : bool :=
  match op with
  | CreateAccount _ _ _ _ _ => false
  | _ => true
  end.

(** [a] was created at the same time as [b] or later. *)
Definition newer_or_same (a b : Transaction.t) : Prop :=
  datetime.leb (Transaction.created_at b) (Transaction.created_at a) = true.

(** [x] was created at the instant [d]. *)
Definition same_instant (d : datetime.t) (x : Transaction.t) : bool :=
  datetime.leb (Transaction.created_at x) d && datetime.leb d (Transaction.created_at x).

(** What [authenticate_user] asks of a stored user. *)
Definition may_log_in (sha256_hexdigest : string -> string) (username password : string)
  (user : User.t) : bool :=
  String.eqb (User.username user) username
  && User.verify_password sha256_hexdigest user password
  && User.is_active user.

(** A stored record has left the [pending] state for [completed] or [failed],
    and its amount is not [<= 0]. *)
Definition settled (x : Transaction.t) : bool :=
  (Transaction.status_eqb (Transaction.status x) Transaction.COMPLETED
   || Transaction.status_eqb (Transaction.status x) Transaction.FAILED)
  && negb (Transaction.amount x <=? 0)%float.

(** The timestamps of a stored record are dates [datetime] can hold. *)
Definition optional_valid (d : option datetime.t) : bool :=
  match d with
  | Some d' => datetime.valid d'
  | None => true
  end.

(** A collection as the engine holds it: a dict (its keys are distinct) of
    records whose timestamps are [datetime] objects. *)
Definition well_formed {R : Type} (timestamps_valid : R -> bool) (records : dict R)
  : Prop :=
  NoDup (dict_keys records) /\
  Forall (fun record => timestamps_valid record = true) (dict_values records).

Definition user_timestamps_valid (u : User.t) : bool :=
  datetime.valid (User.created_at u) && optional_valid (User.last_login u).

Definition account_timestamps_valid (a : Account.t) : bool :=
  datetime.valid (Account.created_at a).

Definition transaction_timestamps_valid (x : Transaction.t) : bool :=
  datetime.valid (Transaction.created_at x).

(** The file holds what a save of [records] writes, or there is no file yet
    and nothing to save. *)
Definition persisted {R : Type} (to_dict : R -> json) (f : DataManager.file)
  (records : dict R) : Prop :=
  f = DataManager.Document (DataManager.dump to_dict records)
  \/ (f = DataManager.Missing /\ records = []).

(** The engine holds well-formed collections and its data directory holds
    them too. *)
Definition consistent (bank : BankSystem.t) : Prop :=
  persisted User.to_dict (DataManager.users_file (BankSystem.data_manager bank))
    (BankSystem.users bank) /\
  persisted Account.to_dict (DataManager.accounts_file (BankSystem.data_manager bank))
    (BankSystem.accounts bank) /\
  persisted Transaction.to_dict
    (DataManager.transactions_file (BankSystem.data_manager bank))
    (BankSystem.transactions bank) /\
  well_formed user_timestamps_valid (BankSystem.users bank) /\
  well_formed account_timestamps_valid (BankSystem.accounts bank) /\
  well_formed transaction_timestamps_valid (BankSystem.transactions bank).

(** * Facts *)

(** ** Comparison of floats *)

Lemma SFcompare_antisym (x y : spec_float) :
  SFcompare y x = option_map CompOpp (SFcompare x y).
Proof.
  destruct x as [sx|sx| |sx mx ex], y as [sy|sy| |sy my ey]; simpl;
    try reflexivity; try (destruct sx; try destruct sy; reflexivity).
  destruct sx, sy; try reflexivity;
    rewrite (Z.compare_antisym ey ex); destruct (ey ?= ex)%Z; simpl;
    try reflexivity;
    rewrite !Pos.compare_cont_spec, (Pos.compare_antisym my mx);
    destruct (my ?= mx)%positive; reflexivity.
Qed.

(** [a < b] excludes [b <= a]; a NaN operand makes every comparison false. *)
Lemma ltb_not_leb (a b : float) : (a <? b)%float = true -> (b <=? a)%float = false.
Proof.
  rewrite ltb_spec, leb_spec. unfold SFltb, SFleb.
  rewrite (SFcompare_antisym (Prim2SF a) (Prim2SF b)).
  destruct (SFcompare (Prim2SF a) (Prim2SF b)) as [[]|]; simpl; congruence.
Qed.

Lemma leb_not_ltb (a b : float) : (a <=? b)%float = true -> (b <? a)%float = false.
Proof.
  rewrite ltb_spec, leb_spec. unfold SFltb, SFleb.
  rewrite (SFcompare_antisym (Prim2SF a) (Prim2SF b)).
  destruct (SFcompare (Prim2SF a) (Prim2SF b)) as [[]|]; simpl; congruence.
Qed.

(** ** Dicts *)

Section DictFacts.
Context {V : Type}.
Implicit Types (d : dict V) (k : string) (v : V).

Lemma dict_get_set_eq d k v : dict_get (dict_set d k v) k = Some v.
Proof.
  induction d as [|[k' v'] d IH]; simpl.
  - now rewrite String.eqb_refl.
  - destruct (String.eqb k' k) eqn:E; simpl; rewrite E; auto.
Qed.

Lemma dict_get_set_ne d k k' v :
  k <> k' -> dict_get (dict_set d k v) k' = dict_get d k'.
Proof.
  intros Hne. induction d as [|[k0 v0] d IH]; simpl.
  - apply String.eqb_neq in Hne. now rewrite Hne.
  - destruct (String.eqb k0 k) eqn:E; simpl.
    + apply String.eqb_eq in E. subst k0.
      apply String.eqb_neq in Hne. now rewrite Hne.
    + now rewrite IH.
Qed.

(** A key that is not in the dict goes last. *)
Lemma dict_set_fresh d k v : dict_get d k = None -> dict_set d k v = (d ++ [(k, v)])%list.
Proof.
  induction d as [|[k' v'] d IH]; simpl; intros H; [reflexivity|].
  destruct (String.eqb k' k); [discriminate|]. now rewrite IH.
Qed.

Lemma dict_get_app_fresh d k k' v :
  k <> k' -> dict_get (d ++ [(k, v)])%list k' = dict_get d k'.
Proof.
  intros Hne. induction d as [|[k0 v0] d IH]; simpl.
  - apply String.eqb_neq in Hne. now rewrite Hne.
  - now rewrite IH.
Qed.

Lemma dict_get_alter f d k k' :
  dict_get (dict_alter f k d) k' =
  if String.eqb k k' then option_map f (dict_get d k') else dict_get d k'.
Proof.
  induction d as [|[k0 v0] d IH]; simpl.
  - now destruct (String.eqb k k').
  - destruct (String.eqb k0 k) eqn:E; simpl.
    + apply String.eqb_eq in E. subst k0.
      destruct (String.eqb k k'); reflexivity.
    + rewrite IH. destruct (String.eqb k0 k') eqn:E'; [|reflexivity].
      apply String.eqb_eq in E'. subst k0. now rewrite String.eqb_sym, E.
Qed.

Lemma dict_values_alter_absent f d k :
  dict_get d k = None -> dict_alter f k d = d.
Proof.
  induction d as [|[k0 v0] d IH]; simpl; intros H; [reflexivity|].
  destruct (String.eqb k0 k); [discriminate|]. now rewrite IH.
Qed.

Lemma dict_get_In d k v : dict_get d k = Some v -> In (k, v) d.
Proof.
  induction d as [|[k0 v0] d IH]; simpl; [discriminate|].
  destruct (String.eqb k0 k) eqn:E; intros H.
  - apply String.eqb_eq in E. left. congruence.
  - right. auto.
Qed.

(** With distinct keys, each entry is the one its key finds. *)
Lemma In_dict_get d k v :
  NoDup (dict_keys d) -> In (k, v) d -> dict_get d k = Some v.
Proof.
  induction d as [|[k0 v0] d IH]; simpl; intros Hnd Hin; [contradiction|].
  inversion Hnd as [|? ? Hnotin Hnd']; subst.
  destruct Hin as [Heq|Hin].
  - inversion Heq; subst. now rewrite String.eqb_refl.
  - destruct (String.eqb k0 k) eqn:E.
    + apply String.eqb_eq in E. subst k0. exfalso. apply Hnotin.
      change (In (fst (k, v)) (map fst d)). now apply in_map.
    + now apply IH.
Qed.

End DictFacts.

(** ** The ledger engine *)

Import Transaction.

(** C1.  The balance invariant does not survive account creation: on the empty
    engine every balance is [>= 0], and [create_account] with the initial
    balance [-5.0] stores an account whose balance is [-5.0], records no
    transaction and returns the account. *)
Theorem create_account_negative_initial_balance :
  let result :=
    BankSystem.create_account (Fixture.account_draw "acc-N" 1000000009)
      (Fixture.transaction_draw "tx-1" 100001) Fixture.empty_bank
      "user-1" "savings" (-5)%float in
  balances_nonnegative Fixture.empty_bank /\
  BankSystem.get_account_by_id (snd result) "acc-N" = Some (fst result) /\
  Account.balance (fst result) = (-5)%float /\
  BankSystem.transactions (snd result) = [] /\
  ~ balances_nonnegative (snd result).
Proof.
  cbv zeta. repeat split.
  - intros ref account H. discriminate H.
  - intros H. specialize (H "acc-N" _ eq_refl). vm_compute in H. discriminate H.
Qed.

(** C2.  A transfer to the source account's own number is carried out: with
    100.0 on the account, transferring 30.0 to its own number returns [True],
    leaves the balance at 100.0 and adds a completed [transfer] record and a
    completed [deposit] record, both on the account itself. *)
Theorem transfer_to_own_number_is_carried_out :
  let bank := Fixture.bank_of [("acc-A", Fixture.alice)] [] in
  let result :=
    BankSystem.transfer (Fixture.transaction_draw "tx-1" 100001)
      (Fixture.transaction_draw "tx-2" 100002) bank
      "acc-A" (Account.account_number Fixture.alice) 30 "" in
  fst result = true /\
  BankSystem.accounts (snd result) = BankSystem.accounts bank /\
  map (fun entry => (transaction_type (snd entry), status (snd entry),
                     Transaction.account_id (snd entry),
                     target_account_id (snd entry)))
    (BankSystem.transactions (snd result))
  = [(TRANSFER, COMPLETED, "acc-A", Some "acc-A");
     (DEPOSIT, COMPLETED, "acc-A", Some "acc-A")] /\
  snd result <> bank.
Proof.
  cbv zeta. repeat split.
  intros H. apply (f_equal BankSystem.transactions) in H. vm_compute in H.
  discriminate H.
Qed.

(** C4.  A withdrawal of a positive amount above the balance returns [False],
    leaves every account as it is, and appends one record to the transaction
    store, of type [withdrawal] and status [failed], which is also saved. *)
Theorem withdraw_insufficient_funds tdr bank account_id account amount description :
  BankSystem.get_account_by_id bank account_id = Some account ->
  (0 <? amount)%float = true ->
  (Account.balance account <? amount)%float = true ->
  dict_get (BankSystem.transactions bank) (drawn_uuid tdr) = None ->
  exists bank' record,
    BankSystem.withdraw tdr bank account_id amount description = (false, bank') /\
    BankSystem.accounts bank' = BankSystem.accounts bank /\
    BankSystem.transactions bank' =
      (BankSystem.transactions bank ++ [(drawn_uuid tdr, record)])%list /\
    transaction_type record = WITHDRAWAL /\
    status record = FAILED /\
    Transaction.account_id record = account_id /\
    Transaction.amount record = amount /\
    DataManager.transactions_file (BankSystem.data_manager bank') =
      DataManager.Document (DataManager.dump to_dict (BankSystem.transactions bank')).
Proof.
  intros Hacc Hpos Hover Hfresh.
  unfold BankSystem.withdraw. rewrite Hacc.
  rewrite (ltb_not_leb _ _ Hpos).
  unfold Account.withdraw. rewrite (ltb_not_leb _ _ Hpos), Hover. cbn [orb].
  eexists. eexists. split; [reflexivity|].
  unfold BankSystem.commit, BankSystem.record_transaction. cbn.
  split; [reflexivity|].
  split; [apply dict_set_fresh; exact Hfresh|].
  repeat split.
Qed.

Lemma withdraw_insufficient_funds_witness :
  let bank := Fixture.bank_of [("acc-A", Fixture.alice)] [] in
  let tdr := Fixture.transaction_draw "tx-1" 100001 in
  (Account.balance Fixture.alice <? 2000)%float = true /\
  exists bank' record,
    BankSystem.withdraw tdr bank "acc-A" 2000 "" = (false, bank') /\
    BankSystem.accounts bank' = BankSystem.accounts bank /\
    BankSystem.transactions bank' =
      (BankSystem.transactions bank ++ [(drawn_uuid tdr, record)])%list /\
    transaction_type record = WITHDRAWAL /\
    status record = FAILED /\
    Transaction.account_id record = "acc-A" /\
    Transaction.amount record = 2000%float /\
    DataManager.transactions_file (BankSystem.data_manager bank') =
      DataManager.Document (DataManager.dump to_dict (BankSystem.transactions bank')).
Proof.
  cbv zeta. split; [reflexivity|].
  apply (withdraw_insufficient_funds (Fixture.transaction_draw "tx-1" 100001)
           (Fixture.bank_of [("acc-A", Fixture.alice)] []) "acc-A" Fixture.alice);
    reflexivity.
Defined.

(** C5.  A deposit of an amount [<= 0], or on an account id that is not in the
    engine, returns [False] and leaves the whole engine as it is: no balance
    changes and no transaction record of any status is created. *)
Theorem deposit_rejected_without_record tdr bank account_id amount description :
  (amount <=? 0)%float = true \/ BankSystem.get_account_by_id bank account_id = None ->
  BankSystem.deposit tdr bank account_id amount description = (false, bank).
Proof.
  intros [Hamount|Hmissing]; unfold BankSystem.deposit.
  - rewrite Hamount. now destruct (BankSystem.get_account_by_id bank account_id).
  - now rewrite Hmissing.
Qed.

Lemma deposit_rejected_without_record_witness :
  let bank := Fixture.bank_of [("acc-A", Fixture.alice)] [] in
  let tdr := Fixture.transaction_draw "tx-1" 100001 in
  BankSystem.deposit tdr bank "acc-A" (-5)%float "" = (false, bank) /\
  BankSystem.deposit tdr bank "acc-A" 0%float "" = (false, bank) /\
  BankSystem.deposit tdr bank "acc-Z" 50%float "" = (false, bank).
Proof.
  cbv zeta. split; [|split].
  - apply deposit_rejected_without_record. left. reflexivity.
  - apply deposit_rejected_without_record. left. reflexivity.
  - apply deposit_rejected_without_record. right. reflexivity.
Defined.

(** What [transfer] does once both accounts are found and the amount is
    positive and within the source balance. *)
Lemma transfer_accepted tdr tdr' bank from_id number amount description
  from_account to_ref to_account :
  BankSystem.get_account_by_id bank from_id = Some from_account ->
  BankSystem.get_account_by_number bank number = Some (to_ref, to_account) ->
  (0 <? amount)%float = true ->
  (amount <=? Account.balance from_account)%float = true ->
  BankSystem.transfer tdr tdr' bank from_id number amount description =
  (true,
   BankSystem.commit bank
     (dict_alter (Account.credit amount) to_ref
        (dict_alter (Account.debit amount) from_id (BankSystem.accounts bank)))
     (BankSystem.record_transaction
        (BankSystem.record_transaction (BankSystem.transactions bank)
           (complete_transaction
              (create_transaction tdr from_id TRANSFER amount description
                 (Some (Account.account_id to_account)))))
        (complete_transaction
           (create_transaction tdr' (Account.account_id to_account) DEPOSIT amount
              ("Transfer from " ++ Account.account_number from_account)
              (Some (Account.account_id from_account)))))
     true).
Proof.
  intros Hfrom Hto Hpos Hle.
  unfold BankSystem.transfer. rewrite Hfrom, Hto.
  rewrite (ltb_not_leb _ _ Hpos).
  unfold Account.transfer_to.
  rewrite (ltb_not_leb _ _ Hpos), (leb_not_ltb _ _ Hle). reflexivity.
Qed.

(** The number lookup answers with an active account of that number. *)
Lemma get_account_by_number_active bank number target :
  BankSystem.get_account_by_number bank number = Some target ->
  In target (BankSystem.accounts bank) /\
  Account.account_number (snd target) = number /\
  Account.is_active (snd target) = true.
Proof.
  unfold BankSystem.get_account_by_number. intros H.
  apply find_some in H. destruct H as [Hin Hp].
  apply andb_prop in Hp. destruct Hp as [Hn Ha].
  apply String.eqb_eq in Hn. auto.
Qed.

(** C10.  The money operations do not look at the active flag of the account
    they are given by id, and carry the operation out on a deactivated account
    as on any other.  For an account stored under [ref] with [is_active]
    false: a positive deposit returns [True], sets its balance to
    [balance + amount] and appends one completed [deposit] record on it; a
    positive withdrawal within the balance returns [True], sets its balance to
    [balance - amount] and appends one completed [withdrawal] record on it; a
    positive transfer within the balance to a number the lookup answers
    returns [True], sets its balance to [balance - amount] and that of the
    destination to [balance + amount], and appends a completed [transfer]
    record on it and a completed [deposit] record on the destination.  In
    each case the account stays deactivated and no other account changes (the
    record ids drawn being new).  The destination of a transfer is looked up
    by number among active accounts only, so a number that only deactivated
    accounts carry makes the transfer fail with the engine unchanged. *)
Theorem inactive_source_is_not_checked bank ref account :
  BankSystem.get_account_by_id bank ref = Some account ->
  Account.is_active account = false ->
  (forall tdr amount description,
      (0 <? amount)%float = true ->
      dict_get (BankSystem.transactions bank) (drawn_uuid tdr) = None ->
      exists bank' account' record,
        BankSystem.deposit tdr bank ref amount description = (true, bank') /\
        BankSystem.get_account_by_id bank' ref = Some account' /\
        account' = Account.set_balance account (Account.balance account + amount)%float /\
        Account.is_active account' = false /\
        (forall other, other <> ref ->
           BankSystem.get_account_by_id bank' other
           = BankSystem.get_account_by_id bank other) /\
        BankSystem.transactions bank' =
          (BankSystem.transactions bank ++ [(drawn_uuid tdr, record)])%list /\
        transaction_type record = DEPOSIT /\
        status record = COMPLETED /\
        Transaction.account_id record = ref /\
        Transaction.amount record = amount) /\
  (forall tdr amount description,
      (0 <? amount)%float = true ->
      (amount <=? Account.balance account)%float = true ->
      dict_get (BankSystem.transactions bank) (drawn_uuid tdr) = None ->
      exists bank' account' record,
        BankSystem.withdraw tdr bank ref amount description = (true, bank') /\
        BankSystem.get_account_by_id bank' ref = Some account' /\
        account' = Account.set_balance account (Account.balance account - amount)%float /\
        Account.is_active account' = false /\
        (forall other, other <> ref ->
           BankSystem.get_account_by_id bank' other
           = BankSystem.get_account_by_id bank other) /\
        BankSystem.transactions bank' =
          (BankSystem.transactions bank ++ [(drawn_uuid tdr, record)])%list /\
        transaction_type record = WITHDRAWAL /\
        status record = COMPLETED /\
        Transaction.account_id record = ref /\
        Transaction.amount record = amount) /\
  (forall tdr tdr' number to_ref to_account amount description,
      NoDup (dict_keys (BankSystem.accounts bank)) ->
      BankSystem.get_account_by_number bank number = Some (to_ref, to_account) ->
      (0 <? amount)%float = true ->
      (amount <=? Account.balance account)%float = true ->
      dict_get (BankSystem.transactions bank) (drawn_uuid tdr) = None ->
      dict_get (BankSystem.transactions bank) (drawn_uuid tdr') = None ->
      drawn_uuid tdr <> drawn_uuid tdr' ->
      exists bank' account' debit_record credit_record,
        BankSystem.transfer tdr tdr' bank ref number amount description
        = (true, bank') /\
        BankSystem.get_account_by_id bank' ref = Some account' /\
        account' = Account.set_balance account (Account.balance account - amount)%float /\
        Account.is_active account' = false /\
        BankSystem.get_account_by_id bank' to_ref
        = Some (Account.set_balance to_account
                  (Account.balance to_account + amount)%float) /\
        (forall other, other <> ref -> other <> to_ref ->
           BankSystem.get_account_by_id bank' other
           = BankSystem.get_account_by_id bank other) /\
        BankSystem.transactions bank' =
          (BankSystem.transactions bank
           ++ [(drawn_uuid tdr, debit_record); (drawn_uuid tdr', credit_record)])%list /\
        (transaction_type debit_record = TRANSFER /\
         status debit_record = COMPLETED /\
         Transaction.account_id debit_record = ref /\
         target_account_id debit_record = Some (Account.account_id to_account) /\
         Transaction.amount debit_record = amount) /\
        (transaction_type credit_record = DEPOSIT /\
         status credit_record = COMPLETED /\
         Transaction.account_id credit_record = Account.account_id to_account /\
         target_account_id credit_record = Some (Account.account_id account) /\
         Transaction.amount credit_record = amount)) /\
  (forall number target,
      BankSystem.get_account_by_number bank number = Some target ->
      Account.is_active (snd target) = true) /\
  (forall tdr tdr' number amount description,
      (forall entry, In entry (BankSystem.accounts bank) ->
                     Account.account_number (snd entry) = number ->
                     Account.is_active (snd entry) = false) ->
      BankSystem.transfer tdr tdr' bank ref number amount description = (false, bank)).
Proof.
  intros Hacc Hinactive. split; [|split; [|split; [|split]]].
  - intros tdr amount description Hpos Hfresh.
    unfold BankSystem.deposit. rewrite Hacc, (ltb_not_leb _ _ Hpos).
    unfold Account.deposit. rewrite (ltb_not_leb _ _ Hpos).
    eexists. eexists. eexists. split; [reflexivity|].
    unfold BankSystem.get_account_by_id, BankSystem.commit,
      BankSystem.record_transaction. cbn.
    split; [apply dict_get_set_eq|]. split; [reflexivity|].
    split; [exact Hinactive|].
    split; [intros other Hne; apply dict_get_set_ne; congruence|].
    split; [apply dict_set_fresh; exact Hfresh|].
    repeat split.
  - intros tdr amount description Hpos Hle Hfresh.
    unfold BankSystem.withdraw. rewrite Hacc, (ltb_not_leb _ _ Hpos).
    unfold Account.withdraw. rewrite (ltb_not_leb _ _ Hpos), (leb_not_ltb _ _ Hle).
    eexists. eexists. eexists. split; [reflexivity|].
    unfold BankSystem.get_account_by_id, BankSystem.commit,
      BankSystem.record_transaction. cbn.
    split; [apply dict_get_set_eq|]. split; [reflexivity|].
    split; [exact Hinactive|].
    split; [intros other Hne; apply dict_get_set_ne; congruence|].
    split; [apply dict_set_fresh; exact Hfresh|].
    repeat split.
  - intros tdr tdr' number to_ref to_account amount description
      Hnodup Hto Hpos Hle Hfresh Hfresh' Hdistinct.
    rewrite (transfer_accepted _ _ _ _ _ _ _ _ _ _ Hacc Hto Hpos Hle).
    pose proof (get_account_by_number_active _ _ _ Hto) as (Hin & _ & Hactive).
    pose proof (In_dict_get _ _ _ Hnodup Hin) as Hget.
    cbn [snd] in Hactive.
    unfold BankSystem.get_account_by_id in *.
    assert (Hne : ref <> to_ref).
    { intros E. subst to_ref. rewrite Hacc in Hget. injection Hget as E.
      subst to_account. rewrite Hinactive in Hactive. discriminate Hactive. }
    assert (E1 : String.eqb ref to_ref = false) by now apply String.eqb_neq.
    assert (E2 : String.eqb to_ref ref = false)
      by (rewrite String.eqb_sym; exact E1).
    eexists. eexists. eexists. eexists. split; [reflexivity|].
    unfold BankSystem.commit. cbn [BankSystem.accounts BankSystem.transactions].
    split; [rewrite !dict_get_alter, E2, String.eqb_refl, Hacc; reflexivity|].
    split; [reflexivity|]. split; [exact Hinactive|].
    split; [rewrite !dict_get_alter, E1, String.eqb_refl, Hget; reflexivity|].
    split.
    { intros other Hother Hother'. rewrite !dict_get_alter.
      apply String.eqb_neq in Hother, Hother'.
      rewrite (String.eqb_sym to_ref other), Hother'.
      rewrite (String.eqb_sym ref other), Hother. reflexivity. }
    split.
    { unfold BankSystem.record_transaction. cbn [transaction_id create_transaction
        complete_transaction set_status init].
      rewrite (dict_set_fresh _ _ _ Hfresh).
      rewrite dict_set_fresh
        by (rewrite dict_get_app_fresh by exact Hdistinct; exact Hfresh').
      rewrite <- app_assoc. reflexivity. }
    repeat split.
  - intros number target Hto. now apply get_account_by_number_active in Hto.
  - intros tdr tdr' number amount description Hnone.
    unfold BankSystem.transfer. rewrite Hacc.
    destruct (BankSystem.get_account_by_number bank number) as [target|] eqn:Hto;
      [|reflexivity].
    apply get_account_by_number_active in Hto. destruct Hto as (Hin & Hn & Ha).
    rewrite (Hnone _ Hin Hn) in Ha. discriminate Ha.
Qed.

Lemma inactive_source_is_not_checked_witness :
  let bank := Fixture.bank_of [("acc-D", Fixture.dormant); ("acc-B", Fixture.bob)] [] in
  let tdr := Fixture.transaction_draw "tx-1" 100001 in
  let tdr' := Fixture.transaction_draw "tx-2" 100002 in
  Account.is_active Fixture.dormant = false /\
  (exists bank',
     BankSystem.deposit tdr bank "acc-D" 50 "" = (true, bank') /\
     BankSystem.get_account_by_id bank' "acc-D"
     = Some (Account.set_balance Fixture.dormant 150) /\
     dict_keys (BankSystem.transactions bank') = ["tx-1"]) /\
  (exists bank',
     BankSystem.withdraw tdr bank "acc-D" 40 "" = (true, bank') /\
     BankSystem.get_account_by_id bank' "acc-D"
     = Some (Account.set_balance Fixture.dormant 60) /\
     dict_keys (BankSystem.transactions bank') = ["tx-1"]) /\
  (exists bank',
     BankSystem.transfer tdr tdr' bank "acc-D" "1000000002" 30 "" = (true, bank') /\
     BankSystem.get_account_by_id bank' "acc-D"
     = Some (Account.set_balance Fixture.dormant 70) /\
     BankSystem.get_account_by_id bank' "acc-B"
     = Some (Account.set_balance Fixture.bob 30) /\
     dict_keys (BankSystem.transactions bank') = ["tx-1"; "tx-2"]) /\
  BankSystem.transfer tdr tdr' bank "acc-D" "1000000003" 30 "" = (false, bank).
Proof.
  cbv zeta.
  destruct (inactive_source_is_not_checked
              (Fixture.bank_of [("acc-D", Fixture.dormant); ("acc-B", Fixture.bob)] [])
              "acc-D" Fixture.dormant eq_refl eq_refl)
    as (Hdeposit & Hwithdraw & Htransfer & _ & Hdestination).
  split; [reflexivity|]. split; [|split; [|split]].
  - destruct (Hdeposit (Fixture.transaction_draw "tx-1" 100001) 50%float ""
                eq_refl eq_refl)
      as (bank' & account' & record & Hrun & Hget & Hbalance & _ & _ & Hlog & _).
    exists bank'. split; [exact Hrun|]. split; [rewrite Hget, Hbalance; reflexivity|].
    rewrite Hlog. reflexivity.
  - destruct (Hwithdraw (Fixture.transaction_draw "tx-1" 100001) 40%float ""
                eq_refl eq_refl eq_refl)
      as (bank' & account' & record & Hrun & Hget & Hbalance & _ & _ & Hlog & _).
    exists bank'. split; [exact Hrun|]. split; [rewrite Hget, Hbalance; reflexivity|].
    rewrite Hlog. reflexivity.
  - destruct (Htransfer (Fixture.transaction_draw "tx-1" 100001)
                (Fixture.transaction_draw "tx-2" 100002) "1000000002"
                "acc-B" Fixture.bob 30%float "")
      as (bank' & account' & debit_record & credit_record & Hrun & Hget & Hbalance
          & _ & Hto & _ & Hlog & _);
      try reflexivity.
    + repeat constructor; simpl; intuition discriminate.
    + intros H. discriminate H.
    + exists bank'. split; [exact Hrun|].
      split; [rewrite Hget, Hbalance; reflexivity|].
      split; [rewrite Hto; reflexivity|]. rewrite Hlog. reflexivity.
  - apply Hdestination. intros entry [H|[H|[]]] Hn; subst entry;
      [reflexivity | discriminate Hn].
Defined.

(** C3, at concrete inputs.  First, with the destination deactivated the
    transfer between two distinct accounts returns [False] and changes nothing,
    although the amount is positive and within the source balance.  Second,
    with both accounts active (balances 0.5 and 0.1) a transfer of 0.1 succeeds
    and the sum over the active accounts moves from 0.6 to
    0.6000000000000001, whichever way [sum] adds. *)
Lemma transfer_between_accounts_counterexample :
  (let bank :=
     Fixture.bank_of [("acc-A", Fixture.alice); ("acc-D", Fixture.dormant)] [] in
   "acc-A" <> "acc-D" /\
   (0 <? 30)%float = true /\ (30 <=? Account.balance Fixture.alice)%float = true /\
   BankSystem.transfer (Fixture.transaction_draw "tx-1" 100001)
     (Fixture.transaction_draw "tx-2" 100002) bank
     "acc-A" (Account.account_number Fixture.dormant) 30 "" = (false, bank)) /\
  (let half := Fixture.account "acc-A" "1000000001" 0.5 true in
   let tenth := Fixture.account "acc-B" "1000000002" 0.1 true in
   let bank := Fixture.bank_of [("acc-A", half); ("acc-B", tenth)] [] in
   let result :=
     BankSystem.transfer (Fixture.transaction_draw "tx-1" 100001)
       (Fixture.transaction_draw "tx-2" 100002) bank
       "acc-A" (Account.account_number tenth) 0.1 "" in
   fst result = true /\
   forall alg,
     (BankSystem.total_balance (BankSystem.get_system_stats alg bank)
      =? BankSystem.total_balance (BankSystem.get_system_stats alg (snd result)))%float
     = false).
Proof.
  split; cbv zeta.
  - repeat split. intros H. discriminate H.
  - split; [reflexivity|]. intros []; reflexivity.
Qed.

(** C3.  Let [A] and [B] be stored under their ids, which differ, let the
    number of [B] be answered by [B] (so [B] is active), and let the two
    record ids drawn be new and distinct.  A transfer of a positive amount
    within the balance of [A] returns [True]; the balance of [A] becomes
    [balance A - amount] and that of [B] becomes [balance B + amount] in
    binary64; no other account changes; and exactly two records are appended:
    a completed [transfer] on [A] pointing to [B], and a completed [deposit]
    on [B] pointing to [A], both of the amount. *)
Theorem transfer_between_accounts tdr tdr' bank A B amount description :
  NoDup (dict_keys (BankSystem.accounts bank)) ->
  BankSystem.get_account_by_id bank (Account.account_id A) = Some A ->
  BankSystem.get_account_by_number bank (Account.account_number B)
    = Some (Account.account_id B, B) ->
  Account.account_id A <> Account.account_id B ->
  (0 <? amount)%float = true ->
  (amount <=? Account.balance A)%float = true ->
  dict_get (BankSystem.transactions bank) (drawn_uuid tdr) = None ->
  dict_get (BankSystem.transactions bank) (drawn_uuid tdr') = None ->
  drawn_uuid tdr <> drawn_uuid tdr' ->
  exists bank' debit_record credit_record,
    BankSystem.transfer tdr tdr' bank (Account.account_id A)
      (Account.account_number B) amount description = (true, bank') /\
    BankSystem.get_account_by_id bank' (Account.account_id A)
      = Some (Account.set_balance A (Account.balance A - amount)%float) /\
    BankSystem.get_account_by_id bank' (Account.account_id B)
      = Some (Account.set_balance B (Account.balance B + amount)%float) /\
    (forall ref, ref <> Account.account_id A -> ref <> Account.account_id B ->
       BankSystem.get_account_by_id bank' ref = BankSystem.get_account_by_id bank ref) /\
    BankSystem.transactions bank' =
      (BankSystem.transactions bank
       ++ [(drawn_uuid tdr, debit_record); (drawn_uuid tdr', credit_record)])%list /\
    (transaction_type debit_record = TRANSFER /\
     Transaction.account_id debit_record = Account.account_id A /\
     target_account_id debit_record = Some (Account.account_id B) /\
     status debit_record = COMPLETED /\
     Transaction.amount debit_record = amount) /\
    (transaction_type credit_record = DEPOSIT /\
     Transaction.account_id credit_record = Account.account_id B /\
     target_account_id credit_record = Some (Account.account_id A) /\
     status credit_record = COMPLETED /\
     Transaction.amount credit_record = amount).
Proof.
  intros Hnodup HA HB Hne Hpos Hle Hfresh Hfresh' Hdistinct.
  rewrite (transfer_accepted _ _ _ _ _ _ _ _ _ _ HA HB Hpos Hle).
  pose proof (get_account_by_number_active _ _ _ HB) as (HinB & _ & _).
  pose proof (In_dict_get _ _ _ Hnodup HinB) as HgetB.
  assert (EAB : String.eqb (Account.account_id A) (Account.account_id B) = false)
    by now apply String.eqb_neq.
  assert (EBA : String.eqb (Account.account_id B) (Account.account_id A) = false)
    by (rewrite String.eqb_sym; exact EAB).
  eexists. eexists. eexists. split; [reflexivity|].
  unfold BankSystem.get_account_by_id, BankSystem.commit in *. cbn [BankSystem.accounts
    BankSystem.transactions].
  split; [|split; [|split; [|split]]].
  - rewrite !dict_get_alter, EBA, String.eqb_refl, HA. reflexivity.
  - rewrite !dict_get_alter, EAB, String.eqb_refl, HgetB. reflexivity.
  - intros ref HrA HrB. rewrite !dict_get_alter.
    apply String.eqb_neq in HrA, HrB.
    rewrite (String.eqb_sym (Account.account_id B) ref), HrB.
    rewrite (String.eqb_sym (Account.account_id A) ref), HrA. reflexivity.
  - unfold BankSystem.record_transaction. cbn [transaction_id create_transaction
      complete_transaction set_status init].
    rewrite (dict_set_fresh _ _ _ Hfresh).
    rewrite dict_set_fresh
      by (rewrite dict_get_app_fresh by exact Hdistinct; exact Hfresh').
    rewrite <- app_assoc. reflexivity.
  - repeat split.
Qed.

Lemma transfer_between_accounts_witness :
  let bank := Fixture.bank_of [("acc-A", Fixture.alice); ("acc-B", Fixture.bob)] [] in
  let tdr := Fixture.transaction_draw "tx-1" 100001 in
  let tdr' := Fixture.transaction_draw "tx-2" 100002 in
  (30 <=? Account.balance Fixture.alice)%float = true /\
  exists bank' debit_record credit_record,
    BankSystem.transfer tdr tdr' bank "acc-A" "1000000002" 30 "rent" = (true, bank') /\
    BankSystem.get_account_by_id bank' "acc-A"
      = Some (Account.set_balance Fixture.alice 70) /\
    BankSystem.get_account_by_id bank' "acc-B"
      = Some (Account.set_balance Fixture.bob 30) /\
    (forall ref, ref <> "acc-A" -> ref <> "acc-B" ->
       BankSystem.get_account_by_id bank' ref = BankSystem.get_account_by_id bank ref) /\
    BankSystem.transactions bank' =
      [("tx-1", debit_record); ("tx-2", credit_record)] /\
    (transaction_type debit_record = TRANSFER /\
     Transaction.account_id debit_record = "acc-A" /\
     target_account_id debit_record = Some "acc-B" /\
     status debit_record = COMPLETED /\
     Transaction.amount debit_record = 30%float) /\
    (transaction_type credit_record = DEPOSIT /\
     Transaction.account_id credit_record = "acc-B" /\
     target_account_id credit_record = Some "acc-A" /\
     status credit_record = COMPLETED /\
     Transaction.amount credit_record = 30%float).
Proof.
  cbv zeta. split; [reflexivity|].
  apply (transfer_between_accounts (Fixture.transaction_draw "tx-1" 100001)
           (Fixture.transaction_draw "tx-2" 100002)
           (Fixture.bank_of [("acc-A", Fixture.alice); ("acc-B", Fixture.bob)] [])
           Fixture.alice Fixture.bob 30 "rent");
    try reflexivity; try (intros H; discriminate H).
  repeat constructor; simpl; intuition discriminate.
Defined.

(** ** Reporting *)

Lemma filter_filter {A : Type} (f g : A -> bool) (l : list A) :
  filter g (filter f l) = filter (fun x => f x && g x) l.
Proof.
  induction l as [|x l IH]; simpl; [reflexivity|].
  destruct (f x); simpl; [destruct (g x)|]; now rewrite IH.
Qed.

Lemma Permutation_filter {A : Type} (f : A -> bool) (l l' : list A) :
  Permutation l l' -> Permutation (filter f l) (filter f l').
Proof.
  induction 1 as [|x l l' _ IH|x y l|l l' l'' _ IH _ IH']; simpl.
  - constructor.
  - destruct (f x); [now constructor | exact IH].
  - destruct (f x), (f y); try apply Permutation_refl. apply perm_swap.
  - now apply Permutation_trans with (filter f l').
Qed.

(** The sum the summary takes for a type is the sum of [completed_amounts]. *)
Lemma total_completed_in_window alg ty start_date end_date store :
  BankSystem.total_completed alg ty
    (filter (fun x => datetime.leb start_date (created_at x)
                      && datetime.leb (created_at x) end_date)
       (dict_values store))
  = py_sum alg (completed_amounts ty start_date end_date store).
Proof.
  unfold BankSystem.total_completed, completed_amounts. rewrite filter_filter.
  do 2 f_equal. apply filter_ext. intros x. unfold in_window.
  now rewrite andb_assoc.
Qed.

Lemma completed_amounts_permutation ty start_date end_date store store' :
  Permutation (dict_values store) (dict_values store') ->
  Permutation (completed_amounts ty start_date end_date store)
    (completed_amounts ty start_date end_date store').
Proof.
  intros H. unfold completed_amounts.
  now apply Permutation_map, Permutation_filter.
Qed.

(** The window start exists exactly when the day count fits a [timedelta] and
    the start is a date between 0001-01-01 and 9999-12-31; otherwise the
    subtraction raises [OverflowError]. *)
Lemma sub_days_returns (now : datetime.t) (days : Z) :
  (exists start_date, datetime.sub_days now days = Return start_date) <->
  Z.abs days <= 999999999 /\
  0 < datetime.toordinal now - days <= datetime.MAXORDINAL.
Proof.
  unfold datetime.sub_days.
  destruct (Z.abs days <=? 999999999) eqn:Hdays.
  - destruct ((0 <? datetime.toordinal now - days)
              && (datetime.toordinal now - days <=? datetime.MAXORDINAL)) eqn:Hrange.
    + apply andb_prop in Hrange. destruct Hrange as [Hlo Hhi].
      apply Z.leb_le in Hdays, Hhi. apply Z.ltb_lt in Hlo.
      split; [intros _; lia|]. intros _.
      destruct (datetime.ord2ymd _) as [[y m] d]. eexists. reflexivity.
    + split; [intros [start_date H]; discriminate H|].
      intros [_ [Hlo Hhi]]. apply Z.ltb_lt in Hlo. apply Z.leb_le in Hhi.
      rewrite Hlo, Hhi in Hrange. discriminate Hrange.
  - split; [intros [start_date H]; discriminate H|].
    intros [H _]. apply Z.leb_le in H. rewrite H in Hdays. discriminate Hdays.
Qed.

(** C6, at concrete inputs: the same completed in-window deposits, stored in
    two orders, give two different [total_deposits].  With the amounts 0.1,
    0.2 and 0.3 the left-to-right [sum] gives 0.6000000000000001 in one order
    and 0.6 in the other; with the amounts 2^53, 1, 2^-53 and 2^-53 both ways
    of summing give 9007199254740992 in one order and 9007199254740994 in the
    other. *)
Lemma summary_depends_on_store_order :
  let bank_of deposits :=
    Fixture.bank_of [("acc-A", Fixture.alice)] (Fixture.store_of deposits) in
  let total alg deposits :=
    match BankSystem.get_transaction_summary alg Fixture.noon (bank_of deposits) 30 with
    | Return s => Some (BankSystem.total_deposits s)
    | _ => None
    end in
  let small := [Fixture.completed_deposit "tx-1" 10 0.1;
                Fixture.completed_deposit "tx-2" 11 0.2;
                Fixture.completed_deposit "tx-3" 12 0.3] in
  let wide := [Fixture.completed_deposit "tx-1" 10 0x1p53;
               Fixture.completed_deposit "tx-2" 11 1;
               Fixture.completed_deposit "tx-3" 12 0x1p-53;
               Fixture.completed_deposit "tx-4" 13 0x1p-53] in
  Permutation (dict_values (BankSystem.transactions (bank_of small)))
    (dict_values (BankSystem.transactions (bank_of (rev small)))) /\
  total LeftToRight small = Some 0.6000000000000001%float /\
  total LeftToRight (rev small) = Some 0.6%float /\
  (0.6000000000000001 =? 0.6)%float = false /\
  Permutation (dict_values (BankSystem.transactions (bank_of wide)))
    (dict_values (BankSystem.transactions (bank_of (rev wide)))) /\
  (forall alg, total alg wide = Some 9007199254740992%float) /\
  (forall alg, total alg (rev wide) = Some 9007199254740994%float) /\
  (9007199254740992 =? 9007199254740994)%float = false.
Proof.
  cbv zeta. repeat split; try (intros []; reflexivity).
  - apply Permutation_rev.
  - apply Permutation_rev.
Qed.

(** C6.  When the start of the window is a date [datetime] can hold, the
    summary is returned; its [total_deposits] and [total_withdrawals] are the
    float [sum], in store order, of the amounts of the in-window [completed]
    deposits and withdrawals, and [net_flow] is their binary64 difference.
    A store holding the same transactions in another order gives the same
    count, and sums over the same amounts taken in another order. *)
Theorem get_transaction_summary_totals alg now bank days start_date :
  datetime.sub_days now days = Return start_date ->
  exists s,
    BankSystem.get_transaction_summary alg now bank days = Return s /\
    BankSystem.total_deposits s
      = py_sum alg (completed_amounts DEPOSIT start_date now
                      (BankSystem.transactions bank)) /\
    BankSystem.total_withdrawals s
      = py_sum alg (completed_amounts WITHDRAWAL start_date now
                      (BankSystem.transactions bank)) /\
    BankSystem.net_flow s
      = (BankSystem.total_deposits s - BankSystem.total_withdrawals s)%float /\
    forall bank',
      Permutation (dict_values (BankSystem.transactions bank))
        (dict_values (BankSystem.transactions bank')) ->
      exists s',
        BankSystem.get_transaction_summary alg now bank' days = Return s' /\
        BankSystem.total_transactions s' = BankSystem.total_transactions s /\
        (forall ty,
            Permutation
              (completed_amounts ty start_date now (BankSystem.transactions bank))
              (completed_amounts ty start_date now (BankSystem.transactions bank'))) /\
        BankSystem.total_deposits s'
          = py_sum alg (completed_amounts DEPOSIT start_date now
                          (BankSystem.transactions bank')) /\
        BankSystem.total_withdrawals s'
          = py_sum alg (completed_amounts WITHDRAWAL start_date now
                          (BankSystem.transactions bank')).
Proof.
  intros Hstart. unfold BankSystem.get_transaction_summary.
  rewrite Hstart. cbn [bind]. eexists. split; [reflexivity|].
  cbn [BankSystem.total_deposits BankSystem.total_withdrawals BankSystem.net_flow
       BankSystem.total_transactions].
  rewrite !total_completed_in_window. repeat split.
  intros bank' Hperm. eexists. split; [reflexivity|].
  cbn [BankSystem.total_deposits BankSystem.total_withdrawals
       BankSystem.total_transactions].
  rewrite !total_completed_in_window. repeat split.
  - symmetry. now apply Permutation_length, Permutation_filter.
  - intros ty. now apply completed_amounts_permutation.
Qed.

Lemma get_transaction_summary_totals_witness :
  let bank :=
    Fixture.bank_of [("acc-A", Fixture.alice)]
      (Fixture.store_of [Fixture.completed_deposit "tx-1" 10 250.5;
                         Fixture.completed_deposit "tx-2" 12 1000]) in
  datetime.sub_days Fixture.noon 30
    = Return {| datetime.year := 2025; datetime.month := 12; datetime.day := 16;
                datetime.hour := 12; datetime.minute := 0; datetime.second := 0;
                datetime.microsecond := 0 |} /\
  exists s,
    BankSystem.get_transaction_summary LeftToRight Fixture.noon bank 30 = Return s /\
    BankSystem.total_deposits s = 1250.5%float /\
    BankSystem.total_withdrawals s = 0%float /\
    BankSystem.net_flow s = 1250.5%float.
Proof.
  cbv zeta. split; [reflexivity|].
  destruct (get_transaction_summary_totals LeftToRight Fixture.noon
              (Fixture.bank_of [("acc-A", Fixture.alice)]
                 (Fixture.store_of [Fixture.completed_deposit "tx-1" 10 250.5;
                                    Fixture.completed_deposit "tx-2" 12 1000]))
              30 _ eq_refl)
    as (s & Hs & Hd & Hw & Hn & _).
  exists s. split; [exact Hs|]. split; [exact Hd|]. split; [exact Hw|].
  rewrite Hn, Hd, Hw. reflexivity.
Defined.

(** ** The identity store *)

(** C9.  [register_user] returns [False] exactly when some stored user, active
    or not, has the requested username, compared as strings; it then changes
    nothing.  Otherwise it returns [True] and stores, under the id drawn, a new
    active user with that username, and saves the users. *)
Theorem register_user_unique_username sha256_hexdigest new_id now self username
  password email phone role :
  let result :=
    AuthManager.register_user sha256_hexdigest new_id now self username password
      email phone role in
  (fst result = false <->
   exists user, In user (dict_values (AuthManager.users self))
                /\ User.username user = username) /\
  (fst result = false -> snd result = self) /\
  (fst result = true ->
   exists user,
     AuthManager.get_user (snd result) new_id = Some user /\
     User.username user = username /\
     User.user_id user = new_id /\
     User.password_hash user = sha256_hexdigest password /\
     AuthManager.users (snd result) = dict_set (AuthManager.users self) new_id user /\
     DataManager.users_file (AuthManager.data_manager (snd result)) =
       DataManager.Document
         (DataManager.dump User.to_dict (AuthManager.users (snd result)))).
Proof.
  cbv zeta. unfold AuthManager.register_user.
  destruct (existsb _ _) eqn:Hex; cbn [fst snd].
  - repeat split; try discriminate.
    intros _. apply existsb_exists in Hex. destruct Hex as (user & Hin & Heq).
    exists user. split; [exact Hin|]. now apply String.eqb_eq.
  - repeat split; try discriminate.
    + intros (user & Hin & Heq). exfalso.
      assert (Hex' : existsb (fun user => String.eqb (User.username user) username)
                       (dict_values (AuthManager.users self)) = true).
      { apply existsb_exists. exists user. split; [exact Hin|].
        now apply String.eqb_eq. }
      rewrite Hex in Hex'. discriminate Hex'.
    + intros _. eexists. unfold AuthManager.get_user. cbn.
      split; [apply dict_get_set_eq|]. repeat split.
Qed.

(** The comparison is exact: a username that differs in case is accepted. *)
Example register_user_is_case_sensitive :
  let sha256_hexdigest := Fixture.digest in
  let start :=
    {| AuthManager.data_manager := Fixture.empty_directory; AuthManager.users := [] |} in
  let first :=
    AuthManager.register_user sha256_hexdigest "user-1" Fixture.noon start
      "Alice" "secret" "alice@bank.com" "1234567890" "customer" in
  let second :=
    AuthManager.register_user sha256_hexdigest "user-2" Fixture.noon (snd first)
      "alice" "secret" "alice@bank.com" "1234567890" "customer" in
  let third :=
    AuthManager.register_user sha256_hexdigest "user-3" Fixture.noon (snd second)
      "Alice" "other" "a@bank.com" "0987654321" "customer" in
  fst first = true /\ fst second = true /\ fst third = false /\
  dict_keys (AuthManager.users (snd third)) = ["user-1"; "user-2"].
Proof. cbv zeta. repeat split. Qed.

(** ** Persistence *)

(** The files a load answers with an empty collection. *)
Lemma load_missing_or_undecodable {R : Type} (from_dict : nat -> json -> outcome R) f :
  f = DataManager.Missing \/ f = DataManager.Undecodable ->
  DataManager.load from_dict f = Return [].
Proof. intros [->| ->]; reflexivity. Qed.

(** Text nested more deeply than the interpreter recurses is not among them:
    the handler does not name [RecursionError]. *)
Lemma load_overnested {R : Type} (from_dict : nat -> json -> outcome R) :
  DataManager.load from_dict DataManager.Overnested = Raise RecursionError.
Proof. reflexivity. Qed.

(** A record that lacks an annotated key is caught as well. *)
Example load_accounts_missing_key :
  DataManager.load_accounts Fixture.oracle
    {| DataManager.users_file := DataManager.Missing;
       DataManager.accounts_file :=
         DataManager.Document (JObj [("acc-1", JObj [("account_id", JStr "acc-1")])]);
       DataManager.transactions_file := DataManager.Missing |}
  = Return [].
Proof. reflexivity. Qed.

(** C8.  A file that holds valid JSON of another shape than an object of
    objects is not turned into an empty collection: on the document [[]] each
    of the three loads raises [AttributeError] (from [.items()]), and on an
    object whose record is [null] each raises [TypeError] (from the first
    subscript in [from_dict]); the handler names [JSONDecodeError], [KeyError]
    and [ValueError] only. *)
Theorem load_of_unexpected_json_raises :
  let array_files :=
    {| DataManager.users_file := DataManager.Document (JArr []);
       DataManager.accounts_file := DataManager.Document (JArr []);
       DataManager.transactions_file := DataManager.Document (JArr []) |} in
  let null_records :=
    {| DataManager.users_file := DataManager.Document (JObj [("id-1", JNull)]);
       DataManager.accounts_file := DataManager.Document (JObj [("id-1", JNull)]);
       DataManager.transactions_file := DataManager.Document (JObj [("id-1", JNull)]) |} in
  DataManager.load_users Fixture.oracle array_files = Raise AttributeError /\
  DataManager.load_accounts Fixture.oracle array_files = Raise AttributeError /\
  DataManager.load_transactions Fixture.oracle array_files = Raise AttributeError /\
  DataManager.load_users Fixture.oracle null_records = Raise TypeError /\
  DataManager.load_accounts Fixture.oracle null_records = Raise TypeError /\
  DataManager.load_transactions Fixture.oracle null_records = Raise TypeError /\
  DataManager.handled AttributeError = false /\
  DataManager.handled TypeError = false.
Proof. cbv zeta. repeat split. Qed.

(** *** Timestamps survive their ISO 8601 text *)

Ltac div_lia := Z.div_mod_to_equations; lia.

Lemma digit_val_digit (k : Z) :
  0 <= k <= 9 -> datetime.digit_val (datetime.digit k) = Some k.
Proof.
  intros H.
  assert (H' : k = 0 \/ k = 1 \/ k = 2 \/ k = 3 \/ k = 4 \/ k = 5 \/ k = 6
               \/ k = 7 \/ k = 8 \/ k = 9) by lia.
  repeat (destruct H' as [->|H']; [reflexivity|]). subst k. reflexivity.
Qed.

Lemma number_app (l l' : list ascii) (acc : Z) :
  datetime.number (l ++ l') acc =
  match datetime.number l acc with
  | Some v => datetime.number l' v
  | None => None
  end.
Proof.
  revert acc. induction l as [|c l IH]; intros acc; simpl; [reflexivity|].
  destruct (datetime.digit_val c); [apply IH | reflexivity].
Qed.

Lemma number_pad2 (n acc : Z) :
  0 <= n <= 99 -> datetime.number (datetime.pad2 n) acc = Some (100 * acc + n).
Proof.
  intros H. unfold datetime.pad2. cbn [datetime.number].
  rewrite !digit_val_digit by div_lia. f_equal. div_lia.
Qed.

Lemma number_pad4 (n acc : Z) :
  0 <= n <= 9999 -> datetime.number (datetime.pad4 n) acc = Some (10000 * acc + n).
Proof.
  intros H. unfold datetime.pad4.
  rewrite number_app, !number_pad2 by div_lia. f_equal. div_lia.
Qed.

Lemma number_pad6 (n acc : Z) :
  0 <= n <= 999999 -> datetime.number (datetime.pad6 n) acc = Some (1000000 * acc + n).
Proof.
  intros H. unfold datetime.pad6.
  rewrite number_app, number_pad2, number_pad4 by div_lia. f_equal. div_lia.
Qed.

Lemma fromisoformat_seconds (y m d h mi s : Z) :
  datetime.fromisoformat
    (string_of_list_ascii
       (datetime.pad4 y ++ [datetime.sep_dash] ++ datetime.pad2 m
        ++ [datetime.sep_dash] ++ datetime.pad2 d ++ [datetime.sep_T]
        ++ datetime.pad2 h ++ [datetime.sep_colon] ++ datetime.pad2 mi
        ++ [datetime.sep_colon] ++ datetime.pad2 s ++ []))
  = datetime.parse_fields (datetime.pad4 y) (datetime.pad2 m) (datetime.pad2 d)
      (datetime.pad2 h) (datetime.pad2 mi) (datetime.pad2 s) [].
Proof.
  unfold datetime.fromisoformat. rewrite list_ascii_of_string_of_list_ascii.
  reflexivity.
Qed.

Lemma fromisoformat_microseconds (y m d h mi s us : Z) :
  datetime.fromisoformat
    (string_of_list_ascii
       (datetime.pad4 y ++ [datetime.sep_dash] ++ datetime.pad2 m
        ++ [datetime.sep_dash] ++ datetime.pad2 d ++ [datetime.sep_T]
        ++ datetime.pad2 h ++ [datetime.sep_colon] ++ datetime.pad2 mi
        ++ [datetime.sep_colon] ++ datetime.pad2 s
        ++ datetime.sep_dot :: datetime.pad6 us))
  = datetime.parse_fields (datetime.pad4 y) (datetime.pad2 m) (datetime.pad2 d)
      (datetime.pad2 h) (datetime.pad2 mi) (datetime.pad2 s) (datetime.pad6 us).
Proof.
  unfold datetime.fromisoformat. rewrite list_ascii_of_string_of_list_ascii.
  reflexivity.
Qed.

Lemma days_in_month_le (y m : Z) : datetime.days_in_month y m <= 31.
Proof.
  unfold datetime.days_in_month.
  destruct ((m =? 2) && datetime.is_leap y); [lia|].
  generalize (Z.to_nat (m - 1)). intros i.
  do 12 (destruct i as [|i]; [cbn; lia|]). destruct i; cbn; lia.
Qed.

Lemma valid_bounds (d : datetime.t) :
  datetime.valid d = true ->
  1 <= datetime.year d <= 9999 /\ 1 <= datetime.month d <= 12 /\
  1 <= datetime.day d <= 31 /\ 0 <= datetime.hour d <= 23 /\
  0 <= datetime.minute d <= 59 /\ 0 <= datetime.second d <= 59 /\
  0 <= datetime.microsecond d <= 999999.
Proof.
  unfold datetime.valid. intros H.
  repeat (apply andb_prop in H; destruct H as [H ?]).
  repeat match goal with
         | E : (_ <=? _) = true |- _ => apply Z.leb_le in E
         end.
  pose proof (days_in_month_le (datetime.year d) (datetime.month d)) as Hdim.
  lia.
Qed.

(** [fromisoformat] reads back what [isoformat] writes. *)
Lemma fromisoformat_isoformat (d : datetime.t) :
  datetime.valid d = true ->
  datetime.fromisoformat (datetime.isoformat d) = Return d.
Proof.
  intros Hvalid. pose proof (valid_bounds d Hvalid) as Hb.
  unfold datetime.isoformat.
  destruct (datetime.microsecond d =? 0) eqn:Hus.
  - rewrite fromisoformat_seconds. unfold datetime.parse_fields.
    rewrite number_pad4, !number_pad2 by lia. cbn [datetime.number].
    apply Z.eqb_eq in Hus. unfold datetime.checked.
    replace {| datetime.year := _ |} with d
      by (destruct d; cbn in *; subst; f_equal; lia).
    now rewrite Hvalid.
  - rewrite fromisoformat_microseconds. unfold datetime.parse_fields.
    rewrite number_pad4, !number_pad2, number_pad6 by lia.
    unfold datetime.checked.
    replace {| datetime.year := _ |} with d
      by (destruct d; cbn in *; f_equal; lia).
    now rewrite Hvalid.
Qed.

Lemma isoformat_truthy (d : datetime.t) : truthy (JStr (datetime.isoformat d)) = true.
Proof. reflexivity. Qed.

(** *** Records survive their dict *)

Lemma optional_datetime_isoformat members key d :
  dict_get members key = Some (JStr (datetime.isoformat d)) ->
  datetime.valid d = true ->
  optional_datetime (JObj members) key = Return (Some d).
Proof.
  intros Hget Hvalid. unfold optional_datetime, get, subscript.
  rewrite Hget. cbn [bind]. rewrite isoformat_truthy. cbn [bind].
  now rewrite (fromisoformat_isoformat d Hvalid).
Qed.

Lemma optional_datetime_null members key :
  dict_get members key = Some JNull ->
  optional_datetime (JObj members) key = Return None.
Proof.
  intros Hget. unfold optional_datetime, get. now rewrite Hget.
Qed.

Lemma User_from_dict_to_dict now u :
  user_timestamps_valid u = true ->
  User.from_dict now (User.to_dict u) = Return u.
Proof.
  unfold user_timestamps_valid. intros H. apply andb_prop in H.
  destruct H as [Hcreated Hlogin].
  unfold User.from_dict, User.to_dict. cbn [subscript dict_get String.eqb Ascii.eqb
    Bool.eqb bind isoformat_or_null].
  rewrite (optional_datetime_isoformat _ _ (User.created_at u)) by
    (reflexivity || exact Hcreated).
  cbn [bind].
  destruct u as [uid uname mail ph rl pw created [login|] active];
    cbn [User.last_login isoformat_or_null optional_valid] in *.
  - rewrite (optional_datetime_isoformat _ _ login) by (reflexivity || exact Hlogin).
    reflexivity.
  - rewrite optional_datetime_null by reflexivity. reflexivity.
Qed.

Lemma Account_from_dict_to_dict now a :
  account_timestamps_valid a = true ->
  Account.from_dict now (Account.to_dict a) = Return a.
Proof.
  unfold account_timestamps_valid. intros Hcreated.
  unfold Account.from_dict, Account.to_dict. cbn [subscript dict_get String.eqb
    Ascii.eqb Bool.eqb bind isoformat_or_null].
  rewrite (optional_datetime_isoformat _ _ (Account.created_at a)) by
    (reflexivity || exact Hcreated).
  destruct a. reflexivity.
Qed.

Lemma type_of_value_type_value ty : type_of_value (JStr (type_value ty)) = Return ty.
Proof. destruct ty; reflexivity. Qed.

Lemma status_of_value_status_value st :
  status_of_value (JStr (status_value st)) = Return st.
Proof. destruct st; reflexivity. Qed.

Lemma Transaction_from_dict_to_dict now reference reference' x :
  transaction_timestamps_valid x = true ->
  Transaction.from_dict now reference reference' (Transaction.to_dict x) = Return x.
Proof.
  unfold transaction_timestamps_valid. intros Hcreated.
  unfold Transaction.from_dict, Transaction.to_dict. cbn [subscript dict_get String.eqb
    Ascii.eqb Bool.eqb bind isoformat_or_null].
  rewrite type_of_value_type_value. cbn [bind get get_default dict_get String.eqb
    Ascii.eqb Bool.eqb].
  rewrite (optional_datetime_isoformat _ _ (Transaction.created_at x)) by
    (reflexivity || exact Hcreated).
  cbn [bind to_float]. rewrite status_of_value_status_value.
  destruct x as [tid aid ty am descr [target|] created st ref fee]; reflexivity.
Qed.

(** *** Collections survive their file *)

Section LoadAfterSave.
Context {R : Type}.
Variable to_dict : R -> json.
Variable from_dict : nat -> json -> outcome R.
Variable timestamps_valid : R -> bool.
Hypothesis from_dict_to_dict :
  forall i record, timestamps_valid record = true ->
                   from_dict i (to_dict record) = Return record.

Lemma load_records_dumped (records loaded : dict R) (i : nat) :
  Forall (fun record => timestamps_valid record = true) (dict_values records) ->
  DataManager.load_records from_dict i
    (map (fun '(key, record) => (key, to_dict record)) records) loaded
  = Return (fold_left (fun d entry => dict_set d (fst entry) (snd entry))
              records loaded).
Proof.
  revert loaded i. induction records as [|[key record] records IH];
    intros loaded i Hvalid; [reflexivity|].
  inversion Hvalid as [|? ? Hrecord Hrest]; subst.
  cbn [map DataManager.load_records fold_left fst snd].
  rewrite (from_dict_to_dict i record Hrecord). cbn [bind]. now apply IH.
Qed.

Lemma rebuild_distinct (records loaded : dict R) :
  NoDup (dict_keys (loaded ++ records)%list) ->
  fold_left (fun d entry => dict_set d (fst entry) (snd entry)) records loaded
  = (loaded ++ records)%list.
Proof.
  revert loaded. induction records as [|[key record] records IH]; intros loaded Hnd.
  - now rewrite app_nil_r.
  - cbn [fold_left fst snd].
    assert (Hfresh : dict_get loaded key = None).
    { destruct (dict_get loaded key) as [v|] eqn:Hget; [|reflexivity]. exfalso.
      apply dict_get_In in Hget. unfold dict_keys in Hnd.
      rewrite map_app in Hnd. cbn [map fst] in Hnd.
      apply NoDup_remove_2 in Hnd. apply Hnd, in_or_app. left.
      change key with (fst (key, v)). now apply in_map. }
    rewrite (dict_set_fresh _ _ _ Hfresh), IH; rewrite <- app_assoc; auto.
Qed.

Lemma load_dumped (records : dict R) :
  well_formed timestamps_valid records ->
  DataManager.load from_dict (DataManager.Document (DataManager.dump to_dict records))
  = Return records.
Proof.
  intros [Hnd Hvalid]. unfold DataManager.load, DataManager.json_load,
    DataManager.dump. cbn [bind items].
  rewrite (load_records_dumped records [] 0 Hvalid).
  now rewrite (rebuild_distinct records []).
Qed.

End LoadAfterSave.

(** C7.  For each of the three collections, loading the file that a save of a
    well-formed collection wrote returns that collection, record for record
    and field for field, in the same order. *)
Theorem load_after_save env dir users accounts transactions :
  well_formed user_timestamps_valid users ->
  well_formed account_timestamps_valid accounts ->
  well_formed transaction_timestamps_valid transactions ->
  DataManager.load_users env (DataManager.save_users dir users) = Return users /\
  DataManager.load_accounts env (DataManager.save_accounts dir accounts)
    = Return accounts /\
  DataManager.load_transactions env (DataManager.save_transactions dir transactions)
    = Return transactions.
Proof.
  intros Husers Haccounts Htransactions.
  unfold DataManager.load_users, DataManager.load_accounts,
    DataManager.load_transactions, DataManager.save_users, DataManager.save_accounts,
    DataManager.save_transactions.
  cbn [DataManager.users_file DataManager.accounts_file DataManager.transactions_file].
  split; [|split].
  - apply (load_dumped _ _ user_timestamps_valid); [|exact Husers].
    intros i record. apply User_from_dict_to_dict.
  - apply (load_dumped _ _ account_timestamps_valid); [|exact Haccounts].
    intros i record. apply Account_from_dict_to_dict.
  - apply (load_dumped _ _ transaction_timestamps_valid); [|exact Htransactions].
    intros i record. apply Transaction_from_dict_to_dict.
Qed.

Lemma load_after_save_witness :
  let users := [("user-1", Fixture.carol)] in
  let accounts := [("acc-A", Fixture.alice); ("acc-D", Fixture.dormant)] in
  let transactions :=
    Fixture.store_of [Fixture.completed_deposit "tx-1" 10 250.5;
                      fail_transaction (Fixture.completed_deposit "tx-2" 12 0.1)] in
  DataManager.load_users Fixture.oracle
    (DataManager.save_users Fixture.empty_directory users) = Return users /\
  DataManager.load_accounts Fixture.oracle
    (DataManager.save_accounts Fixture.empty_directory accounts) = Return accounts /\
  DataManager.load_transactions Fixture.oracle
    (DataManager.save_transactions Fixture.empty_directory transactions)
    = Return transactions.
Proof.
  cbv zeta.
  apply (load_after_save Fixture.oracle Fixture.empty_directory
           [("user-1", Fixture.carol)]
           [("acc-A", Fixture.alice); ("acc-D", Fixture.dormant)]
           (Fixture.store_of [Fixture.completed_deposit "tx-1" 10 250.5;
                              fail_transaction (Fixture.completed_deposit "tx-2" 12 0.1)]));
    (split; [repeat constructor; simpl; intuition discriminate
            | repeat constructor]).
Defined.

(** * Further properties of the code *)

(** ** Accepted and rejected money operations *)

(** X1.  A deposit of a positive amount on a stored account returns [True],
    sets the balance to [balance + amount] and leaves every other field and
    every other account as it is; with a new record id it appends one
    completed [deposit] record, and both collections are saved. *)
Theorem deposit_accepted tdr bank account_id account amount description :
  BankSystem.get_account_by_id bank account_id = Some account ->
  (0 <? amount)%float = true ->
  dict_get (BankSystem.transactions bank) (drawn_uuid tdr) = None ->
  exists bank' record,
    BankSystem.deposit tdr bank account_id amount description = (true, bank') /\
    BankSystem.get_account_by_id bank' account_id
      = Some (Account.set_balance account (Account.balance account + amount)%float) /\
    (forall ref, ref <> account_id ->
       BankSystem.get_account_by_id bank' ref = BankSystem.get_account_by_id bank ref) /\
    BankSystem.transactions bank' =
      (BankSystem.transactions bank ++ [(drawn_uuid tdr, record)])%list /\
    transaction_type record = DEPOSIT /\
    status record = COMPLETED /\
    Transaction.account_id record = account_id /\
    Transaction.amount record = amount /\
    target_account_id record = None /\
    DataManager.accounts_file (BankSystem.data_manager bank') =
      DataManager.Document
        (DataManager.dump Account.to_dict (BankSystem.accounts bank')) /\
    DataManager.transactions_file (BankSystem.data_manager bank') =
      DataManager.Document (DataManager.dump to_dict (BankSystem.transactions bank')).
Proof.
  intros Hacc Hpos Hfresh.
  unfold BankSystem.deposit. rewrite Hacc, (ltb_not_leb _ _ Hpos).
  unfold Account.deposit. rewrite (ltb_not_leb _ _ Hpos).
  eexists. eexists. split; [reflexivity|].
  unfold BankSystem.get_account_by_id, BankSystem.commit,
    BankSystem.record_transaction. cbn.
  split; [apply dict_get_set_eq|].
  split; [intros ref Hne; apply dict_get_set_ne; congruence|].
  split; [apply dict_set_fresh; exact Hfresh|].
  repeat split.
Qed.

Lemma deposit_accepted_witness :
  let bank := Fixture.bank_of [("acc-A", Fixture.alice); ("acc-B", Fixture.bob)] [] in
  let tdr := Fixture.transaction_draw "tx-1" 100001 in
  exists bank',
    BankSystem.deposit tdr bank "acc-A" 250.5 "salary" = (true, bank') /\
    BankSystem.get_account_by_id bank' "acc-A"
      = Some (Account.set_balance Fixture.alice 350.5) /\
    BankSystem.get_account_by_id bank' "acc-B" = Some Fixture.bob /\
    dict_keys (BankSystem.transactions bank') = ["tx-1"].
Proof.
  cbv zeta.
  destruct (deposit_accepted (Fixture.transaction_draw "tx-1" 100001)
              (Fixture.bank_of [("acc-A", Fixture.alice); ("acc-B", Fixture.bob)] [])
              "acc-A" Fixture.alice 250.5 "salary" eq_refl eq_refl eq_refl)
    as (bank' & record & Hrun & Hbalance & Hframe & Hlog & _).
  exists bank'. split; [exact Hrun|]. split; [exact Hbalance|].
  split; [rewrite Hframe by discriminate; reflexivity|].
  rewrite Hlog. reflexivity.
Defined.

(** X2.  A withdrawal of a positive amount within the balance returns [True],
    sets the balance to [balance - amount] and leaves every other field and
    every other account as it is; with a new record id it appends one
    completed [withdrawal] record, and both collections are saved. *)
Theorem withdraw_accepted tdr bank account_id account amount description :
  BankSystem.get_account_by_id bank account_id = Some account ->
  (0 <? amount)%float = true ->
  (amount <=? Account.balance account)%float = true ->
  dict_get (BankSystem.transactions bank) (drawn_uuid tdr) = None ->
  exists bank' record,
    BankSystem.withdraw tdr bank account_id amount description = (true, bank') /\
    BankSystem.get_account_by_id bank' account_id
      = Some (Account.set_balance account (Account.balance account - amount)%float) /\
    (forall ref, ref <> account_id ->
       BankSystem.get_account_by_id bank' ref = BankSystem.get_account_by_id bank ref) /\
    BankSystem.transactions bank' =
      (BankSystem.transactions bank ++ [(drawn_uuid tdr, record)])%list /\
    transaction_type record = WITHDRAWAL /\
    status record = COMPLETED /\
    Transaction.account_id record = account_id /\
    Transaction.amount record = amount /\
    target_account_id record = None /\
    DataManager.accounts_file (BankSystem.data_manager bank') =
      DataManager.Document
        (DataManager.dump Account.to_dict (BankSystem.accounts bank')) /\
    DataManager.transactions_file (BankSystem.data_manager bank') =
      DataManager.Document (DataManager.dump to_dict (BankSystem.transactions bank')).
Proof.
  intros Hacc Hpos Hle Hfresh.
  unfold BankSystem.withdraw. rewrite Hacc, (ltb_not_leb _ _ Hpos).
  unfold Account.withdraw. rewrite (ltb_not_leb _ _ Hpos), (leb_not_ltb _ _ Hle).
  eexists. eexists. split; [reflexivity|].
  unfold BankSystem.get_account_by_id, BankSystem.commit,
    BankSystem.record_transaction. cbn.
  split; [apply dict_get_set_eq|].
  split; [intros ref Hne; apply dict_get_set_ne; congruence|].
  split; [apply dict_set_fresh; exact Hfresh|].
  repeat split.
Qed.

Lemma withdraw_accepted_witness :
  let bank := Fixture.bank_of [("acc-A", Fixture.alice); ("acc-B", Fixture.bob)] [] in
  let tdr := Fixture.transaction_draw "tx-1" 100001 in
  exists bank',
    BankSystem.withdraw tdr bank "acc-A" 100 "all of it" = (true, bank') /\
    BankSystem.get_account_by_id bank' "acc-A"
      = Some (Account.set_balance Fixture.alice 0) /\
    BankSystem.get_account_by_id bank' "acc-B" = Some Fixture.bob /\
    dict_keys (BankSystem.transactions bank') = ["tx-1"].
Proof.
  cbv zeta.
  destruct (withdraw_accepted (Fixture.transaction_draw "tx-1" 100001)
              (Fixture.bank_of [("acc-A", Fixture.alice); ("acc-B", Fixture.bob)] [])
              "acc-A" Fixture.alice 100 "all of it" eq_refl eq_refl eq_refl eq_refl)
    as (bank' & record & Hrun & Hbalance & Hframe & Hlog & _).
  exists bank'. split; [exact Hrun|]. split; [exact Hbalance|].
  split; [rewrite Hframe by discriminate; reflexivity|].
  rewrite Hlog. reflexivity.
Defined.

(** X3.  A withdrawal of an amount [<= 0], or on an account id that is not in
    the engine, returns [False] and leaves the whole engine as it is. *)
Theorem withdraw_rejected_without_record tdr bank account_id amount description :
  (amount <=? 0)%float = true \/ BankSystem.get_account_by_id bank account_id = None ->
  BankSystem.withdraw tdr bank account_id amount description = (false, bank).
Proof.
  intros [Hamount|Hmissing]; unfold BankSystem.withdraw.
  - rewrite Hamount. now destruct (BankSystem.get_account_by_id bank account_id).
  - now rewrite Hmissing.
Qed.

Lemma withdraw_rejected_without_record_witness :
  let bank := Fixture.bank_of [("acc-A", Fixture.alice)] [] in
  let tdr := Fixture.transaction_draw "tx-1" 100001 in
  BankSystem.withdraw tdr bank "acc-A" (-5)%float "" = (false, bank) /\
  BankSystem.withdraw tdr bank "acc-Z" 50%float "" = (false, bank).
Proof.
  cbv zeta. split.
  - apply withdraw_rejected_without_record. left. reflexivity.
  - apply withdraw_rejected_without_record. right. reflexivity.
Defined.

(** The number lookup fails exactly when no active account carries the
    number. *)
Lemma get_account_by_number_none bank number :
  BankSystem.get_account_by_number bank number = None <->
  forall entry, In entry (BankSystem.accounts bank) ->
                Account.account_number (snd entry) = number ->
                Account.is_active (snd entry) = false.
Proof.
  unfold BankSystem.get_account_by_number. split.
  - intros H entry Hin Hn. pose proof (find_none _ _ H entry Hin) as Hp.
    cbn beta in Hp. apply String.eqb_eq in Hn. rewrite Hn in Hp. exact Hp.
  - intros H. destruct (find _ _) as [entry|] eqn:Hfind; [|reflexivity].
    apply find_some in Hfind. destruct Hfind as [Hin Hp].
    apply andb_prop in Hp. destruct Hp as [Hn Ha]. apply String.eqb_eq in Hn.
    rewrite (H entry Hin Hn) in Ha. discriminate Ha.
Qed.

(** X4.  A transfer returns [False] and leaves the whole engine as it is when
    the source id is not in the engine, when no active account carries the
    destination number, or when the amount is [<= 0]. *)
Theorem transfer_rejected_without_record tdr tdr' bank from_id number amount
  description :
  BankSystem.get_account_by_id bank from_id = None \/
  (forall entry, In entry (BankSystem.accounts bank) ->
                 Account.account_number (snd entry) = number ->
                 Account.is_active (snd entry) = false) \/
  (amount <=? 0)%float = true ->
  BankSystem.transfer tdr tdr' bank from_id number amount description = (false, bank).
Proof.
  intros [Hsource|[Hnumber|Hamount]]; unfold BankSystem.transfer.
  - now rewrite Hsource.
  - apply get_account_by_number_none in Hnumber. rewrite Hnumber.
    now destruct (BankSystem.get_account_by_id bank from_id).
  - rewrite Hamount.
    destruct (BankSystem.get_account_by_id bank from_id); [|reflexivity].
    now destruct (BankSystem.get_account_by_number bank number) as [[? ?]|].
Qed.

Lemma transfer_rejected_without_record_witness :
  let bank := Fixture.bank_of [("acc-A", Fixture.alice); ("acc-B", Fixture.bob)] [] in
  let tdr := Fixture.transaction_draw "tx-1" 100001 in
  let tdr' := Fixture.transaction_draw "tx-2" 100002 in
  BankSystem.transfer tdr tdr' bank "acc-Z" "1000000002" 30 "" = (false, bank) /\
  BankSystem.transfer tdr tdr' bank "acc-A" "9999999999" 30 "" = (false, bank) /\
  BankSystem.transfer tdr tdr' bank "acc-A" "1000000002" 0 "" = (false, bank).
Proof.
  cbv zeta. split; [|split].
  - apply transfer_rejected_without_record. left. reflexivity.
  - apply transfer_rejected_without_record. right. left.
    intros entry [H|[H|[]]] Hn; subst entry; discriminate Hn.
  - apply transfer_rejected_without_record. right. right. reflexivity.
Defined.

(** X5.  A transfer of a positive amount above the source balance, to a number
    an active account carries, returns [False] and leaves every account as it
    is; with a new record id it appends one failed [transfer] record that
    names the destination, and saves the transactions only. *)
Theorem transfer_insufficient_funds tdr tdr' bank from_id number amount description
  from_account to_ref to_account :
  BankSystem.get_account_by_id bank from_id = Some from_account ->
  BankSystem.get_account_by_number bank number = Some (to_ref, to_account) ->
  (0 <? amount)%float = true ->
  (Account.balance from_account <? amount)%float = true ->
  dict_get (BankSystem.transactions bank) (drawn_uuid tdr) = None ->
  exists bank' record,
    BankSystem.transfer tdr tdr' bank from_id number amount description
      = (false, bank') /\
    BankSystem.accounts bank' = BankSystem.accounts bank /\
    BankSystem.transactions bank' =
      (BankSystem.transactions bank ++ [(drawn_uuid tdr, record)])%list /\
    transaction_type record = TRANSFER /\
    status record = FAILED /\
    Transaction.account_id record = from_id /\
    target_account_id record = Some (Account.account_id to_account) /\
    Transaction.amount record = amount /\
    DataManager.accounts_file (BankSystem.data_manager bank') =
      DataManager.accounts_file (BankSystem.data_manager bank) /\
    DataManager.transactions_file (BankSystem.data_manager bank') =
      DataManager.Document (DataManager.dump to_dict (BankSystem.transactions bank')).
Proof.
  intros Hfrom Hto Hpos Hover Hfresh.
  unfold BankSystem.transfer. rewrite Hfrom, Hto, (ltb_not_leb _ _ Hpos).
  unfold Account.transfer_to. rewrite (ltb_not_leb _ _ Hpos), Hover. cbn [orb].
  eexists. eexists. split; [reflexivity|].
  unfold BankSystem.commit, BankSystem.record_transaction. cbn.
  split; [reflexivity|].
  split; [apply dict_set_fresh; exact Hfresh|].
  repeat split.
Qed.

Lemma transfer_insufficient_funds_witness :
  let bank := Fixture.bank_of [("acc-A", Fixture.alice); ("acc-B", Fixture.bob)] [] in
  let tdr := Fixture.transaction_draw "tx-1" 100001 in
  let tdr' := Fixture.transaction_draw "tx-2" 100002 in
  exists bank',
    BankSystem.transfer tdr tdr' bank "acc-A" "1000000002" 2000 "" = (false, bank') /\
    BankSystem.accounts bank' = BankSystem.accounts bank /\
    map (fun entry => (fst entry, status (snd entry))) (BankSystem.transactions bank')
      = [("tx-1", FAILED)].
Proof.
  cbv zeta.
  destruct (transfer_insufficient_funds (Fixture.transaction_draw "tx-1" 100001)
              (Fixture.transaction_draw "tx-2" 100002)
              (Fixture.bank_of [("acc-A", Fixture.alice); ("acc-B", Fixture.bob)] [])
              "acc-A" "1000000002" 2000 "" Fixture.alice "acc-B" Fixture.bob
              eq_refl eq_refl eq_refl eq_refl eq_refl)
    as (bank' & record & Hrun & Haccounts & Hlog & _ & Hstatus & _).
  exists bank'. split; [exact Hrun|]. split; [exact Haccounts|].
  rewrite Hlog. cbn. now rewrite Hstatus.
Defined.

(** ** Account creation and lookup *)

(** X6.  [create_account] always stores and returns an active account with the
    drawn id and number, the given owner, type and initial balance and the
    default limits, and touches no other account.  It records one completed
    [deposit] record "Initial deposit" exactly when the initial balance is
    [> 0]; a zero, negative or NaN initial balance records nothing.  Both
    collections are saved either way. *)
Theorem create_account_stores adr tdr bank user_id account_type initial_balance :
  let account :=
    fst (BankSystem.create_account adr tdr bank user_id account_type initial_balance) in
  let bank' :=
    snd (BankSystem.create_account adr tdr bank user_id account_type initial_balance) in
  account =
    {| Account.account_id := Account.drawn_uuid adr;
       Account.user_id := user_id;
       Account.account_number := str (Account.drawn_number adr);
       Account.account_type := account_type;
       Account.balance := initial_balance;
       Account.created_at := Account.drawn_now adr;
       Account.is_active := true;
       Account.daily_transaction_limit := 50000;
       Account.monthly_transaction_limit := 500000 |} /\
  BankSystem.get_account_by_id bank' (Account.drawn_uuid adr) = Some account /\
  (forall ref, ref <> Account.drawn_uuid adr ->
     BankSystem.get_account_by_id bank' ref = BankSystem.get_account_by_id bank ref) /\
  ((0 <? initial_balance)%float = true ->
   exists record,
     dict_get (BankSystem.transactions bank') (drawn_uuid tdr) = Some record /\
     transaction_type record = DEPOSIT /\ status record = COMPLETED /\
     Transaction.account_id record = Account.drawn_uuid adr /\
     Transaction.amount record = initial_balance /\
     description record = "Initial deposit" /\
     forall id, id <> drawn_uuid tdr ->
       dict_get (BankSystem.transactions bank') id
       = dict_get (BankSystem.transactions bank) id) /\
  ((0 <? initial_balance)%float = false ->
   BankSystem.transactions bank' = BankSystem.transactions bank) /\
  DataManager.accounts_file (BankSystem.data_manager bank') =
    DataManager.Document (DataManager.dump Account.to_dict (BankSystem.accounts bank')) /\
  DataManager.transactions_file (BankSystem.data_manager bank') =
    DataManager.Document (DataManager.dump to_dict (BankSystem.transactions bank')).
Proof.
  cbv zeta. unfold BankSystem.create_account, BankSystem.get_account_by_id,
    BankSystem.commit, BankSystem.record_transaction. cbn.
  split; [reflexivity|].
  split; [apply dict_get_set_eq|].
  split; [intros ref Hne; apply dict_get_set_ne; congruence|].
  split; [|split; [|split; reflexivity]].
  - intros Hpos. rewrite Hpos. eexists. split; [apply dict_get_set_eq|].
    repeat split. intros id Hne. apply dict_get_set_ne. congruence.
  - intros Hnot. now rewrite Hnot.
Qed.

(** X7.  When the number of an account is answered by the account itself, a
    transfer from the account to its own number, of a positive amount within
    the balance, returns [True]: the one object is debited and then credited,
    so its balance becomes [(balance - amount) + amount] in binary64, and a
    completed [transfer] and a completed [deposit] record are appended, both
    on the account and pointing to it. *)
Theorem transfer_to_own_number_accepted tdr tdr' bank A amount description :
  BankSystem.get_account_by_id bank (Account.account_id A) = Some A ->
  BankSystem.get_account_by_number bank (Account.account_number A)
    = Some (Account.account_id A, A) ->
  (0 <? amount)%float = true ->
  (amount <=? Account.balance A)%float = true ->
  dict_get (BankSystem.transactions bank) (drawn_uuid tdr) = None ->
  dict_get (BankSystem.transactions bank) (drawn_uuid tdr') = None ->
  drawn_uuid tdr <> drawn_uuid tdr' ->
  exists bank' debit_record credit_record,
    BankSystem.transfer tdr tdr' bank (Account.account_id A)
      (Account.account_number A) amount description = (true, bank') /\
    BankSystem.get_account_by_id bank' (Account.account_id A)
      = Some (Account.set_balance A ((Account.balance A - amount) + amount)%float) /\
    (forall ref, ref <> Account.account_id A ->
       BankSystem.get_account_by_id bank' ref = BankSystem.get_account_by_id bank ref) /\
    BankSystem.transactions bank' =
      (BankSystem.transactions bank
       ++ [(drawn_uuid tdr, debit_record); (drawn_uuid tdr', credit_record)])%list /\
    (transaction_type debit_record = TRANSFER /\ status debit_record = COMPLETED /\
     Transaction.account_id debit_record = Account.account_id A /\
     target_account_id debit_record = Some (Account.account_id A)) /\
    (transaction_type credit_record = DEPOSIT /\ status credit_record = COMPLETED /\
     Transaction.account_id credit_record = Account.account_id A /\
     target_account_id credit_record = Some (Account.account_id A)).
Proof.
  intros HA Hself Hpos Hle Hfresh Hfresh' Hdistinct.
  rewrite (transfer_accepted _ _ _ _ _ _ _ _ _ _ HA Hself Hpos Hle).
  eexists. eexists. eexists. split; [reflexivity|].
  unfold BankSystem.get_account_by_id, BankSystem.commit in *.
  cbn [BankSystem.accounts BankSystem.transactions].
  split; [|split; [|split]].
  - rewrite !dict_get_alter, String.eqb_refl, HA. reflexivity.
  - intros ref Href. rewrite !dict_get_alter. apply String.eqb_neq in Href.
    rewrite (String.eqb_sym (Account.account_id A) ref), Href. reflexivity.
  - unfold BankSystem.record_transaction. cbn [transaction_id create_transaction
      complete_transaction set_status init].
    rewrite (dict_set_fresh _ _ _ Hfresh).
    rewrite dict_set_fresh
      by (rewrite dict_get_app_fresh by exact Hdistinct; exact Hfresh').
    rewrite <- app_assoc. reflexivity.
  - repeat split.
Qed.

Lemma transfer_to_own_number_accepted_witness :
  let saver := Fixture.account "acc-A" "1000000001" 6.89 true in
  let bank := Fixture.bank_of [("acc-A", saver)] [] in
  exists bank',
    BankSystem.transfer (Fixture.transaction_draw "tx-1" 100001)
      (Fixture.transaction_draw "tx-2" 100002) bank "acc-A" "1000000001" 2.31 ""
    = (true, bank') /\
    BankSystem.get_account_by_id bank' "acc-A"
      = Some (Account.set_balance saver 6.890000000000001) /\
    (6.89 <? 6.890000000000001)%float = true.
Proof.
  cbv zeta.
  destruct (transfer_to_own_number_accepted (Fixture.transaction_draw "tx-1" 100001)
              (Fixture.transaction_draw "tx-2" 100002)
              (Fixture.bank_of [("acc-A", Fixture.account "acc-A" "1000000001" 6.89 true)] [])
              (Fixture.account "acc-A" "1000000001" 6.89 true) 2.31 ""
              eq_refl eq_refl eq_refl eq_refl eq_refl eq_refl)
    as (bank' & debit_record & credit_record & Hrun & Hbalance & _).
  - intros H. discriminate H.
  - exists bank'. split; [exact Hrun|]. split; [exact Hbalance|]. reflexivity.
Defined.

(** X8.  The account a number lookup answers with is the first active account
    of that number in store order: every account stored before it that carries
    the number is deactivated.  An active account stored behind another active
    account of the same number is never answered. *)
Theorem get_account_by_number_first bank number target :
  BankSystem.get_account_by_number bank number = Some target ->
  exists before after,
    BankSystem.accounts bank = (before ++ target :: after)%list /\
    Account.account_number (snd target) = number /\
    Account.is_active (snd target) = true /\
    forall entry, In entry before ->
                  Account.account_number (snd entry) = number ->
                  Account.is_active (snd entry) = false.
Proof.
  unfold BankSystem.get_account_by_number.
  induction (BankSystem.accounts bank) as [|entry entries IH]; cbn [find];
    [discriminate|].
  destruct (String.eqb (Account.account_number (snd entry)) number
            && Account.is_active (snd entry)) eqn:Hp.
  - intros H. inversion H; subst target. exists [], entries.
    apply andb_prop in Hp. destruct Hp as [Hn Ha]. apply String.eqb_eq in Hn.
    repeat split; auto. intros ? [].
  - intros H. destruct (IH H) as (before & after & Heq & Hn & Ha & Hbefore).
    exists (entry :: before), after. rewrite Heq. repeat split; auto.
    intros entry' [<-|Hin] Hn'; [|now apply Hbefore].
    apply String.eqb_eq in Hn'. now rewrite Hn' in Hp.
Qed.

Lemma get_account_by_number_first_witness :
  let first := Fixture.account "acc-A" "1000000001" 100 true in
  let second := Fixture.account "acc-B" "1000000001" 0 true in
  let bank := Fixture.bank_of [("acc-A", first); ("acc-B", second)] [] in
  BankSystem.get_account_by_number bank "1000000001" = Some ("acc-A", first) /\
  exists before after,
    BankSystem.accounts bank = (before ++ ("acc-A", first) :: after)%list /\
    In ("acc-B", second) after.
Proof.
  cbv zeta. split; [reflexivity|].
  destruct (get_account_by_number_first
              (Fixture.bank_of
                 [("acc-A", Fixture.account "acc-A" "1000000001" 100 true);
                  ("acc-B", Fixture.account "acc-B" "1000000001" 0 true)] [])
              "1000000001" ("acc-A", Fixture.account "acc-A" "1000000001" 100 true)
              eq_refl)
    as (before & after & Heq & _ & _ & Hbefore).
  exists before, after. split; [exact Heq|].
  assert (Hin : In ("acc-B", Fixture.account "acc-B" "1000000001" 0 true)
                  (before ++ ("acc-A", Fixture.account "acc-A" "1000000001" 100 true)
                   :: after)%list).
  { rewrite <- Heq. right. left. reflexivity. }
  apply in_app_or in Hin. destruct Hin as [Hin|[Hin|Hin]].
  - specialize (Hbefore _ Hin eq_refl). discriminate Hbefore.
  - discriminate Hin.
  - exact Hin.
Defined.

(** ** What every operation keeps *)

Section DictInvariants.
Context {V : Type}.
Implicit Types (d : dict V) (k : string) (v : V).

Lemma dict_keys_alter f k d : dict_keys (dict_alter f k d) = dict_keys d.
Proof.
  induction d as [|[k0 v0] d IH]; cbn; [reflexivity|].
  destruct (String.eqb k0 k); cbn; [reflexivity|]. f_equal. exact IH.
Qed.

Lemma dict_keys_set_present d k v v0 :
  dict_get d k = Some v0 -> dict_keys (dict_set d k v) = dict_keys d.
Proof.
  induction d as [|[k1 v1] d IH]; cbn; [discriminate|].
  destruct (String.eqb k1 k); cbn; [reflexivity|]. intros H. f_equal. now apply IH.
Qed.

Lemma dict_get_not_In d k : dict_get d k = None -> ~ In k (dict_keys d).
Proof.
  induction d as [|[k0 v0] d IH]; cbn; [tauto|].
  destruct (String.eqb k0 k) eqn:E; [discriminate|].
  intros H [Heq|Hin]; [|now apply IH].
  apply String.eqb_neq in E. contradiction.
Qed.

(** Writing a key keeps the keys distinct. *)
Lemma dict_set_NoDup d k v : NoDup (dict_keys d) -> NoDup (dict_keys (dict_set d k v)).
Proof.
  intros Hnd. destruct (dict_get d k) as [v0|] eqn:Hget.
  - now rewrite (dict_keys_set_present _ _ _ _ Hget).
  - rewrite (dict_set_fresh _ _ _ Hget). unfold dict_keys. rewrite map_app.
    apply NoDup_app; [exact Hnd| |].
    + cbn. constructor; [tauto|constructor].
    + intros key Hin [<-|[]]. now apply (dict_get_not_In _ _ Hget).
Qed.

Lemma dict_set_Forall (P : V -> Prop) d k v :
  Forall P (dict_values d) -> P v -> Forall P (dict_values (dict_set d k v)).
Proof.
  intros Hall Hv. induction d as [|[k0 v0] d IH]; cbn.
  - now constructor.
  - inversion Hall; subst. destruct (String.eqb k0 k); cbn; constructor; auto.
Qed.

Lemma dict_alter_Forall (P : V -> Prop) f d k :
  (forall v, P v -> P (f v)) ->
  Forall P (dict_values d) -> Forall P (dict_values (dict_alter f k d)).
Proof.
  intros Hf Hall. induction d as [|[k0 v0] d IH]; cbn; [constructor|].
  inversion Hall; subst. destruct (String.eqb k0 k); cbn; constructor; auto.
Qed.

Lemma well_formed_set (valid : V -> bool) d k v :
  well_formed valid d -> valid v = true -> well_formed valid (dict_set d k v).
Proof.
  intros [Hnd Hall] Hv. split; [now apply dict_set_NoDup|].
  now apply dict_set_Forall.
Qed.

Lemma well_formed_alter (valid : V -> bool) f d k :
  (forall v, valid v = true -> valid (f v) = true) ->
  well_formed valid d -> well_formed valid (dict_alter f k d).
Proof.
  intros Hf [Hnd Hall]. split; [now rewrite dict_keys_alter|].
  now apply dict_alter_Forall.
Qed.

End DictInvariants.

(** An operation either leaves the engine as it is, or commits new
    collections; when it does not save the accounts, it did not change them. *)
Lemma perform_cases bank op :
  perform bank op = bank \/
  exists accounts' transactions' save_accounts,
    perform bank op = BankSystem.commit bank accounts' transactions' save_accounts /\
    (save_accounts = false -> accounts' = BankSystem.accounts bank).
Proof.
  destruct op as [adr tdr user_id account_type initial_balance
                 |tdr account_id amount descr
                 |tdr account_id amount descr
                 |tdr tdr' from_id number amount descr]; cbn [perform].
  - right. unfold BankSystem.create_account. cbn [snd].
    eexists. eexists. eexists. split; [reflexivity|discriminate].
  - unfold BankSystem.deposit.
    destruct (BankSystem.get_account_by_id bank account_id) as [account|];
      [|now left].
    destruct (amount <=? 0)%float; [now left|].
    destruct (Account.deposit account amount) as [[] account']; cbn [snd]; right;
      eexists; eexists; eexists; (split; [reflexivity|]);
      [discriminate|reflexivity].
  - unfold BankSystem.withdraw.
    destruct (BankSystem.get_account_by_id bank account_id) as [account|];
      [|now left].
    destruct (amount <=? 0)%float; [now left|].
    destruct (Account.withdraw account amount) as [[] account']; cbn [snd]; right;
      eexists; eexists; eexists; (split; [reflexivity|]);
      [discriminate|reflexivity].
  - unfold BankSystem.transfer.
    destruct (BankSystem.get_account_by_id bank from_id) as [from_account|];
      [|now left].
    destruct (BankSystem.get_account_by_number bank number) as [[to_ref to_account]|];
      [|now left].
    destruct (amount <=? 0)%float; [now left|].
    destruct (Account.transfer_to from_account from_id to_ref amount
                (BankSystem.accounts bank)) as [[] accounts']; cbn [snd]; right;
      eexists; eexists; eexists; (split; [reflexivity|]);
      [discriminate|reflexivity].
Qed.

(** X10.  [deposit], [withdraw] and [transfer] never add, remove, reorder or
    re-key an account, and the only field of an account they ever change is
    its balance. *)
Theorem money_operations_change_balances_only bank op :
  is_money_operation op = true ->
  dict_keys (BankSystem.accounts (perform bank op)) = dict_keys (BankSystem.accounts bank)
  /\
  forall ref account,
    BankSystem.get_account_by_id bank ref = Some account ->
    exists balance',
      BankSystem.get_account_by_id (perform bank op) ref
      = Some (Account.set_balance account balance').
Proof.
  assert (Hsame : forall ref account,
             dict_get (BankSystem.accounts bank) ref = Some account ->
             exists balance',
               dict_get (BankSystem.accounts bank) ref
               = Some (Account.set_balance account balance')).
  { intros ref account H. exists (Account.balance account). rewrite H.
    now destruct account. }
  unfold BankSystem.get_account_by_id.
  destruct op as [adr tdr user_id account_type initial_balance
                 |tdr account_id amount descr
                 |tdr account_id amount descr
                 |tdr tdr' from_id number amount descr]; cbn [perform is_money_operation];
    [discriminate| | |]; intros _.
  - unfold BankSystem.deposit, BankSystem.get_account_by_id.
    destruct (dict_get (BankSystem.accounts bank) account_id) as [account|] eqn:Hacc;
      [|now split].
    destruct (amount <=? 0)%float; [now split|].
    unfold Account.deposit. destruct (amount <=? 0)%float; cbn; [now split|].
    split; [apply (dict_keys_set_present _ _ _ _ Hacc)|].
    intros ref account0 Href. destruct (String.eqb account_id ref) eqn:E.
    + apply String.eqb_eq in E. subst ref. rewrite dict_get_set_eq.
      rewrite Hacc in Href. inversion Href; subst. eexists. reflexivity.
    + apply String.eqb_neq in E. rewrite dict_get_set_ne by exact E. now apply Hsame.
  - unfold BankSystem.withdraw, BankSystem.get_account_by_id.
    destruct (dict_get (BankSystem.accounts bank) account_id) as [account|] eqn:Hacc;
      [|now split].
    destruct (amount <=? 0)%float; [now split|].
    unfold Account.withdraw.
    destruct ((amount <=? 0)%float || (Account.balance account <? amount)%float);
      cbn; [now split|].
    split; [apply (dict_keys_set_present _ _ _ _ Hacc)|].
    intros ref account0 Href. destruct (String.eqb account_id ref) eqn:E.
    + apply String.eqb_eq in E. subst ref. rewrite dict_get_set_eq.
      rewrite Hacc in Href. inversion Href; subst. eexists. reflexivity.
    + apply String.eqb_neq in E. rewrite dict_get_set_ne by exact E. now apply Hsame.
  - unfold BankSystem.transfer, BankSystem.get_account_by_id.
    destruct (dict_get (BankSystem.accounts bank) from_id) as [from_account|];
      [|now split].
    destruct (BankSystem.get_account_by_number bank number) as [[to_ref to_account]|];
      [|now split].
    destruct (amount <=? 0)%float; [now split|].
    unfold Account.transfer_to.
    destruct ((amount <=? 0)%float || (Account.balance from_account <? amount)%float);
      cbn [snd BankSystem.commit BankSystem.accounts]; [now split|].
    split; [now rewrite !dict_keys_alter|].
    intros ref account Href. rewrite !dict_get_alter, Href.
    destruct (String.eqb to_ref ref), (String.eqb from_id ref); cbn;
      try (eexists; reflexivity).
    exists (Account.balance account). now destruct account.
Qed.

Lemma money_operations_change_balances_only_witness :
  let bank := Fixture.bank_of [("acc-A", Fixture.alice); ("acc-B", Fixture.bob)] [] in
  let op := Transfer (Fixture.transaction_draw "tx-1" 100001)
              (Fixture.transaction_draw "tx-2" 100002) "acc-A" "1000000002" 30 "" in
  dict_keys (BankSystem.accounts (perform bank op)) = ["acc-A"; "acc-B"] /\
  exists balance',
    BankSystem.get_account_by_id (perform bank op) "acc-B"
    = Some (Account.set_balance Fixture.bob balance').
Proof.
  cbv zeta.
  destruct (money_operations_change_balances_only
              (Fixture.bank_of [("acc-A", Fixture.alice); ("acc-B", Fixture.bob)] [])
              (Transfer (Fixture.transaction_draw "tx-1" 100001)
                 (Fixture.transaction_draw "tx-2" 100002) "acc-A" "1000000002" 30 "")
              eq_refl) as [Hkeys Hfields].
  split; [rewrite Hkeys; reflexivity|].
  apply Hfields. reflexivity.
Defined.

(** X11.  The transaction store is append-only under new record ids: when the
    ids a call draws are new to the store and distinct, the call keeps every
    stored record in place and appends at most two. *)
Theorem transactions_append_only bank op :
  (forall id, In id (drawn_ids op) ->
              dict_get (BankSystem.transactions bank) id = None) ->
  NoDup (drawn_ids op) ->
  exists appended,
    BankSystem.transactions (perform bank op)
    = (BankSystem.transactions bank ++ appended)%list /\
    (List.length appended <= 2)%nat /\
    dict_keys appended = firstn (List.length appended) (drawn_ids op).
Proof.
  intros Hfresh Hnd.
  assert (Hone : forall tdr record,
             dict_get (BankSystem.transactions bank) (drawn_uuid tdr) = None ->
             transaction_id record = drawn_uuid tdr ->
             BankSystem.record_transaction (BankSystem.transactions bank) record
             = (BankSystem.transactions bank ++ [(drawn_uuid tdr, record)])%list).
  { intros tdr record H Hid. unfold BankSystem.record_transaction. rewrite Hid.
    now apply dict_set_fresh. }
  destruct op as [adr tdr user_id account_type initial_balance
                 |tdr account_id amount descr
                 |tdr account_id amount descr
                 |tdr tdr' from_id number amount descr];
    cbn [perform drawn_ids] in *.
  - unfold BankSystem.create_account. cbn [snd BankSystem.commit BankSystem.transactions].
    destruct (0 <? initial_balance)%float.
    + rewrite (Hone tdr) by (auto using in_eq). eexists. split; [reflexivity|].
      split; cbn; [lia|reflexivity].
    + exists []. rewrite app_nil_r. split; [reflexivity|]. split; cbn; [lia|reflexivity].
  - unfold BankSystem.deposit.
    destruct (BankSystem.get_account_by_id bank account_id) as [account|];
      [|exists []; rewrite app_nil_r; cbn; repeat split; lia].
    destruct (amount <=? 0)%float;
      [exists []; rewrite app_nil_r; cbn; repeat split; lia|].
    destruct (Account.deposit account amount) as [[] account'];
      cbn [snd BankSystem.commit BankSystem.transactions];
      rewrite (Hone tdr) by (auto using in_eq); eexists; (split; [reflexivity|]);
      split; cbn; (lia || reflexivity).
  - unfold BankSystem.withdraw.
    destruct (BankSystem.get_account_by_id bank account_id) as [account|];
      [|exists []; rewrite app_nil_r; cbn; repeat split; lia].
    destruct (amount <=? 0)%float;
      [exists []; rewrite app_nil_r; cbn; repeat split; lia|].
    destruct (Account.withdraw account amount) as [[] account'];
      cbn [snd BankSystem.commit BankSystem.transactions];
      rewrite (Hone tdr) by (auto using in_eq); eexists; (split; [reflexivity|]);
      split; cbn; (lia || reflexivity).
  - unfold BankSystem.transfer.
    destruct (BankSystem.get_account_by_id bank from_id) as [from_account|];
      [|exists []; rewrite app_nil_r; cbn; repeat split; lia].
    destruct (BankSystem.get_account_by_number bank number) as [[to_ref to_account]|];
      [|exists []; rewrite app_nil_r; cbn; repeat split; lia].
    destruct (amount <=? 0)%float;
      [exists []; rewrite app_nil_r; cbn; repeat split; lia|].
    destruct (Account.transfer_to from_account from_id to_ref amount
                (BankSystem.accounts bank)) as [[] accounts'];
      cbn [snd BankSystem.commit BankSystem.transactions];
      rewrite (Hone tdr) by (auto using in_eq).
    + unfold BankSystem.record_transaction at 1.
      cbn [transaction_id create_transaction complete_transaction set_status init].
      rewrite dict_set_fresh.
      * rewrite <- app_assoc. eexists. split; [reflexivity|].
        split; cbn; [lia|reflexivity].
      * rewrite dict_get_app_fresh; [apply Hfresh; right; left; reflexivity|].
        inversion Hnd as [|? ? Hnotin _]; subst. intros Heq. apply Hnotin.
        left. now symmetry.
    + eexists. split; [reflexivity|]. split; cbn; [lia|reflexivity].
Qed.

Lemma transactions_append_only_witness :
  let bank :=
    Fixture.bank_of [("acc-A", Fixture.alice); ("acc-B", Fixture.bob)]
      (Fixture.store_of [Fixture.completed_deposit "tx-0" 10 100]) in
  let op := Transfer (Fixture.transaction_draw "tx-1" 100001)
              (Fixture.transaction_draw "tx-2" 100002) "acc-A" "1000000002" 30 "" in
  exists appended,
    BankSystem.transactions (perform bank op)
    = (BankSystem.transactions bank ++ appended)%list /\
    (List.length appended <= 2)%nat.
Proof.
  cbv zeta.
  destruct (transactions_append_only
              (Fixture.bank_of [("acc-A", Fixture.alice); ("acc-B", Fixture.bob)]
                 (Fixture.store_of [Fixture.completed_deposit "tx-0" 10 100]))
              (Transfer (Fixture.transaction_draw "tx-1" 100001)
                 (Fixture.transaction_draw "tx-2" 100002) "acc-A" "1000000002" 30 ""))
    as (appended & Hlog & Hlen & _).
  - intros id [<-|[<-|[]]]; reflexivity.
  - repeat constructor; cbn; intuition discriminate.
  - exists appended. split; [exact Hlog|exact Hlen].
Defined.

Lemma perform_settled bank op :
  Forall (fun x => settled x = true) (dict_values (BankSystem.transactions bank)) ->
  Forall (fun x => settled x = true)
    (dict_values (BankSystem.transactions (perform bank op))).
Proof.
  intros Hall.
  assert (Hrecord : forall record,
             settled record = true ->
             Forall (fun x => settled x = true)
               (dict_values (BankSystem.record_transaction
                               (BankSystem.transactions bank) record))).
  { intros record H. now apply dict_set_Forall. }
  destruct op as [adr tdr user_id account_type initial_balance
                 |tdr account_id amount descr
                 |tdr account_id amount descr
                 |tdr tdr' from_id number amount descr]; cbn [perform].
  - unfold BankSystem.create_account. cbn [snd BankSystem.commit BankSystem.transactions].
    destruct (0 <? initial_balance)%float eqn:Hpos; [|exact Hall].
    apply Hrecord. unfold settled. cbn. now rewrite (ltb_not_leb _ _ Hpos).
  - unfold BankSystem.deposit.
    destruct (BankSystem.get_account_by_id bank account_id) as [account|];
      [|exact Hall].
    destruct (amount <=? 0)%float eqn:Hamount; [exact Hall|].
    destruct (Account.deposit account amount) as [[] account'];
      cbn [snd BankSystem.commit BankSystem.transactions];
      apply Hrecord; unfold settled; cbn; now rewrite Hamount.
  - unfold BankSystem.withdraw.
    destruct (BankSystem.get_account_by_id bank account_id) as [account|];
      [|exact Hall].
    destruct (amount <=? 0)%float eqn:Hamount; [exact Hall|].
    destruct (Account.withdraw account amount) as [[] account'];
      cbn [snd BankSystem.commit BankSystem.transactions];
      apply Hrecord; unfold settled; cbn; now rewrite Hamount.
  - unfold BankSystem.transfer.
    destruct (BankSystem.get_account_by_id bank from_id) as [from_account|];
      [|exact Hall].
    destruct (BankSystem.get_account_by_number bank number) as [[to_ref to_account]|];
      [|exact Hall].
    destruct (amount <=? 0)%float eqn:Hamount; [exact Hall|].
    destruct (Account.transfer_to from_account from_id to_ref amount
                (BankSystem.accounts bank)) as [[] accounts'];
      cbn [snd BankSystem.commit BankSystem.transactions].
    + apply dict_set_Forall; [|unfold settled; cbn; now rewrite Hamount].
      apply Hrecord. unfold settled. cbn. now rewrite Hamount.
    + apply Hrecord. unfold settled. cbn. now rewrite Hamount.
Qed.

(** X12.  No sequence of engine calls leaves a [pending] record or a record of
    an amount [<= 0] in the transaction store: if every stored record is
    [completed] or [failed] with an amount that is not [<= 0], the same holds
    after the calls, whatever their arguments and drawn ids. *)
Theorem stored_records_are_settled bank ops :
  Forall (fun x => settled x = true) (dict_values (BankSystem.transactions bank)) ->
  Forall (fun x => settled x = true)
    (dict_values (BankSystem.transactions (perform_all bank ops))).
Proof.
  unfold perform_all. revert bank.
  induction ops as [|op ops IH]; intros bank Hall; cbn [fold_left]; [exact Hall|].
  apply IH. now apply perform_settled.
Qed.

Lemma stored_records_are_settled_witness :
  let ops :=
    [CreateAccount (Fixture.account_draw "acc-A" 1000000001)
       (Fixture.transaction_draw "tx-1" 100001) "user-1" "savings" 1000;
     Withdraw (Fixture.transaction_draw "tx-2" 100002) "acc-A" 2000 "";
     Deposit (Fixture.transaction_draw "tx-3" 100003) "acc-A" (-1) "";
     Deposit (Fixture.transaction_draw "tx-4" 100004) "acc-A" 250.5 ""] in
  map (fun entry => (fst entry, status (snd entry)))
    (BankSystem.transactions (perform_all Fixture.empty_bank ops))
  = [("tx-1", COMPLETED); ("tx-2", FAILED); ("tx-4", COMPLETED)] /\
  Forall (fun x => settled x = true)
    (dict_values (BankSystem.transactions (perform_all Fixture.empty_bank ops))).
Proof.
  cbv zeta. split; [reflexivity|].
  apply stored_records_are_settled. constructor.
Defined.

(** ** The data directory follows the engine *)

Lemma well_formed_get {V : Type} (valid : V -> bool) (d : dict V) k v :
  well_formed valid d -> dict_get d k = Some v -> valid v = true.
Proof.
  intros [_ Hall] Hget. rewrite Forall_forall in Hall. apply Hall.
  apply dict_get_In in Hget. change v with (snd (k, v)). now apply in_map.
Qed.

Lemma commit_consistent bank accounts' transactions' save_accounts :
  consistent bank ->
  well_formed account_timestamps_valid accounts' ->
  well_formed transaction_timestamps_valid transactions' ->
  (save_accounts = false -> accounts' = BankSystem.accounts bank) ->
  consistent (BankSystem.commit bank accounts' transactions' save_accounts).
Proof.
  intros (Husers & Haccounts & _ & Hwu & _ & _) Hwa Hwt Hsame.
  unfold consistent, BankSystem.commit.
  destruct save_accounts;
    cbn [BankSystem.data_manager BankSystem.users BankSystem.accounts
         BankSystem.transactions DataManager.save_accounts
         DataManager.save_transactions DataManager.users_file
         DataManager.accounts_file DataManager.transactions_file].
  - split; [exact Husers|]. split; [now left|]. split; [now left|]. auto.
  - split; [exact Husers|]. split; [now rewrite (Hsame eq_refl)|].
    split; [now left|]. auto.
Qed.

Lemma perform_consistent bank op :
  consistent bank -> draws_valid op = true -> consistent (perform bank op).
Proof.
  intros Hc Hdraws. pose proof Hc as (_ & _ & _ & _ & Hwa & Hwt).
  assert (Hrecord : forall (tdr : draw) record,
             datetime.valid (drawn_now tdr) = true ->
             created_at record = drawn_now tdr ->
             well_formed transaction_timestamps_valid
               (BankSystem.record_transaction (BankSystem.transactions bank) record)).
  { intros tdr record Hvalid Hcreated. apply well_formed_set; [exact Hwt|].
    unfold transaction_timestamps_valid. now rewrite Hcreated. }
  destruct op as [adr tdr user_id account_type initial_balance
                 |tdr account_id amount descr
                 |tdr account_id amount descr
                 |tdr tdr' from_id number amount descr];
    cbn [perform draws_valid] in *.
  - apply andb_prop in Hdraws. destruct Hdraws as [Hadr Htdr].
    unfold BankSystem.create_account. cbn [snd].
    apply commit_consistent; [exact Hc| | |discriminate].
    + apply well_formed_set; [exact Hwa|exact Hadr].
    + destruct (0 <? initial_balance)%float; [|exact Hwt].
      now apply (Hrecord tdr).
  - unfold BankSystem.deposit, BankSystem.get_account_by_id.
    destruct (dict_get (BankSystem.accounts bank) account_id) as [account|] eqn:Hacc;
      [|exact Hc].
    destruct (amount <=? 0)%float; [exact Hc|].
    pose proof (well_formed_get _ _ _ _ Hwa Hacc) as Hvalid.
    unfold Account.deposit. destruct (amount <=? 0)%float; cbn [snd];
      apply commit_consistent; auto; try (now apply (Hrecord tdr));
      try discriminate.
    apply well_formed_set; [exact Hwa|exact Hvalid].
  - unfold BankSystem.withdraw, BankSystem.get_account_by_id.
    destruct (dict_get (BankSystem.accounts bank) account_id) as [account|] eqn:Hacc;
      [|exact Hc].
    destruct (amount <=? 0)%float; [exact Hc|].
    pose proof (well_formed_get _ _ _ _ Hwa Hacc) as Hvalid.
    unfold Account.withdraw.
    destruct ((amount <=? 0)%float || (Account.balance account <? amount)%float);
      cbn [snd]; apply commit_consistent; auto; try (now apply (Hrecord tdr));
      try discriminate.
    apply well_formed_set; [exact Hwa|exact Hvalid].
  - apply andb_prop in Hdraws. destruct Hdraws as [Htdr Htdr'].
    unfold BankSystem.transfer.
    destruct (BankSystem.get_account_by_id bank from_id) as [from_account|];
      [|exact Hc].
    destruct (BankSystem.get_account_by_number bank number) as [[to_ref to_account]|];
      [|exact Hc].
    destruct (amount <=? 0)%float; [exact Hc|].
    unfold Account.transfer_to.
    destruct ((amount <=? 0)%float || (Account.balance from_account <? amount)%float);
      cbn [snd]; apply commit_consistent; auto; try (now apply (Hrecord tdr));
      try discriminate.
    + do 2 (apply well_formed_alter; [intros v Hv; exact Hv|]). exact Hwa.
    + apply well_formed_set; [now apply (Hrecord tdr)|exact Htdr'].
Qed.

Lemma load_persisted {R : Type} (to_dict : R -> json)
  (from_dict : nat -> json -> outcome R) (valid : R -> bool) f records :
  (forall i record, valid record = true -> from_dict i (to_dict record) = Return record) ->
  persisted to_dict f records ->
  well_formed valid records ->
  DataManager.load from_dict f = Return records.
Proof.
  intros Hround [->|[-> ->]] Hwf; [|reflexivity].
  now apply (load_dumped to_dict from_dict valid).
Qed.

(** X13.  Restarting after any session restores the engine.  Start from an
    engine whose collections are well-formed and held by its data directory
    (an engine on an empty directory is one), and make any sequence of calls
    whose clock readings are dates: constructing a new engine on the data
    directory then loads exactly the users, accounts and transactions the
    running engine holds. *)
Theorem session_survives_restart env bank ops :
  consistent bank ->
  Forall (fun op => draws_valid op = true) ops ->
  BankSystem.init env (BankSystem.data_manager (perform_all bank ops))
  = Return (perform_all bank ops).
Proof.
  intros Hc Hops.
  assert (Hc' : consistent (perform_all bank ops)).
  { unfold perform_all. revert bank Hc.
    induction Hops as [|op ops Hop _ IH]; intros bank Hc; cbn [fold_left];
      [exact Hc|].
    apply IH. now apply perform_consistent. }
  destruct Hc' as (Hu & Ha & Ht & Hwu & Hwa & Hwt).
  unfold BankSystem.init, DataManager.load_users, DataManager.load_accounts,
    DataManager.load_transactions.
  rewrite (load_persisted User.to_dict _ user_timestamps_valid _ _
             (fun i => User_from_dict_to_dict _) Hu Hwu).
  rewrite (load_persisted Account.to_dict _ account_timestamps_valid _ _
             (fun i => Account_from_dict_to_dict _) Ha Hwa).
  rewrite (load_persisted Transaction.to_dict _ transaction_timestamps_valid _ _
             (fun i => Transaction_from_dict_to_dict _ _ _) Ht Hwt).
  cbn [bind]. now destruct (perform_all bank ops).
Qed.

Lemma session_survives_restart_witness :
  let ops :=
    [CreateAccount (Fixture.account_draw "acc-A" 1000000001)
       (Fixture.transaction_draw "tx-1" 100001) "user-1" "savings" 1000;
     CreateAccount (Fixture.account_draw "acc-B" 1000000002)
       (Fixture.transaction_draw "tx-2" 100002) "user-2" "checking" 0;
     Withdraw (Fixture.transaction_draw "tx-3" 100003) "acc-A" 2000 "";
     Transfer (Fixture.transaction_draw "tx-4" 100004)
       (Fixture.transaction_draw "tx-5" 100005) "acc-A" "1000000002" 500 "rent"] in
  map (fun entry => Account.balance (snd entry))
    (BankSystem.accounts (perform_all Fixture.empty_bank ops)) = [500; 500]%float /\
  BankSystem.init Fixture.oracle
    (BankSystem.data_manager (perform_all Fixture.empty_bank ops))
  = Return (perform_all Fixture.empty_bank ops).
Proof.
  cbv zeta. split; [reflexivity|].
  apply session_survives_restart.
  - unfold consistent, persisted, well_formed. cbn.
    repeat split; try (right; split; reflexivity); constructor.
  - repeat constructor.
Defined.

(** ** Transaction listings *)

Lemma lex_leb_total (a b : list Z) :
  datetime.lex_leb a b = false -> datetime.lex_leb b a = true.
Proof.
  revert b. induction a as [|x a IH]; intros [|y b]; cbn; try discriminate.
  intros H. apply orb_false_elim in H. destruct H as [Hlt H].
  apply Z.ltb_ge in Hlt. destruct (Z.eqb_spec x y) as [->|Hne].
  - cbn in H. rewrite (IH _ H), Z.eqb_refl. apply orb_true_r.
  - assert (Hyx : (y <? x) = true) by (apply Z.ltb_lt; lia). now rewrite Hyx.
Qed.

Lemma lex_leb_trans (a b c : list Z) :
  List.length a = List.length b -> List.length b = List.length c ->
  datetime.lex_leb a b = true -> datetime.lex_leb b c = true ->
  datetime.lex_leb a c = true.
Proof.
  revert b c. induction a as [|x a IH]; intros [|y b] [|z c]; cbn;
    try discriminate; try reflexivity.
  intros Hab Hbc H1 H2. injection Hab as Hab. injection Hbc as Hbc.
  apply orb_prop in H1. apply orb_prop in H2.
  destruct H1 as [H1|H1], H2 as [H2|H2].
  - apply Z.ltb_lt in H1, H2.
    assert (H : (x <? z) = true) by (apply Z.ltb_lt; lia). now rewrite H.
  - apply andb_prop in H2. destruct H2 as [H2 _]. apply Z.eqb_eq in H2. subst z.
    now rewrite H1.
  - apply andb_prop in H1. destruct H1 as [H1 _]. apply Z.eqb_eq in H1. subst y.
    now rewrite H2.
  - apply andb_prop in H1, H2. destruct H1 as [H1 H1'], H2 as [H2 H2'].
    apply Z.eqb_eq in H1, H2. subst y z.
    rewrite Z.eqb_refl, (IH _ _ Hab Hbc H1' H2'). apply orb_true_r.
Qed.

Lemma leb_total (a b : datetime.t) :
  datetime.leb a b = false -> datetime.leb b a = true.
Proof. apply lex_leb_total. Qed.

Lemma leb_trans (a b c : datetime.t) :
  datetime.leb a b = true -> datetime.leb b c = true -> datetime.leb a c = true.
Proof. apply lex_leb_trans; reflexivity. Qed.

Lemma insert_newest_first_permutation x sorted :
  Permutation (x :: sorted) (BankSystem.insert_newest_first x sorted).
Proof.
  induction sorted as [|y rest IH]; cbn [BankSystem.insert_newest_first];
    [reflexivity|].
  destruct (datetime.leb (created_at y) (created_at x)); [reflexivity|].
  rewrite perm_swap. now constructor.
Qed.

Lemma sort_newest_first_permutation records :
  Permutation records (BankSystem.sort_newest_first records).
Proof.
  induction records as [|x records IH];
    cbn [BankSystem.sort_newest_first fold_right]; [constructor|].
  rewrite <- insert_newest_first_permutation. now constructor.
Qed.

Lemma insert_newest_first_sorted x sorted :
  StronglySorted newer_or_same sorted ->
  StronglySorted newer_or_same (BankSystem.insert_newest_first x sorted).
Proof.
  induction 1 as [|y rest Hsorted IH Hall]; cbn [BankSystem.insert_newest_first].
  - repeat constructor.
  - destruct (datetime.leb (created_at y) (created_at x)) eqn:Hyx.
    + constructor; [now constructor|]. constructor; [exact Hyx|].
      rewrite Forall_forall in *. intros z Hz. unfold newer_or_same in *.
      apply leb_trans with (created_at y); auto.
    + constructor; [exact IH|].
      apply (Permutation_Forall (insert_newest_first_permutation x rest)).
      constructor; [|exact Hall]. unfold newer_or_same. now apply leb_total.
Qed.

Lemma sort_newest_first_sorted records :
  StronglySorted newer_or_same (BankSystem.sort_newest_first records).
Proof.
  induction records as [|x records IH];
    cbn [BankSystem.sort_newest_first fold_right]; [constructor|].
  now apply insert_newest_first_sorted.
Qed.

Lemma In_firstn {A : Type} (x : A) n (l : list A) : In x (firstn n l) -> In x l.
Proof.
  revert n. induction l as [|y l IH]; intros [|n]; cbn; try tauto.
  intros [H|H]; [now left|right; now apply (IH n)].
Qed.

Lemma firstn_sorted {A : Type} (R : A -> A -> Prop) n (l : list A) :
  StronglySorted R l -> StronglySorted R (firstn n l).
Proof.
  revert n. induction l as [|x l IH]; intros [|n] H; cbn; try constructor.
  - apply IH. now inversion H.
  - inversion H as [|? ? _ Hall]; subst. rewrite Forall_forall in *.
    intros y Hy. apply Hall. now apply In_firstn in Hy.
Qed.

Lemma slice_to_firstn {A : Type} (l : list A) stop :
  exists n, slice_to l stop = firstn n l /\
            (0 <= stop -> n = Z.to_nat stop) /\
            (stop < 0 -> n = (List.length l - Z.to_nat (- stop))%nat).
Proof.
  unfold slice_to. destruct (0 <=? stop) eqn:H.
  - apply Z.leb_le in H. eexists. split; [reflexivity|]. split; [reflexivity|lia].
  - apply Z.leb_gt in H. eexists. split; [reflexivity|]. split; lia.
Qed.

(** X14.  [get_account_transactions] lists transactions of the given account
    only, each one stored in the engine, newest first.  With a limit [>= 0] it
    lists at most that many, and all of the account's transactions once the
    limit reaches their number; a negative limit instead drops that many of
    the oldest ones. *)
Theorem get_account_transactions_newest_first bank account_id limit :
  let listed := BankSystem.get_account_transactions bank account_id limit in
  let owned :=
    filter (fun x => String.eqb (Transaction.account_id x) account_id)
      (dict_values (BankSystem.transactions bank)) in
  (forall x, In x listed ->
     Transaction.account_id x = account_id /\
     In x (dict_values (BankSystem.transactions bank))) /\
  StronglySorted newer_or_same listed /\
  (0 <= limit -> Z.of_nat (List.length listed) <= limit) /\
  (Z.of_nat (List.length owned) <= limit -> Permutation owned listed) /\
  (limit < 0 ->
   List.length listed = (List.length owned - Z.to_nat (- limit))%nat) /\
  exists older, Permutation owned (listed ++ older) /\
                forall x y, In x listed -> In y older -> newer_or_same x y.
Proof.
  cbv zeta. unfold BankSystem.get_account_transactions.
  set (owned := filter _ _).
  pose proof (sort_newest_first_permutation owned) as Hperm.
  pose proof (sort_newest_first_sorted owned) as Hsorted.
  destruct (slice_to_firstn (BankSystem.sort_newest_first owned) limit)
    as (n & -> & Hpos & Hneg).
  assert (Hlen : List.length (BankSystem.sort_newest_first owned) = List.length owned)
    by (symmetry; now apply Permutation_length).
  split; [|split; [|split; [|split; [|split]]]].
  - intros x Hx. apply In_firstn in Hx.
    apply (Permutation_in _ (Permutation_sym Hperm)) in Hx.
    unfold owned in Hx. apply filter_In in Hx. destruct Hx as [Hin Hid].
    apply String.eqb_eq in Hid. auto.
  - now apply firstn_sorted.
  - intros H. rewrite (Hpos H). pose proof (firstn_le_length (Z.to_nat limit)
      (BankSystem.sort_newest_first owned)). lia.
  - intros H. rewrite firstn_all2; [exact Hperm|]. rewrite Hlen.
    destruct (Z_le_gt_dec 0 limit) as [H0|H0]; [rewrite (Hpos H0)|]; lia.
  - intros H. rewrite (Hneg H), length_firstn, Hlen. lia.
  - exists (skipn n (BankSystem.sort_newest_first owned)).
    rewrite firstn_skipn. split; [exact Hperm|].
    intros x y Hx Hy.
    rewrite <- (firstn_skipn n (BankSystem.sort_newest_first owned)) in Hsorted.
    clear - Hsorted Hx Hy.
    induction (firstn n (BankSystem.sort_newest_first owned)) as [|z front IH];
      [contradiction|].
    cbn in Hsorted. inversion Hsorted as [|? ? Hrest Hall]; subst.
    destruct Hx as [<-|Hx]; [|now apply IH].
    rewrite Forall_forall in Hall. apply Hall, in_or_app. now right.
Qed.

(** X15.  [get_all_transactions] lists stored transactions newest first: with
    a limit [>= 0] at most that many, and every stored transaction once the
    limit reaches their number; whatever it leaves out is at most as new as
    whatever it lists. *)
Theorem get_all_transactions_newest_first bank limit :
  let listed := BankSystem.get_all_transactions bank limit in
  let stored := dict_values (BankSystem.transactions bank) in
  StronglySorted newer_or_same listed /\
  (0 <= limit -> Z.of_nat (List.length listed) <= limit) /\
  (Z.of_nat (List.length stored) <= limit -> Permutation stored listed) /\
  exists older, Permutation stored (listed ++ older) /\
                forall x y, In x listed -> In y older -> newer_or_same x y.
Proof.
  cbv zeta. unfold BankSystem.get_all_transactions.
  set (stored := dict_values _).
  pose proof (sort_newest_first_permutation stored) as Hperm.
  pose proof (sort_newest_first_sorted stored) as Hsorted.
  destruct (slice_to_firstn (BankSystem.sort_newest_first stored) limit)
    as (n & -> & Hpos & Hneg).
  assert (Hlen : List.length (BankSystem.sort_newest_first stored) = List.length stored)
    by (symmetry; now apply Permutation_length).
  split; [|split; [|split]].
  - now apply firstn_sorted.
  - intros H. rewrite (Hpos H). pose proof (firstn_le_length (Z.to_nat limit)
      (BankSystem.sort_newest_first stored)). lia.
  - intros H. rewrite firstn_all2; [exact Hperm|]. rewrite Hlen.
    destruct (Z_le_gt_dec 0 limit) as [H0|H0]; [rewrite (Hpos H0)|]; lia.
  - exists (skipn n (BankSystem.sort_newest_first stored)).
    rewrite firstn_skipn. split; [exact Hperm|].
    intros x y Hx Hy.
    rewrite <- (firstn_skipn n (BankSystem.sort_newest_first stored)) in Hsorted.
    clear - Hsorted Hx Hy.
    induction (firstn n (BankSystem.sort_newest_first stored)) as [|z front IH];
      [contradiction|].
    cbn in Hsorted. inversion Hsorted as [|? ? Hrest Hall]; subst.
    destruct Hx as [<-|Hx]; [|now apply IH].
    rewrite Forall_forall in Hall. apply Hall, in_or_app. now right.
Qed.

Lemma insert_newest_first_stable d x sorted :
  filter (same_instant d) (BankSystem.insert_newest_first x sorted)
  = filter (same_instant d) (x :: sorted).
Proof.
  induction sorted as [|y rest IH]; cbn [BankSystem.insert_newest_first];
    [reflexivity|].
  destruct (datetime.leb (created_at y) (created_at x)) eqn:Hyx; [reflexivity|].
  cbn [filter] in *. rewrite IH.
  destruct (same_instant d x) eqn:Hx; [|reflexivity].
  destruct (same_instant d y) eqn:Hy; [|reflexivity].
  exfalso. unfold same_instant in Hx, Hy.
  apply andb_prop in Hx, Hy. destruct Hx as [_ Hdx], Hy as [Hyd _].
  rewrite (leb_trans _ _ _ Hyd Hdx) in Hyx. discriminate Hyx.
Qed.

(** X16.  The sort behind both listings is stable: transactions created at the
    same instant are listed in the order in which the store holds them. *)
Theorem sort_newest_first_stable d records :
  filter (same_instant d) (BankSystem.sort_newest_first records)
  = filter (same_instant d) records.
Proof.
  induction records as [|x records IH];
    cbn [BankSystem.sort_newest_first fold_right]; [reflexivity|].
  rewrite insert_newest_first_stable. cbn [filter].
  fold (BankSystem.sort_newest_first records). now rewrite IH.
Qed.

(** X17.  Records that are not [completed] count as transactions of the window
    but enter no total: two stores whose in-window records agree once the
    records that are not [completed] are left out give the same
    [total_deposits], [total_withdrawals], [total_transfers] and [net_flow]. *)
Theorem summary_ignores_unfinished_records alg now bank bank' days s s' :
  filter (fun x => status_eqb (status x) COMPLETED)
    (dict_values (BankSystem.transactions bank))
  = filter (fun x => status_eqb (status x) COMPLETED)
      (dict_values (BankSystem.transactions bank')) ->
  BankSystem.get_transaction_summary alg now bank days = Return s ->
  BankSystem.get_transaction_summary alg now bank' days = Return s' ->
  BankSystem.total_deposits s' = BankSystem.total_deposits s /\
  BankSystem.total_withdrawals s' = BankSystem.total_withdrawals s /\
  BankSystem.total_transfers s' = BankSystem.total_transfers s /\
  BankSystem.net_flow s' = BankSystem.net_flow s.
Proof.
  intros Hsame. unfold BankSystem.get_transaction_summary.
  destruct (datetime.sub_days now days) as [start_date| |]; cbn [bind];
    try discriminate.
  intros Hs Hs'. inversion Hs; subst s. inversion Hs'; subst s'.
  cbn [BankSystem.total_deposits BankSystem.total_withdrawals
       BankSystem.total_transfers BankSystem.net_flow].
  assert (Htotal : forall ty,
             BankSystem.total_completed alg ty
               (filter (fun x => datetime.leb start_date (created_at x)
                                 && datetime.leb (created_at x) now)
                  (dict_values (BankSystem.transactions bank')))
             = BankSystem.total_completed alg ty
                 (filter (fun x => datetime.leb start_date (created_at x)
                                   && datetime.leb (created_at x) now)
                    (dict_values (BankSystem.transactions bank)))).
  { intros ty. unfold BankSystem.total_completed. do 2 f_equal.
    rewrite !filter_filter.
    rewrite (filter_ext _ (fun x => status_eqb (status x) COMPLETED
                                    && (datetime.leb start_date (created_at x)
                                        && datetime.leb (created_at x) now
                                        && type_eqb (transaction_type x) ty)))
      by (intros x; cbv beta;
          destruct (status_eqb (status x) COMPLETED),
            (datetime.leb start_date (created_at x)),
            (datetime.leb (created_at x) now),
            (type_eqb (transaction_type x) ty); reflexivity).
    symmetry.
    rewrite (filter_ext _ (fun x => status_eqb (status x) COMPLETED
                                    && (datetime.leb start_date (created_at x)
                                        && datetime.leb (created_at x) now
                                        && type_eqb (transaction_type x) ty)))
      by (intros x; cbv beta;
          destruct (status_eqb (status x) COMPLETED),
            (datetime.leb start_date (created_at x)),
            (datetime.leb (created_at x) now),
            (type_eqb (transaction_type x) ty); reflexivity).
    rewrite <- !filter_filter. now rewrite Hsame. }
  rewrite !Htotal. repeat split.
Qed.

Lemma summary_ignores_unfinished_records_witness :
  let deposit := Fixture.completed_deposit "tx-1" 10 250.5 in
  let failed := fail_transaction (Fixture.completed_deposit "tx-2" 12 1000) in
  let bank := Fixture.bank_of [("acc-A", Fixture.alice)] (Fixture.store_of [deposit]) in
  let bank' :=
    Fixture.bank_of [("acc-A", Fixture.alice)] (Fixture.store_of [deposit; failed]) in
  exists s s',
    BankSystem.get_transaction_summary LeftToRight Fixture.noon bank 30 = Return s /\
    BankSystem.get_transaction_summary LeftToRight Fixture.noon bank' 30 = Return s' /\
    BankSystem.total_transactions s = 1%nat /\
    BankSystem.total_transactions s' = 2%nat /\
    BankSystem.total_deposits s' = BankSystem.total_deposits s /\
    BankSystem.net_flow s' = BankSystem.net_flow s.
Proof.
  cbv zeta. eexists. eexists.
  split; [reflexivity|]. split; [reflexivity|].
  split; [reflexivity|]. split; [reflexivity|].
  pose proof (summary_ignores_unfinished_records LeftToRight Fixture.noon
                (Fixture.bank_of [("acc-A", Fixture.alice)]
                   (Fixture.store_of [Fixture.completed_deposit "tx-1" 10 250.5]))
                (Fixture.bank_of [("acc-A", Fixture.alice)]
                   (Fixture.store_of
                      [Fixture.completed_deposit "tx-1" 10 250.5;
                       fail_transaction (Fixture.completed_deposit "tx-2" 12 1000)]))
                30 _ _ eq_refl eq_refl eq_refl) as (Hd & _ & _ & Hn).
  split; [exact Hd|exact Hn].
Defined.

(** ** Logging in, deactivating, changing the password *)

Section Credentials.
Variable sha256_hexdigest : string -> string.

Lemma login_none now username password entries :
  AuthManager.login sha256_hexdigest now username password entries = None <->
  forall entry, In entry entries ->
                may_log_in sha256_hexdigest username password (snd entry) = false.
Proof.
  induction entries as [|[key user] rest IH]; cbn [AuthManager.login].
  - split; [intros _ ? []|reflexivity].
  - fold (may_log_in sha256_hexdigest username password user).
    destruct (may_log_in sha256_hexdigest username password user) eqn:Hp.
    + split; [discriminate|]. intros H. specialize (H (key, user) (or_introl eq_refl)).
      cbn in H. rewrite Hp in H. discriminate H.
    + destruct (AuthManager.login sha256_hexdigest now username password rest)
        as [[found rest']|].
      * split; [discriminate|]. intros H.
        assert (Hnone : Some (found, rest') = None)
          by (apply (proj2 IH); intros entry Hin; apply H; now right).
        discriminate Hnone.
      * split; [|reflexivity]. intros _ entry [<-|Hin]; [exact Hp|].
        now apply (proj1 IH).
Qed.

Lemma login_some now username password entries user entries' :
  AuthManager.login sha256_hexdigest now username password entries
    = Some (user, entries') ->
  exists before key stored after,
    entries = (before ++ (key, stored) :: after)%list /\
    entries' = (before ++ (key, user) :: after)%list /\
    user = User.update_last_login now stored /\
    may_log_in sha256_hexdigest username password stored = true /\
    forall entry, In entry before ->
                  may_log_in sha256_hexdigest username password (snd entry) = false.
Proof.
  revert entries'. induction entries as [|[key stored] rest IH]; intros entries';
    cbn [AuthManager.login]; [discriminate|].
  fold (may_log_in sha256_hexdigest username password stored).
  destruct (may_log_in sha256_hexdigest username password stored) eqn:Hp.
  - intros H. inversion H; subst. exists [], key, stored, rest.
    repeat split; auto. intros ? [].
  - destruct (AuthManager.login sha256_hexdigest now username password rest)
      as [[found rest']|]; [|discriminate].
    intros H. inversion H; subst.
    destruct (IH rest' eq_refl)
      as (before & key' & stored' & after & -> & -> & Huser & Hmay & Hbefore).
    exists ((key, stored) :: before), key', stored', after.
    repeat split; auto. intros entry [<-|Hin]; [exact Hp|now apply Hbefore].
Qed.

(** X18.  [authenticate_user] answers with a user exactly when some stored
    user is active and has the username and the hash of the password.  It then
    answers with the first such user in store order, stamped with the login
    time, stamps that user in the store and saves; no other user changes.
    Otherwise it answers [None] and changes nothing. *)
Theorem authenticate_user_first_match now self username password :
  match AuthManager.authenticate_user sha256_hexdigest now self username password with
  | (Some user, self') =>
      exists before key stored after,
        AuthManager.users self = (before ++ (key, stored) :: after)%list /\
        AuthManager.users self' = (before ++ (key, user) :: after)%list /\
        user = User.update_last_login now stored /\
        User.username user = username /\
        User.is_active user = true /\
        User.verify_password sha256_hexdigest user password = true /\
        User.last_login user = Some now /\
        (forall entry, In entry before ->
           may_log_in sha256_hexdigest username password (snd entry) = false) /\
        DataManager.users_file (AuthManager.data_manager self') =
          DataManager.Document
            (DataManager.dump User.to_dict (AuthManager.users self'))
  | (None, self') =>
      self' = self /\
      forall entry, In entry (AuthManager.users self) ->
                    may_log_in sha256_hexdigest username password (snd entry) = false
  end.
Proof.
  unfold AuthManager.authenticate_user.
  destruct (AuthManager.login sha256_hexdigest now username password
              (AuthManager.users self)) as [[user users']|] eqn:Hlogin.
  - apply login_some in Hlogin.
    destruct Hlogin as (before & key & stored & after & Hu & -> & -> & Hmay & Hbefore).
    exists before, key, stored, after.
    unfold may_log_in in Hmay. apply andb_prop in Hmay. destruct Hmay as [Hmay Hactive].
    apply andb_prop in Hmay. destruct Hmay as [Hname Hpw].
    apply String.eqb_eq in Hname. repeat split; auto.
  - split; [reflexivity|]. exact (proj1 (login_none _ _ _ _) Hlogin).
Qed.

(** What registration stores logs in. *)
Lemma login_registered now username password users new_id user :
  (forall entry, In entry users -> User.username (snd entry) <> username) ->
  may_log_in sha256_hexdigest username password user = true ->
  AuthManager.login sha256_hexdigest now username password (dict_set users new_id user)
  = Some (User.update_last_login now user,
          dict_set users new_id (User.update_last_login now user)).
Proof.
  intros Hnames Hmay.
  induction users as [|[key stored] rest IH]; cbn [dict_set AuthManager.login].
  - fold (may_log_in sha256_hexdigest username password user). now rewrite Hmay.
  - destruct (String.eqb key new_id); cbn [AuthManager.login].
    + fold (may_log_in sha256_hexdigest username password user). now rewrite Hmay.
    + assert (Hstored : String.eqb (User.username stored) username = false).
      { apply String.eqb_neq. apply (Hnames (key, stored)). now left. }
      rewrite Hstored. cbn [andb]. rewrite IH; [reflexivity|].
      intros entry Hin. apply Hnames. now right.
Qed.

(** X19.  A user who has just been registered can log in: after a successful
    [register_user], [authenticate_user] with the same username and password
    answers with the user stored under the drawn id, stamped with the login
    time. *)
Theorem register_then_authenticate new_id now now' self username password email
  phone role :
  fst (AuthManager.register_user sha256_hexdigest new_id now self username password
         email phone role) = true ->
  exists user,
    fst (AuthManager.authenticate_user sha256_hexdigest now'
           (snd (AuthManager.register_user sha256_hexdigest new_id now self username
                   password email phone role))
           username password) = Some user /\
    User.user_id user = new_id /\
    User.username user = username /\
    User.role user = role /\
    User.last_login user = Some now'.
Proof.
  unfold AuthManager.register_user.
  destruct (existsb _ _) eqn:Hex; cbn [fst snd]; [discriminate|]. intros _.
  unfold AuthManager.authenticate_user. cbn [AuthManager.users].
  rewrite login_registered.
  - eexists. cbn [fst]. repeat split.
  - intros entry Hin Hname.
    assert (Hex' : existsb (fun user => String.eqb (User.username user) username)
                     (dict_values (AuthManager.users self)) = true).
    { apply existsb_exists. exists (snd entry). split; [now apply in_map|].
      now apply String.eqb_eq. }
    rewrite Hex in Hex'. discriminate Hex'.
  - unfold may_log_in, User.verify_password, User.create_user, User.init. cbn.
    now rewrite !String.eqb_refl.
Qed.

(** X20.  For a stored id [deactivate_user] returns [True] and clears the
    active flag of that user only; if no other user carries the username, no
    password logs that username in afterwards. *)
Theorem deactivated_user_cannot_log_in self user_id user :
  NoDup (dict_keys (AuthManager.users self)) ->
  AuthManager.get_user self user_id = Some user ->
  (forall key other, AuthManager.get_user self key = Some other ->
                     User.username other = User.username user -> key = user_id) ->
  exists self',
    AuthManager.deactivate_user self user_id = (true, self') /\
    AuthManager.get_user self' user_id = Some (User.set_is_active user false) /\
    (forall key, key <> user_id ->
       AuthManager.get_user self' key = AuthManager.get_user self key) /\
    forall now password,
      AuthManager.authenticate_user sha256_hexdigest now self' (User.username user)
        password = (None, self').
Proof.
  intros Hnd Hget Hunique. unfold AuthManager.deactivate_user. rewrite Hget.
  eexists. split; [reflexivity|].
  unfold AuthManager.get_user, AuthManager.saved in *. cbn [AuthManager.users].
  split; [|split].
  - now rewrite dict_get_alter, String.eqb_refl, Hget.
  - intros key Hne. rewrite dict_get_alter. apply String.eqb_neq in Hne.
    now rewrite String.eqb_sym, Hne.
  - intros now password. unfold AuthManager.authenticate_user. cbn [AuthManager.users].
    assert (Hnone : AuthManager.login sha256_hexdigest now (User.username user) password
                      (dict_alter (fun u => User.set_is_active u false) user_id
                         (AuthManager.users self)) = None).
    { apply login_none. intros [key stored] Hin. cbn [snd].
      assert (Hnd' : NoDup (dict_keys (dict_alter (fun u => User.set_is_active u false)
                                         user_id (AuthManager.users self))))
        by now rewrite dict_keys_alter.
      pose proof (In_dict_get _ _ _ Hnd' Hin) as Hstored.
      rewrite dict_get_alter in Hstored. unfold may_log_in.
      destruct (String.eqb user_id key) eqn:E.
      - apply String.eqb_eq in E. subst key. rewrite Hget in Hstored.
        inversion Hstored; subst. cbn. now rewrite andb_false_r.
      - destruct (String.eqb (User.username stored) (User.username user)) eqn:Hname;
          [|reflexivity].
        apply String.eqb_eq in Hname. apply String.eqb_neq in E.
        exfalso. apply E. symmetry. now apply (Hunique key stored). }
    now rewrite Hnone.
Qed.

(** X21.  [change_password] returns [False] and changes nothing when the id is
    not stored or the old password does not match the stored hash.  Otherwise
    it returns [True], replaces the hash of that user only by the hash of the
    new password, which then verifies, and saves. *)
Theorem change_password_replaces_hash self user_id old_password new_password :
  match AuthManager.get_user self user_id with
  | None =>
      AuthManager.change_password sha256_hexdigest self user_id old_password
        new_password = (false, self)
  | Some user =>
      if User.verify_password sha256_hexdigest user old_password then
        exists self' user',
          AuthManager.change_password sha256_hexdigest self user_id old_password
            new_password = (true, self') /\
          AuthManager.get_user self' user_id = Some user' /\
          user' = User.set_password_hash user (sha256_hexdigest new_password) /\
          User.verify_password sha256_hexdigest user' new_password = true /\
          (forall key, key <> user_id ->
             AuthManager.get_user self' key = AuthManager.get_user self key) /\
          DataManager.users_file (AuthManager.data_manager self') =
            DataManager.Document
              (DataManager.dump User.to_dict (AuthManager.users self'))
      else
        AuthManager.change_password sha256_hexdigest self user_id old_password
          new_password = (false, self)
  end.
Proof.
  unfold AuthManager.change_password.
  destruct (AuthManager.get_user self user_id) as [user|] eqn:Hget; [|reflexivity].
  destruct (User.verify_password sha256_hexdigest user old_password); [|reflexivity].
  eexists. eexists. split; [reflexivity|].
  unfold AuthManager.get_user, AuthManager.saved in *. cbn [AuthManager.users
    AuthManager.data_manager].
  split; [now rewrite dict_get_alter, String.eqb_refl, Hget|].
  split; [reflexivity|]. split.
  - unfold User.verify_password, User.hash_password. cbn. apply String.eqb_refl.
  - split; [|reflexivity]. intros key Hne. rewrite dict_get_alter.
    apply String.eqb_neq in Hne. now rewrite String.eqb_sym, Hne.
Qed.

(** X22.  Starting the identity store on a directory whose users file is
    missing, holds text that [json.load] rejects with [JSONDecodeError], or
    holds no user creates the default administrator: the store then holds
    exactly one user, [admin] with the role [admin], who logs in with the
    password [admin123], and the users file is overwritten with that single
    user.  On a users file nested more deeply than the interpreter recurses
    the constructor raises [RecursionError] instead: no store is built and
    nothing is written. *)
Theorem init_creates_default_admin env new_id now dir :
  (DataManager.users_file dir = DataManager.Missing \/
   DataManager.users_file dir = DataManager.Undecodable \/
   DataManager.users_file dir = DataManager.Document (JObj []) ->
   exists self admin,
     AuthManager.init sha256_hexdigest env new_id now dir = Return self /\
     AuthManager.users self = [(new_id, admin)] /\
     User.username admin = "admin" /\
     User.role admin = "admin" /\
     User.is_active admin = true /\
     DataManager.users_file (AuthManager.data_manager self) =
       DataManager.Document (DataManager.dump User.to_dict [(new_id, admin)]) /\
     forall now',
       fst (AuthManager.authenticate_user sha256_hexdigest now' self "admin" "admin123")
       = Some (User.update_last_login now' admin)) /\
  (DataManager.users_file dir = DataManager.Overnested ->
   AuthManager.init sha256_hexdigest env new_id now dir = Raise RecursionError).
Proof.
  unfold AuthManager.init, DataManager.load_users. split; intros Hfile.
  - assert (Hload : DataManager.load
                      (fun i => User.from_dict (DataManager.now_at env i))
                      (DataManager.users_file dir) = Return [])
      by (destruct Hfile as [->|[->| ->]]; reflexivity).
    rewrite Hload. cbn [bind]. eexists. eexists. split; [reflexivity|].
    repeat split. intros now'. unfold AuthManager.authenticate_user. cbn.
    now rewrite String.eqb_refl.
  - rewrite Hfile, load_overnested. reflexivity.
Qed.

End Credentials.

Lemma init_creates_default_admin_witness :
  let on file :=
    {| DataManager.users_file := file;
       DataManager.accounts_file := DataManager.Missing;
       DataManager.transactions_file := DataManager.Missing |} in
  (exists self,
     AuthManager.init Fixture.digest Fixture.oracle "user-0" Fixture.noon
       (on DataManager.Undecodable) = Return self /\
     map (fun entry => User.username (snd entry)) (AuthManager.users self)
     = ["admin"]) /\
  AuthManager.init Fixture.digest Fixture.oracle "user-0" Fixture.noon
    (on DataManager.Overnested) = Raise RecursionError.
Proof.
  cbv zeta. split.
  - destruct (proj1 (init_creates_default_admin Fixture.digest Fixture.oracle
                       "user-0" Fixture.noon
                       {| DataManager.users_file := DataManager.Undecodable;
                          DataManager.accounts_file := DataManager.Missing;
                          DataManager.transactions_file := DataManager.Missing |}))
      as (self & admin & Hinit & Husers & Hname & _).
    + right. left. reflexivity.
    + exists self. split; [exact Hinit|]. rewrite Husers. cbn. now rewrite Hname.
  - apply (proj2 (init_creates_default_admin Fixture.digest Fixture.oracle
                    "user-0" Fixture.noon
                    {| DataManager.users_file := DataManager.Overnested;
                       DataManager.accounts_file := DataManager.Missing;
                       DataManager.transactions_file := DataManager.Missing |})).
    reflexivity.
Defined.

Lemma register_then_authenticate_witness :
  let start :=
    {| AuthManager.data_manager := Fixture.empty_directory; AuthManager.users := [] |} in
  exists user,
    fst (AuthManager.authenticate_user Fixture.digest (Fixture.at_noon 20)
           (snd (AuthManager.register_user Fixture.digest "user-1" Fixture.noon start
                   "carol" "secret" "carol@bank.com" "1234567890" "customer"))
           "carol" "secret") = Some user /\
    User.user_id user = "user-1" /\
    User.last_login user = Some (Fixture.at_noon 20).
Proof.
  cbv zeta.
  destruct (register_then_authenticate Fixture.digest "user-1" Fixture.noon
              (Fixture.at_noon 20)
              {| AuthManager.data_manager := Fixture.empty_directory;
                 AuthManager.users := [] |}
              "carol" "secret" "carol@bank.com" "1234567890" "customer" eq_refl)
    as (user & Hlogin & Hid & _ & _ & Hstamp).
  exists user. split; [exact Hlogin|]. split; [exact Hid|exact Hstamp].
Defined.

Lemma deactivated_user_cannot_log_in_witness :
  let self :=
    {| AuthManager.data_manager := Fixture.empty_directory;
       AuthManager.users := [("user-1", Fixture.carol)] |} in
  fst (AuthManager.authenticate_user Fixture.digest Fixture.noon self "carol" "secret")
    = Some (User.update_last_login Fixture.noon Fixture.carol) /\
  exists self',
    AuthManager.deactivate_user self "user-1" = (true, self') /\
    AuthManager.authenticate_user Fixture.digest Fixture.noon self' "carol" "secret"
    = (None, self').
Proof.
  cbv zeta. split; [reflexivity|].
  destruct (deactivated_user_cannot_log_in Fixture.digest
              {| AuthManager.data_manager := Fixture.empty_directory;
                 AuthManager.users := [("user-1", Fixture.carol)] |}
              "user-1" Fixture.carol)
    as (self' & Hrun & _ & _ & Hlogin).
  - repeat constructor. cbn. tauto.
  - reflexivity.
  - intros key other. unfold AuthManager.get_user.
    cbn [AuthManager.users dict_get]. intros Hkey _.
    destruct (String.eqb "user-1" key) eqn:E; [|discriminate Hkey].
    apply String.eqb_eq in E. now symmetry.
  - exists self'. split; [exact Hrun|]. apply Hlogin.
Defined.

(** ** Loading a damaged file *)

Lemma load_records_app {R : Type} (from_dict : nat -> json -> outcome R)
  (before after : list (string * json)) (i : nat) (records : dict R) :
  DataManager.load_records from_dict i (before ++ after) records
  = bind (DataManager.load_records from_dict i before records)
      (DataManager.load_records from_dict (i + List.length before) after).
Proof.
  revert i records. induction before as [|[key data] before IH]; intros i records;
    cbn [app DataManager.load_records List.length bind].
  - now rewrite Nat.add_0_r.
  - destruct (from_dict i data) as [record| |]; cbn [bind]; [|reflexivity|reflexivity].
    rewrite IH. now rewrite Nat.add_succ_r.
Qed.

(** X9.  One bad record costs the whole collection.  When the records before
    it load and the record raises, the loader drops the records it has already
    rebuilt: it answers with the empty collection if the exception is
    [JSONDecodeError], [KeyError] or [ValueError], and lets any other
    exception through. *)
Theorem load_drops_collection_on_bad_record {R : Type}
  (from_dict : nat -> json -> outcome R) before key data after loaded e :
  DataManager.load_records from_dict 0 before [] = Return loaded ->
  from_dict (List.length before) data = Raise e ->
  DataManager.load from_dict
    (DataManager.Document (JObj (before ++ (key, data) :: after)))
  = if DataManager.handled e then Return [] else Raise e.
Proof.
  intros Hbefore Hbad. unfold DataManager.load, DataManager.json_load.
  cbn [bind items]. rewrite load_records_app, Hbefore.
  cbn [bind DataManager.load_records Nat.add]. rewrite Hbad. reflexivity.
Qed.

Lemma load_drops_collection_on_bad_record_witness :
  let good := ("acc-A", Account.to_dict Fixture.alice) in
  let bad := ("acc-B", JObj [("account_id", JStr "acc-B"); ("user_id", JStr "user-1");
                             ("account_number", JStr "1000000002");
                             ("account_type", JStr "savings")]) in
  let dir members :=
    {| DataManager.users_file := DataManager.Missing;
       DataManager.accounts_file := DataManager.Document (JObj members);
       DataManager.transactions_file := DataManager.Missing |} in
  DataManager.load_accounts Fixture.oracle (dir [good])
    = Return [("acc-A", Fixture.alice)] /\
  DataManager.load_accounts Fixture.oracle (dir [good; bad]) = Return [].
Proof.
  cbv zeta. split; [reflexivity|].
  apply (load_drops_collection_on_bad_record
           (fun i => Account.from_dict (DataManager.now_at Fixture.oracle i))
           [("acc-A", Account.to_dict Fixture.alice)] "acc-B" _ []
           [("acc-A", Fixture.alice)] KeyError);
    reflexivity.
Defined.

(** ** Statistics and deactivated accounts *)

Lemma filter_values_set {V : Type} (P : V -> bool) (d : dict V) k v v0 :
  dict_get d k = Some v0 -> P v0 = false -> P v = false ->
  filter P (dict_values (dict_set d k v)) = filter P (dict_values d).
Proof.
  intros Hget Hold Hnew. induction d as [|[k1 v1] d IH]; [discriminate|].
  cbn [dict_get dict_set] in *. destruct (String.eqb k1 k).
  - inversion Hget; subst. unfold dict_values. cbn [map snd filter].
    now rewrite Hold, Hnew.
  - unfold dict_values in *. cbn [map snd filter]. now rewrite (IH Hget).
Qed.

(** X23.  Money on a deactivated account is outside the statistics: a deposit
    of a positive amount on a deactivated account returns [True] and raises
    its balance, while [get_system_stats] reports the same [total_balance] and
    the same [total_accounts] as before. *)
Theorem stats_ignore_deactivated_accounts alg tdr bank account_id account amount
  description :
  BankSystem.get_account_by_id bank account_id = Some account ->
  Account.is_active account = false ->
  (0 <? amount)%float = true ->
  exists bank',
    BankSystem.deposit tdr bank account_id amount description = (true, bank') /\
    BankSystem.get_account_by_id bank' account_id
      = Some (Account.set_balance account (Account.balance account + amount)%float) /\
    BankSystem.total_balance (BankSystem.get_system_stats alg bank')
      = BankSystem.total_balance (BankSystem.get_system_stats alg bank) /\
    BankSystem.total_accounts (BankSystem.get_system_stats alg bank')
      = BankSystem.total_accounts (BankSystem.get_system_stats alg bank).
Proof.
  intros Hacc Hinactive Hpos.
  unfold BankSystem.deposit. rewrite Hacc, (ltb_not_leb _ _ Hpos).
  unfold Account.deposit. rewrite (ltb_not_leb _ _ Hpos).
  eexists. split; [reflexivity|].
  unfold BankSystem.get_account_by_id, BankSystem.get_system_stats,
    BankSystem.commit in *.
  cbn [BankSystem.accounts BankSystem.total_balance BankSystem.total_accounts].
  rewrite (filter_values_set Account.is_active _ _
             (Account.set_balance account (Account.balance account + amount)%float)
             _ Hacc Hinactive Hinactive).
  split; [apply dict_get_set_eq|]. split; reflexivity.
Qed.

Lemma stats_ignore_deactivated_accounts_witness :
  let bank := Fixture.bank_of [("acc-A", Fixture.alice); ("acc-D", Fixture.dormant)] [] in
  BankSystem.total_balance (BankSystem.get_system_stats LeftToRight bank) = 100%float /\
  exists bank',
    BankSystem.deposit (Fixture.transaction_draw "tx-1" 100001) bank "acc-D" 50 ""
      = (true, bank') /\
    BankSystem.get_account_by_id bank' "acc-D"
      = Some (Account.set_balance Fixture.dormant 150) /\
    BankSystem.total_balance (BankSystem.get_system_stats LeftToRight bank')
      = 100%float.
Proof.
  cbv zeta. split; [reflexivity|].
  destruct (stats_ignore_deactivated_accounts LeftToRight
              (Fixture.transaction_draw "tx-1" 100001)
              (Fixture.bank_of [("acc-A", Fixture.alice); ("acc-D", Fixture.dormant)] [])
              "acc-D" Fixture.dormant 50 "" eq_refl eq_refl eq_refl)
    as (bank' & Hrun & Hbalance & Htotal & _).
  exists bank'. split; [exact Hrun|]. split; [exact Hbalance|].
  rewrite Htotal. reflexivity.
Defined.
